(** * TimeWeaver: the admin dashboard's timetable generator, the room form
      and the credential endpoints, embedded from the JavaScript sources.

    Conventions of the embedding.
    - A JavaScript string is a [string] whose characters are code units
      below 256 (Latin-1).
    - [parseInt] returns [option Z]: [None] is NaN.  Integers are exact;
      the code's doubles agree with them up to 2^53 in magnitude, and a
      statement that depends on the value of a parsed number says within
      which range it holds.
    - [JSON.parse (JSON.stringify v)] is the identity on the records stored
      under the localStorage keys, so a key holds the list itself;
      [None] is an absent key ([getItem] returns null).
    - [Math.random], [Date.now], [confirm], bcrypt and the users table are
      the environment: they appear as oracles of the state. *)

From Stdlib Require Import String Ascii List Bool Arith ZArith NArith QArith
  DecimalString Lia.
Import ListNotations.

Local Close Scope Q_scope.
Local Open Scope string_scope.
Local Open Scope list_scope.
Local Open Scope nat_scope.

(** * Part I: the embedding *)

(** ** Characters and strings *)

Module JsString.

(** Code units matched by the regular expression class [\s], which are also
    the ones [parseInt] skips: TAB, LF, VT, FF, CR, SPACE, NBSP. *)
Definition isWhiteSpace (c : ascii) : bool :=
  let n := nat_of_ascii c in
  ((9 <=? n) && (n <=? 13)) || (n =? 32) || (n =? 160).

(** [String.prototype.toLowerCase] on one Latin-1 code unit: A-Z and the
    accented capitals U+00C0..U+00DE other than the sign U+00D7. *)
Definition lowerChar (c : ascii) : ascii :=
  let n := nat_of_ascii c in
  if ((65 <=? n) && (n <=? 90))
     || ((192 <=? n) && (n <=? 222) && negb (n =? 215))
  then ascii_of_nat (n + 32) else c.

Fixpoint toLowerCase (s : string) : string :=
  match s with
  | EmptyString => EmptyString
  | String c s' => String (lowerChar c) (toLowerCase s')
  end.

(** [s.replace(/\s+/g, '')]: scanning left to right, each maximal run of
    white space is one match and is replaced by the empty string.
    [skipRun] consumes the rest of a run whose first character matched. *)
Fixpoint skipRun (s : string) : string :=
  match s with
  | EmptyString => EmptyString
  | String c s' => if isWhiteSpace c then skipRun s' else s
  end.

Fixpoint replaceRuns (fuel : nat) (s : string) : string :=
  match fuel with
  | O => EmptyString
  | S fuel' =>
      match s with
      | EmptyString => EmptyString
      | String c s' =>
          if isWhiteSpace c then replaceRuns fuel' (skipRun s')
          else String c (replaceRuns fuel' s')
      end
  end.

Definition replaceWhiteSpaceRuns (s : string) : string :=
  replaceRuns (S (String.length s)) s.

Fixpoint filterChars (p : ascii -> bool) (s : string) : string :=
  match s with
  | EmptyString => EmptyString
  | String c s' => if p c then String c (filterChars p s') else filterChars p s'
  end.

Fixpoint allChars (p : ascii -> bool) (s : string) : bool :=
  match s with
  | EmptyString => true
  | String c s' => p c && allChars p s'
  end.

(** Truthiness of a string value: only the empty string is falsy. *)
Definition truthy (s : string) : bool :=
  match s with EmptyString => false | _ => true end.

(** *** parseInt with no radix argument *)

Fixpoint trimStart (s : string) : string :=
  match s with
  | String c s' => if isWhiteSpace c then trimStart s' else s
  | EmptyString => EmptyString
  end.

Definition digitValue (c : ascii) : option Z :=
  let n := nat_of_ascii c in
  if (48 <=? n) && (n <=? 57) then Some (Z.of_nat (n - 48))
  else if (97 <=? n) && (n <=? 102) then Some (Z.of_nat (n - 87))
  else if (65 <=? n) && (n <=? 70) then Some (Z.of_nat (n - 55))
  else None.

(** Longest prefix of radix-[r] digits, folded into its value; [None] when
    the prefix is empty. *)
Fixpoint digitsPrefix (r : Z) (acc : option Z) (s : string) : option Z :=
  match s with
  | EmptyString => acc
  | String c s' =>
      match digitValue c with
      | Some d =>
          if (d <? r)%Z
          then digitsPrefix r
                 (Some (match acc with Some a => a * r + d | None => d end)%Z) s'
          else acc
      | None => acc
      end
  end.

Definition parseInt (input : string) : option Z :=
  let s := trimStart input in
  let '(sign, s1) :=
    match s with
    | String "-" rest => ((-1)%Z, rest)
    | String "+" rest => (1%Z, rest)
    | _ => (1%Z, s)
    end in
  let '(radix, s2) :=
    match s1 with
    | String "0" (String "x" rest) => (16%Z, rest)
    | String "0" (String "X" rest) => (16%Z, rest)
    | _ => (10%Z, s1)
    end in
  option_map (Z.mul sign) (digitsPrefix radix None s2).

(** Number-to-string conversion of an integer, or of NaN. *)
Definition numberToString (n : option Z) : string :=
  match n with
  | Some z => NilZero.string_of_int (Z.to_int z)
  | None => "NaN"
  end.

End JsString.

(** ** State passing

    A handler or event callback is a function of the state it runs in. *)

Definition State (S A : Type) : Type := S -> A * S.

Definition ret {S A} (a : A) : State S A := fun s => (a, s).

Definition bind {S A B} (c : State S A) (k : A -> State S B) : State S B :=
  fun s => let (a, s') := c s in k a s'.

Definition gets {S A} (f : S -> A) : State S A := fun s => (f s, s).

Declare Scope js_scope.
Delimit Scope js_scope with js.
Notation "x <- c ;; k" := (bind c (fun x => k))
  (at level 61, c at next level, right associativity) : js_scope.
Notation "c ;;; k" := (bind c (fun _ => k))
  (at level 61, right associativity) : js_scope.
Local Open Scope js_scope.

(** ** Math.random as the code sees it

    The scripts use a value of [Math.random()] in three ways: compared with
    a literal ([> 0.2], [> 0.7]), scaled to an index
    ([Math.floor(Math.random() * n)]), and added to [Date.now()].  The class
    lists these views; its law is the range of the index.  For a double [r]
    in [0, 1) and an array length [n] the rounded product [r * n] stays below
    [n], so the law holds of the real [Math.random] as well. *)

Class MathRandom := {
  draw : Type;
  draw_gt : draw -> Q -> bool;
  draw_index : draw -> nat -> nat;
  draw_plus : Z -> draw -> Q;
  draw_index_lt : forall d n, 0 < n -> draw_index d n < n
}.

(** The double nearest to the literals [0.2] and [0.7]. *)
Definition lit_0_2 : Q := 3602879701896397 # 18014398509481984.
Definition lit_0_7 : Q := 3152519739159347 # 4503599627370496.

(** An instance with exact arithmetic: a draw is the fraction
    [(fnum mod fden) / fden], which lies in [0, 1). *)
Record frac := mkFrac { fnum : N; fden : positive }.

Definition frac_value (f : frac) : Q :=
  Z.of_N (fnum f mod Npos (fden f)) # fden f.

Definition frac_gt (f : frac) (c : Q) : bool := negb (Qle_bool (frac_value f) c).

Definition frac_index (f : frac) (n : nat) : nat :=
  N.to_nat ((fnum f mod Npos (fden f)) * N.of_nat n / Npos (fden f)).

Definition frac_plus (now : Z) (f : frac) : Q :=
  Qred (inject_Z now + frac_value f).

#[export, refine] Instance ExactRandom : MathRandom := {
  draw := frac;
  draw_gt := frac_gt;
  draw_index := frac_index;
  draw_plus := frac_plus;
  draw_index_lt := _
}.
Proof.
  intros f n Hn. unfold frac_index.
  set (d := Npos (fden f)). set (a := (fnum f mod d)%N).
  assert (Ha : (a < d)%N) by (apply N.mod_lt; discriminate).
  assert (Hq : (a * N.of_nat n / d < N.of_nat n)%N)
    by (apply N.Div0.div_lt_upper_bound; nia).
  lia.
Defined.

(** ** The dashboard's data *)

Record Faculty := mkFaculty {
  f_id : Z; f_name : string; f_dept : string; f_role : string;
  f_subject : string; f_current : Z; f_max : option Z
}.

Record Student := mkStudent {
  s_id : Z; s_name : string; s_roll : string; s_batch : string;
  s_dept : string; s_section : string
}.

Record Features := mkFeatures {
  hasProjector : bool; hasLab : bool; hasAC : bool
}.

Record Room := mkRoom {
  r_id : Z; r_building : string; r_number : string; r_fullName : string;
  r_type : string; r_capacity : Z; r_features : Features
}.

Record Rule := mkRule {
  rule_id : Z; rule_name : string; rule_type : string; rule_weight : string;
  rule_description : string; rule_isHard : bool; rule_isActive : bool
}.

(** A timetable entry.  The meta tags [dept], [sem], [section] are optional:
    [loadTimetable] itself expects stored entries without a section. *)
Record Entry := mkEntry {
  e_id : Q; e_day : string; e_time : string; e_subject : string;
  e_faculty : string; e_room : string;
  e_dept : option string; e_sem : option string; e_section : option string;
  e_program : string; e_year : string
}.

Record Criteria := mkCriteria {
  c_year : string; c_program : string; c_dept : string; c_sem : string;
  c_section : string
}.

(** Values of the form controls the functions read. *)
Record Dom := mkDom {
  tt_year : string; tt_program : string; tt_dept : string; tt_sem : string;
  tt_sec : string;
  room_building : string; room_number : string; room_type : string;
  room_capacity : string;
  room_projector : bool; room_lab : bool; room_ac : bool
}.

Section Dashboard.

Context {MR : MathRandom}.

(** The page: form controls, the script's global lists, two localStorage
    keys, the oracles with their read positions, and the alerts shown. *)
Record World := mkWorld {
  dom : Dom;
  facultyData : list Faculty;
  studentData : list Student;
  roomData : list Room;
  ruleData : list Rule;
  ls_rooms : option (list Room);
  ls_timetable : option (list Entry);
  rng : nat -> draw;
  rng_pos : nat;
  clock : nat -> Z;
  clock_pos : nat;
  confirmReply : string -> bool;
  alerts : list string
}.

(** *** State passing *)

Definition M : Type -> Type := State World.

Definition random : M draw := fun w =>
  (rng w (rng_pos w),
   mkWorld (dom w) (facultyData w) (studentData w) (roomData w) (ruleData w)
     (ls_rooms w) (ls_timetable w) (rng w) (S (rng_pos w)) (clock w)
     (clock_pos w) (confirmReply w) (alerts w)).

Definition dateNow : M Z := fun w =>
  (clock w (clock_pos w),
   mkWorld (dom w) (facultyData w) (studentData w) (roomData w) (ruleData w)
     (ls_rooms w) (ls_timetable w) (rng w) (rng_pos w) (clock w)
     (S (clock_pos w)) (confirmReply w) (alerts w)).

Definition alert (msg : string) : M unit := fun w =>
  (tt,
   mkWorld (dom w) (facultyData w) (studentData w) (roomData w) (ruleData w)
     (ls_rooms w) (ls_timetable w) (rng w) (rng_pos w) (clock w)
     (clock_pos w) (confirmReply w) (alerts w ++ [msg])).

Definition confirm (msg : string) : M bool := gets (fun w => confirmReply w msg).

Definition setTimetable (v : list Entry) : M unit := fun w =>
  (tt,
   mkWorld (dom w) (facultyData w) (studentData w) (roomData w) (ruleData w)
     (ls_rooms w) (Some v) (rng w) (rng_pos w) (clock w)
     (clock_pos w) (confirmReply w) (alerts w)).

Definition pushRoom (r : Room) : M unit := fun w =>
  (tt,
   mkWorld (dom w) (facultyData w) (studentData w) (roomData w ++ [r])
     (ruleData w) (Some (roomData w ++ [r])) (ls_timetable w) (rng w)
     (rng_pos w) (clock w) (clock_pos w) (confirmReply w) (alerts w)).

(** [xs.forEach(x => ...)] where the body updates a local variable. *)
Fixpoint forEach {X S : Type} (xs : list X) (body : X -> S -> M S) (s : S)
  : M S :=
  match xs with
  | [] => ret s
  | x :: xs' => s' <- body x s ;; forEach xs' body s'
  end.

(** [xs[Math.floor(Math.random() * xs.length)]]; the default stands for
    [undefined], which the index law rules out on a non-empty array. *)
Definition pick {A} (d : draw) (xs : list A) (dflt : A) : A :=
  nth (draw_index d (length xs)) xs dflt.

(** *** Timetable logic *)

Definition times : list string :=
  ["09:00"; "10:00"; "11:00"; "12:00"; "01:00"; "02:00"; "03:00"].
Definition days : list string :=
  ["Monday"; "Tuesday"; "Wednesday"; "Thursday"; "Friday"].
Definition subjects : list string :=
  ["Data Structures"; "Algorithms"; "Database Systems"; "OS"; "Networks";
   "AI/ML"; "Cloud Computing"].

Definition getFilterCriteria : M Criteria :=
  gets (fun w => mkCriteria (tt_year (dom w)) (tt_program (dom w))
                   (tt_dept (dom w)) (tt_sem (dom w)) (tt_sec (dom w))).

(** [t.x === v] for an optional stored field and a string. *)
Definition strictEq (field : option string) (v : string) : bool :=
  match field with Some s => String.eqb s v | None => false end.

(** [t.dept === dept && t.sem === sem && t.section === section] *)
Definition matchesCriteria (c : Criteria) (t : Entry) : bool :=
  strictEq (e_dept t) (c_dept c) && strictEq (e_sem t) (c_sem c)
  && strictEq (e_section t) (c_section c).

Definition noFaculty : Faculty := mkFaculty 0 "" "" "" "" 0 None.
Definition noRoom : Room := mkRoom 0 "" "" "" "" 0 (mkFeatures false false false).

Definition confirmMessage (mode : string) (c : Criteria) : string :=
  "Are you sure you want to " ++ mode ++ " the schedule for " ++ c_program c
  ++ " " ++ c_dept c ++ " Sem-" ++ c_sem c ++ " Sec-" ++ c_section c
  ++ "? This will overwrite existing entries.".

(** ["R-" + (100 + parseInt(sem) * 10 + k)] *)
Definition fallbackRoom (sem : string) (k : nat) : string :=
  "R-" ++ JsString.numberToString
            (option_map (fun p => 100 + p * 10 + Z.of_nat k)%Z
               (JsString.parseInt sem)).

(** The body of the inner [times.forEach] for one (day, time). *)
Definition cellBody (c : Criteria) (day time : string)
  (allTimetableData : list Entry) : M (list Entry) :=
  r <- random ;;
  if draw_gt r lit_0_2 then
    rs <- random ;;
    let randomSubject := pick rs subjects "" in
    deptFaculty <- gets (fun w =>
      filter (fun f => String.eqb (f_dept f) (c_dept c)) (facultyData w)) ;;
    assignedFaculty <-
      (if 0 <? length deptFaculty
       then rf <- random ;; ret (f_name (pick rf deptFaculty noFaculty))
       else ret "TBA") ;;
    relevantRooms <- gets (fun w =>
      filter (fun r => String.eqb (r_type r) "classroom") (roomData w)) ;;
    assignedRoom <-
      (if 0 <? length relevantRooms
       then rr <- random ;; ret (r_fullName (pick rr relevantRooms noRoom))
       else rr <- random ;; ret (fallbackRoom (c_sem c) (draw_index rr 5))) ;;
    now <- dateNow ;;
    ri <- random ;;
    ret (allTimetableData ++
         [mkEntry (draw_plus now ri) day time randomSubject assignedFaculty
            assignedRoom (Some (c_dept c)) (Some (c_sem c))
            (Some (c_section c)) (c_program c) (c_year c)])
  else ret allTimetableData.

(** [days.forEach(day => times.forEach(time => ...))] *)
Definition generateEntries (c : Criteria) (existing : list Entry)
  : M (list Entry) :=
  forEach days (fun day => forEach times (fun time => cellBody c day time))
    existing.

(** [loadTimetable] only renders: it reads the stored list and the criteria
    and writes the grid's markup, which is no part of [World]. *)
Definition loadTimetable (isFiltered : bool) : M unit := ret tt.

Definition generateTimetable (mode : string) : M unit :=
  criteria <- getFilterCriteria ;;
  ok <- confirm (confirmMessage mode criteria) ;;
  if negb ok then ret tt
  else
    stored <- gets ls_timetable ;;
    let existing := match stored with Some l => l | None => [] end in
    let kept := filter (fun t => negb (matchesCriteria criteria t)) existing in
    allTimetableData <- generateEntries criteria kept ;;
    setTimetable allTimetableData ;;;
    alert "Timetable Generated Successfully!" ;;;
    loadTimetable true.

(** *** Room logic *)

(** Truthiness of a number that [parseInt] returned: NaN and 0 are falsy. *)
Definition numberTruthy (n : option Z) : bool :=
  match n with Some z => negb (z =? 0)%Z | None => false end.

Definition requiredFieldsMessage : string :=
  "Please fill required fields (Building, Number, Capacity)".

(** [toggleModal] and [renderRooms] only touch the markup. *)
Definition saveRoom : M unit :=
  building <- gets (fun w => room_building (dom w)) ;;
  number <- gets (fun w => room_number (dom w)) ;;
  type <- gets (fun w => room_type (dom w)) ;;
  capacity <- gets (fun w => JsString.parseInt (room_capacity (dom w))) ;;
  hasProjector <- gets (fun w => room_projector (dom w)) ;;
  hasLab <- gets (fun w => room_lab (dom w)) ;;
  hasAC <- gets (fun w => room_ac (dom w)) ;;
  if negb (JsString.truthy building) || negb (JsString.truthy number)
     || negb (numberTruthy capacity)
  then alert requiredFieldsMessage
  else
    now <- dateNow ;;
    pushRoom (mkRoom now building number (building ++ " - " ++ number) type
                (match capacity with Some z => z | None => 0%Z end)
                (mkFeatures hasProjector hasLab hasAC)).

(** *** The master grid's demonstration cell (app.js) *)

Definition dq : string := String (ascii_of_nat 34) EmptyString.
Definition nl : string := String (ascii_of_nat 10) EmptyString.

Definition classCard : string :=
  nl ++
  "            <div class=" ++ dq ++ "class-card" ++ dq ++ ">" ++ nl ++
  "                <div>" ++ nl ++
  "                    <h4 class=" ++ dq
    ++ "text-[11px] font-bold text-indigo-700 uppercase" ++ dq
    ++ ">CS302: AI</h4>" ++ nl ++
  "                    <p class=" ++ dq ++ "text-xs font-bold" ++ dq
    ++ ">Dr. Sarah Thorne</p>" ++ nl ++
  "                </div>" ++ nl ++
  "                <div class=" ++ dq
    ++ "flex justify-between items-center text-[10px] text-slate-500" ++ dq
    ++ ">" ++ nl ++
  "                    <span>Room 402</span>" ++ nl ++
  "                    <i class=" ++ dq
    ++ "fas fa-check-circle text-green-500" ++ dq ++ "></i>" ++ nl ++
  "                </div>" ++ nl ++
  "            </div>" ++ nl ++
  "        ".

Definition mockClass (day hour : string) : M string :=
  r <- random ;;
  if draw_gt r lit_0_7 then ret classCard else ret "".

(** *** A faculty member's load (faculty_dashboard/script.js, updateUI) *)

(** [timetableData.filter(t => t.faculty === currentUser.name).length] *)
Definition currentLoad (name : string) (timetableData : list Entry) : nat :=
  length (filter (fun t => String.eqb (e_faculty t) name) timetableData).

End Dashboard.

(** ** The credential service (server.js) *)

(** bcrypt: hashing takes the data, the cost and a salt of its own making;
    comparison takes the data and a stored hash. *)
Class Bcrypt := {
  bcrypt_hash : string -> nat -> string -> string;
  bcrypt_compare : string -> string -> bool
}.

#[local] Set Warnings "-register-all".
Inductive Json :=
| JNull
| JNum (z : Z)
| JStr (s : string)
| JObj (fields : list (string * Json)).

Record Response := mkResponse { status : nat; body : Json }.

(** A row of the [users] table (db/schema.sql). *)
Record UserRow := mkUserRow {
  u_id : Z; u_username : string; u_password_hash : string; u_role : string;
  u_full_name : option string; u_created_at : Z
}.

(** The database as the handlers meet it: reachable or not, the rows, the
    next value of the id sequence, its clock; and the salts bcrypt draws. *)
Record Server := mkServer {
  db_available : bool;
  users : list UserRow;
  users_id_seq : Z;
  db_now : Z;
  salts : nat -> string;
  salt_pos : nat
}.

Inductive QueryError :=
| UniqueViolation   (* err.code === '23505' *)
| OtherError.

Record CreateUserBody := mkCreateUserBody {
  cu_name : option string; cu_role : option string; cu_dob : option string
}.

Record LoginBody := mkLoginBody {
  lg_username : option string; lg_password : option string;
  lg_role : option string
}.

Section Service.

Context {BC : Bcrypt}.

Definition Srv : Type -> Type := State Server.

(** [!x] for a field of the parsed body that is absent or a string. *)
Definition falsy (x : option string) : bool :=
  match x with Some s => negb (JsString.truthy s) | None => true end.

(** The string held by a field that passed the [!x] test. *)
Definition stringOf (x : option string) : string :=
  match x with Some s => s | None => "" end.

Definition nextSalt : Srv string := fun s =>
  (salts s (salt_pos s),
   mkServer (db_available s) (users s) (users_id_seq s) (db_now s) (salts s)
     (S (salt_pos s))).

Definition allowedRoles : list string := ["admin"; "faculty"; "student"].

(** PostgreSQL refuses a text value that contains the NUL character. *)
Definition hasNul (s : string) : bool :=
  negb (JsString.allChars (fun c => negb (Ascii.eqb c zero)) s).

Fixpoint takeChars (n : nat) (s : string) : string :=
  match n, s with
  | S n', String c s' => String c (takeChars n' s')
  | _, _ => EmptyString
  end.

Fixpoint dropChars (n : nat) (s : string) : string :=
  match n, s with
  | S n', String _ s' => dropChars n' s'
  | _, _ => s
  end.

(** What a VARCHAR(n) column stores of a value: the value itself, or its
    first [n] characters when all that is cut off is spaces; otherwise the
    insert fails. *)
Definition varchar (n : nat) (s : string) : option string :=
  if String.length s <=? n then Some s
  else if JsString.allChars (Ascii.eqb " ") (dropChars n s)
       then Some (takeChars n s)
       else None.

Definition usernameTaken (username : string) (rows : list UserRow) : bool :=
  existsb (fun u => String.eqb (u_username u) username) rows.

(** The state after a statement that drew an id from the sequence. *)
Definition nextId (s : Server) (rows : list UserRow) : Server :=
  mkServer (db_available s) rows (users_id_seq s + 1)%Z (db_now s) (salts s)
    (salt_pos s).

(** [INSERT INTO users (username, password_hash, role, full_name)
     VALUES ($1, $2, $3, $4) RETURNING id, username, role]
    under the schema of db/schema.sql: the column lengths, the role CHECK,
    the UNIQUE username.  A value that does not fit its column is refused
    before the row is built; a row that fails the CHECK or the UNIQUE
    constraint has already drawn its id. *)
Definition insertUser (username hash role : string) (full_name : option string)
  : Srv (QueryError + UserRow) := fun s =>
  if negb (db_available s) then (inl OtherError, s)
  else if hasNul username || hasNul hash || hasNul role
          || match full_name with Some n => hasNul n | None => false end
  then (inl OtherError, s)
  else
    match varchar 255 username, varchar 255 hash, varchar 50 role,
          match full_name with
          | Some n => option_map Some (varchar 255 n)
          | None => Some None
          end
    with
    | Some u, Some h, Some r, Some fn =>
        if negb (existsb (String.eqb r) allowedRoles)
        then (inl OtherError, nextId s (users s))
        else if usernameTaken u (users s)
        then (inl UniqueViolation, nextId s (users s))
        else
          let row := mkUserRow (users_id_seq s) u h r fn (db_now s) in
          (inr row, nextId s (users s ++ [row]))
    | _, _, _, _ => (inl OtherError, s)
    end.

(** The rows with the username and role given; an undefined parameter is
    sent as NULL, which equals nothing. *)
Definition usersWhere (username role : option string) (rows : list UserRow)
  : list UserRow :=
  match username, role with
  | Some u, Some r =>
      filter (fun row => String.eqb (u_username row) u
                         && String.eqb (u_role row) r) rows
  | _, _ => []
  end.

Definition parameterOk (p : option string) : bool :=
  match p with Some v => negb (hasNul v) | None => true end.

(** [SELECT * FROM users WHERE username = $1 AND role = $2] *)
Definition selectUser (username role : option string)
  : Srv (QueryError + list UserRow) := fun s =>
  if negb (db_available s) then (inl OtherError, s)
  else if negb (parameterOk username) || negb (parameterOk role)
  then (inl OtherError, s)
  else (inr (usersWhere username role (users s)), s).

Definition errorBody (msg : string) : Json := JObj [("error", JStr msg)].

(** POST /api/admin/create-user *)
Definition createUser (req : CreateUserBody) : Srv Response :=
  if falsy (cu_name req) || falsy (cu_role req) || falsy (cu_dob req)
  then ret (mkResponse 400 (errorBody "Missing fields: name, role, dob"))
  else
    let name := stringOf (cu_name req) in
    let role := stringOf (cu_role req) in
    let dob := stringOf (cu_dob req) in
    let username :=
      JsString.replaceWhiteSpaceRuns (JsString.toLowerCase name) in
    let password := dob in
    salt <- nextSalt ;;
    let hashedPassword := bcrypt_hash password 10 salt in
    result <- insertUser username hashedPassword role (Some name) ;;
    match result with
    | inr row =>
        ret (mkResponse 201
               (JObj [("message", JStr "User created successfully");
                      ("user", JObj [("id", JNum (u_id row));
                                     ("username", JStr (u_username row));
                                     ("role", JStr (u_role row))]);
                      ("generatedCredentials",
                       JObj [("username", JStr username);
                             ("password", JStr password)])]))
    | inl UniqueViolation =>
        ret (mkResponse 409
               (errorBody ("Username '" ++ username ++
                  "' already exists. Please use a distinct name or handle duplicates.")))
    | inl OtherError => ret (mkResponse 500 (errorBody "Server error"))
    end.

(** POST /api/auth/login.  [bcrypt.compare] throws on an undefined
    password, which the handler's catch turns into a 500. *)
Definition login (req : LoginBody) : Srv Response :=
  result <- selectUser (lg_username req) (lg_role req) ;;
  match result with
  | inl _ => ret (mkResponse 500 (errorBody "Server error"))
  | inr [] => ret (mkResponse 401 (errorBody "Invalid credentials"))
  | inr (user :: _) =>
      match lg_password req with
      | None => ret (mkResponse 500 (errorBody "Server error"))
      | Some password =>
          if bcrypt_compare password (u_password_hash user)
          then ret (mkResponse 200
                      (JObj [("id", JNum (u_id user));
                             ("username", JStr (u_username user));
                             ("role", JStr (u_role user));
                             ("name", match u_full_name user with
                                      | Some n => JStr n
                                      | None => JNull
                                      end)]))
          else ret (mkResponse 401 (errorBody "Invalid credentials"))
      end
  end.

End Service.

(** * Part II: notions used to state the claims *)

(** ** The generator, cell by cell

    A pure reading of [generateTimetable]'s loops, used to state what a run
    adds.  Its agreement with the loops is [forEach_runCells] below. *)

Section Cells.

Context {MR : MathRandom}.

(** The (day, time) cells in the order the nested loops visit them. *)
Definition grid : list (string * string) := list_prod days times.

Definition cellOf (e : Entry) : string * string := (e_day e, e_time e).

Definition deptFacultyOf (c : Criteria) (w : World) : list Faculty :=
  filter (fun f => String.eqb (f_dept f) (c_dept c)) (facultyData w).

Definition classroomsOf (w : World) : list Room :=
  filter (fun r => String.eqb (r_type r) "classroom") (roomData w).

(** Calls of [Math.random] made for a cell that gets a class: the decision,
    the subject, the faculty member when the department has any, the room,
    the id. *)
Definition drawsPerEntry (c : Criteria) (w : World) : nat :=
  if 0 <? length (deptFacultyOf c w) then 5 else 4.

(** The state after [dr] more calls of [Math.random] and [dc] of [Date.now]. *)
Definition advance (dr dc : nat) (w : World) : World :=
  mkWorld (dom w) (facultyData w) (studentData w) (roomData w) (ruleData w)
    (ls_rooms w) (ls_timetable w) (rng w) (dr + rng_pos w) (clock w)
    (dc + clock_pos w) (confirmReply w) (alerts w).

Definition accepts (w : World) : bool := draw_gt (rng w (rng_pos w)) lit_0_2.

(** The entry pushed for an accepted cell, read off the oracles. *)
Definition entryAt (c : Criteria) (day time : string) (w : World) : Entry :=
  let p := rng_pos w in
  let deptFaculty := deptFacultyOf c w in
  let relevantRooms := classroomsOf w in
  let hasFaculty := 0 <? length deptFaculty in
  let roomPos := if hasFaculty then 3 + p else 2 + p in
  mkEntry (draw_plus (clock w (clock_pos w)) (rng w (S roomPos))) day time
    (pick (rng w (1 + p)) subjects "")
    (if hasFaculty then f_name (pick (rng w (2 + p)) deptFaculty noFaculty)
     else "TBA")
    (if 0 <? length relevantRooms
     then r_fullName (pick (rng w roomPos) relevantRooms noRoom)
     else fallbackRoom (c_sem c) (draw_index (rng w roomPos) 5))
    (Some (c_dept c)) (Some (c_sem c)) (Some (c_section c))
    (c_program c) (c_year c).

Fixpoint runCells (c : Criteria) (cells : list (string * string)) (w : World)
  : list Entry * World :=
  match cells with
  | [] => ([], w)
  | (day, time) :: rest =>
      if accepts w
      then let (l, w') := runCells c rest (advance (drawsPerEntry c w) 1 w) in
           (entryAt c day time w :: l, w')
      else runCells c rest (advance 1 0 w)
  end.

(** The cells whose decision draw exceeds 0.2, given the position [pos] of
    the first decision and the number [k] of draws an accepted cell takes. *)
Fixpoint acceptedCells (rnd : nat -> draw) (k pos : nat)
  (cells : list (string * string)) : list (string * string) :=
  match cells with
  | [] => []
  | cell :: rest =>
      if draw_gt (rnd pos) lit_0_2
      then cell :: acceptedCells rnd k (k + pos) rest
      else acceptedCells rnd k (1 + pos) rest
  end.

Definition cell_eqb (a b : string * string) : bool :=
  String.eqb (fst a) (fst b) && String.eqb (snd a) (snd b).

Fixpoint distinctb {A} (eqb : A -> A -> bool) (l : list A) : bool :=
  match l with
  | [] => true
  | x :: r => negb (existsb (eqb x) r) && distinctb eqb r
  end.

(** What the criteria of a run are, and the entries it adds. *)
Definition criteriaOf (w : World) : Criteria :=
  mkCriteria (tt_year (dom w)) (tt_program (dom w)) (tt_dept (dom w))
    (tt_sem (dom w)) (tt_sec (dom w)).

Definition confirmed (mode : string) (w : World) : bool :=
  confirmReply w (confirmMessage mode (criteriaOf w)).

Definition storedTimetable (w : World) : list Entry :=
  match ls_timetable w with Some l => l | None => [] end.

Definition keptEntries (w : World) : list Entry :=
  filter (fun t => negb (matchesCriteria (criteriaOf w) t)) (storedTimetable w).

Definition addedEntries (w : World) : list Entry :=
  fst (runCells (criteriaOf w) grid w).

End Cells.

(** ** Pages that differ where a run does not look *)

Section Relations.

Context {MR : MathRandom}.

(** The data a run reads and never writes. *)
Definition sameData (w w' : World) : Prop :=
  dom w' = dom w /\ facultyData w' = facultyData w
  /\ studentData w' = studentData w /\ roomData w' = roomData w
  /\ ruleData w' = ruleData w /\ ls_rooms w' = ls_rooms w
  /\ ls_timetable w' = ls_timetable w /\ rng w' = rng w
  /\ clock w' = clock w /\ confirmReply w' = confirmReply w
  /\ alerts w' = alerts w.

Definition eraseCapacity (r : Room) : Room :=
  mkRoom (r_id r) (r_building r) (r_number r) (r_fullName r) (r_type r) 0
    (r_features r).

Definition eraseLoad (f : Faculty) : Faculty :=
  mkFaculty (f_id f) (f_name f) (f_dept f) (f_role f) (f_subject f) 0 None.

(** Two pages that differ at most in room capacities, in faculty loads and
    limits, in the student list, the rules, the stored rooms and timetable. *)
Definition sameButLimits (w w2 : World) : Prop :=
  dom w2 = dom w
  /\ map eraseLoad (facultyData w2) = map eraseLoad (facultyData w)
  /\ map eraseCapacity (roomData w2) = map eraseCapacity (roomData w)
  /\ rng w2 = rng w /\ rng_pos w2 = rng_pos w
  /\ clock w2 = clock w /\ clock_pos w2 = clock_pos w.

(** What the generator reads of a room and of a faculty member: the type and
    the full name; the department and the name. *)
Definition roomAsRead (r : Room) : Room :=
  mkRoom 0 "" "" (r_fullName r) (r_type r) 0 (mkFeatures false false false).

Definition facultyAsRead (f : Faculty) : Faculty :=
  mkFaculty 0 (f_name f) (f_dept f) "" "" 0 None.

(** Two pages that differ at most in what the generator does not read of
    rooms and faculty (ids, capacities, features, loads, limits, ...), in the
    student list, the rules, the stored rooms and timetable. *)
Definition sameAsRead (w w2 : World) : Prop :=
  dom w2 = dom w
  /\ map facultyAsRead (facultyData w2) = map facultyAsRead (facultyData w)
  /\ map roomAsRead (roomData w2) = map roomAsRead (roomData w)
  /\ rng w2 = rng w /\ rng_pos w2 = rng_pos w
  /\ clock w2 = clock w /\ clock_pos w2 = clock_pos w.

(** The page with other oracles, read from the same positions. *)
Definition withOracles (rnd : nat -> draw) (clk : nat -> Z) (w : World)
  : World :=
  mkWorld (dom w) (facultyData w) (studentData w) (roomData w) (ruleData w)
    (ls_rooms w) (ls_timetable w) rnd (rng_pos w) clk (clock_pos w)
    (confirmReply w) (alerts w).

(** Same lists and read positions; the next [nr] draws and [nc] clock
    readings agree. *)
Definition agreeFor (nr nc : nat) (w w2 : World) : Prop :=
  facultyData w2 = facultyData w /\ roomData w2 = roomData w
  /\ rng_pos w2 = rng_pos w /\ clock_pos w2 = clock_pos w
  /\ (forall q, rng_pos w <= q < rng_pos w + nr -> rng w2 q = rng w q)
  /\ (forall q, clock_pos w <= q < clock_pos w + nc -> clock w2 q = clock w q).

(** The form with another section selected. *)
Definition selectSection (sec : string) (w : World) : World :=
  mkWorld
    (mkDom (tt_year (dom w)) (tt_program (dom w)) (tt_dept (dom w))
       (tt_sem (dom w)) sec (room_building (dom w)) (room_number (dom w))
       (room_type (dom w)) (room_capacity (dom w)) (room_projector (dom w))
       (room_lab (dom w)) (room_ac (dom w)))
    (facultyData w) (studentData w) (roomData w) (ruleData w) (ls_rooms w)
    (ls_timetable w) (rng w) (rng_pos w) (clock w) (clock_pos w)
    (confirmReply w) (alerts w).

End Relations.

(** ** The properties the specification asks of a schedule

    These follow the specification's words; the scripts have no function
    that computes them.  A session is a (day, time) cell of the criteria, an
    assignment is a stored entry, the enrolled count of a section is the
    number of student records with its dept and section, a faculty member's
    assigned hours are the entries that name them (the count the faculty
    dashboard shows as the current load), and a hard constraint is active when
    some rule is both hard and active. *)

Section Properties.

Context {MR : MathRandom}.

Definition sameSlot (a b : Entry) : Prop :=
  e_day a = e_day b /\ e_time a = e_time b.

(** No two assignments share (room, slot) or (faculty, slot). *)
Definition noDoubleBooking (schedule : list Entry) : Prop :=
  forall i j a b, i <> j ->
    nth_error schedule i = Some a -> nth_error schedule j = Some b ->
    sameSlot a b -> e_room a <> e_room b /\ e_faculty a <> e_faculty b.






(** Students on record in the section of the criteria. *)
Definition enrolledCount (c : Criteria) (students : list Student) : nat :=
  length (filter (fun s => String.eqb (s_dept s) (c_dept c)
                           && String.eqb (s_section s) (c_section c))
            students).

(** Every assignment's room holds the section. *)
Definition capacityRespected (c : Criteria) (w : World) (schedule : list Entry)
  : Prop :=
  forall e r, In e schedule -> matchesCriteria c e = true ->
    In r (roomData w) -> r_fullName r = e_room e ->
    (Z.of_nat (enrolledCount c (studentData w)) <= r_capacity r)%Z.

Definition hardRuleActive (rules : list Rule) : bool :=
  existsb (fun r => rule_isHard r && rule_isActive r) rules.

(** With a hard rule active, nobody teaches more one-hour sessions than
    their weekly maximum. *)
Definition workloadBounded (w : World) (schedule : list Entry) : Prop :=
  hardRuleActive (ruleData w) = true ->
  forall f m, In f (facultyData w) -> f_max f = Some m ->
    (Z.of_nat (currentLoad (f_name f) schedule) <= m)%Z.

(** The committed room has the lowest id among the classrooms it could have
    been: the tie-break for candidates of equal penalty. *)
Definition lowestRoomCommitted (w : World) (e : Entry) : Prop :=
  forall r, In r (classroomsOf w) -> r_fullName r = e_room e ->
    forall r', In r' (classroomsOf w) -> (r_id r <= r_id r')%Z.

End Properties.

(** ** The properties asked of the credential service *)

Section ServiceProperties.

Context {BC : Bcrypt}.

(** The claim's wording of the username: the name lowercased, with every
    white-space character removed. *)
Definition lowercasedWithoutWhiteSpace (name : string) : string :=
  JsString.filterChars (fun c => negb (JsString.isWhiteSpace c))
    (JsString.toLowerCase name).

Fixpoint field (key : string) (fields : list (string * Json)) : option Json :=
  match fields with
  | [] => None
  | (k, v) :: rest => if String.eqb k key then Some v else field key rest
  end.

(** The username and password a response reports as generated. *)
Definition generatedCredentials (r : Response) : option (string * string) :=
  match body r with
  | JObj fields =>
      match field "generatedCredentials" fields with
      | Some (JObj creds) =>
          match field "username" creds, field "password" creds with
          | Some (JStr u), Some (JStr p) => Some (u, p)
          | _, _ => None
          end
      | _ => None
      end
  | _ => None
  end.

(** The claim's wording of login: a row matches the (username, role) given;
    the database answers the query; a row is the first of the table that
    matches. *)
Definition rowMatches (req : LoginBody) (row : UserRow) : Prop :=
  lg_username req = Some (u_username row) /\ lg_role req = Some (u_role row).




End ServiceProperties.

(** ** Concrete pages and servers, with exact draws

    The draws used below are 0, 1/2 and 3/4: each is a double, and every
    product, floor and sum the runs take of them is exact in double
    arithmetic. *)

(** A stand-in for bcrypt: the hash is the salt followed by the data, and
    comparison looks for the data after a four-character salt. *)
#[export] Instance PlainBcrypt : Bcrypt := {
  bcrypt_hash := fun data _ salt => (salt ++ data)%string;
  bcrypt_compare := fun data hash =>
    String.eqb (substring 4 (String.length hash - 4) hash) data
}.

Module Scenario.

Definition half : frac := mkFrac 1 2.
Definition zero : frac := mkFrac 0 1.

Definition wallClock : nat -> Z := fun n => (1700000000000 + Z.of_nat n)%Z.

Definition form : Dom :=
  mkDom "2025-2026" "B.Tech" "CS" "3" "A"
    "Block A" "101" "classroom" "50" true false true.

Definition thorne : Faculty :=
  mkFaculty 1 "Dr. Sarah Thorne" "CS" "Professor" "Networks" 16 (Some 18%Z).

Definition room101 : Room :=
  mkRoom 1001 "Block A" "101" "Block A - 101" "classroom" 50
    (mkFeatures true false true).

(** Draws that give a class to the first cell of each run and to no other:
    a run then takes 5 + 34 draws. *)
Definition firstCellOnly : nat -> frac :=
  fun n => if n mod 39 <? 5 then half else zero.

(** An empty store, one CS professor, one classroom. *)
Definition fresh (rnd : nat -> frac) : World :=
  mkWorld form [thorne] [] [room101] [] None None rnd 0 wallClock 0
    (fun _ => true) [].

(** Section A has been generated; section B is selected next. *)
Definition afterSectionA : World :=
  selectSection "B" (snd (generateTimetable "generate" (fresh firstCellOnly))).

(** A store holding one entry of section A and one of section B. *)
Definition oldA : Entry :=
  mkEntry 7 "Friday" "03:00" "OS" "TBA" "R-130"
    (Some "CS") (Some "3") (Some "A") "B.Tech" "2025-2026".
Definition oldB : Entry :=
  mkEntry 8 "Friday" "03:00" "AI/ML" "TBA" "R-131"
    (Some "CS") (Some "3") (Some "B") "B.Tech" "2025-2026".

Definition withBoth : World :=
  mkWorld form [thorne] [] [room101] [] None (Some [oldA; oldB]) firstCellOnly
    0 wallClock 0 (fun _ => true) [].

End Scenario.

Module Crowded.

Definition student (n : nat) : Student :=
  mkStudent (Z.of_nat n) "Student" (JsString.numberToString (Some (Z.of_nat n)))
    "2025" "CS" "A".

(** Sixty-five students in CS section A; the one classroom seats fifty. *)
Definition page : World :=
  mkWorld Scenario.form [Scenario.thorne] (map student (seq 1 65))
    [Scenario.room101] [] None None Scenario.firstCellOnly 0
    Scenario.wallClock 0 (fun _ => true) [].

End Crowded.

Module Overloaded.

Definition lecturer : Faculty :=
  mkFaculty 2 "Prof. Alan Turing" "CS" "Professor" "Algorithms" 0 (Some 2%Z).

Definition maxHours : Rule :=
  mkRule 1 "Max weekly hours" "workload" "10" "Do not exceed max hours" true
    true.

(** One CS lecturer limited to two hours, a hard rule active, every
    decision draw at one half. *)
Definition page : World :=
  mkWorld Scenario.form [lecturer] [] [Scenario.room101] [maxHours] None None
    (fun _ => Scenario.half) 0 Scenario.wallClock 0 (fun _ => true) [].

End Overloaded.

Module TwoRooms.

Definition room1 : Room :=
  mkRoom 1 "Block A" "101" "Block A - 101" "classroom" 60
    (mkFeatures true false true).
Definition room2 : Room :=
  mkRoom 2 "Block A" "102" "Block A - 102" "classroom" 60
    (mkFeatures true false true).

Definition page : World :=
  mkWorld Scenario.form [Scenario.thorne] [] [room1; room2] [] None None
    Scenario.firstCellOnly 0 Scenario.wallClock 0 (fun _ => true) [].

End TwoRooms.

Module Rerun.

(** The draws of [firstCellOnly] up to the 175th, anything after. *)
Definition sameStart : nat -> frac :=
  fun n => if n <? 175 then Scenario.firstCellOnly n else Scenario.half.

Definition threeQuarters : frac := mkFrac 3 4.

End Rerun.

Module NoClassroom.

Definition lab : Room :=
  mkRoom 7 "Block C" "L1" "Block C - L1" "lab" 30 (mkFeatures false true true).

(** One lab and no classroom; the semester as typed. *)
Definition page (sem : string) : World :=
  mkWorld
    (mkDom "2025-2026" "B.Tech" "CS" sem "A" "Block A" "101" "classroom" "50"
       true false true)
    [Scenario.thorne] [] [lab] [] None None Scenario.firstCellOnly 0
    Scenario.wallClock 0 (fun _ => true) [].

End NoClassroom.

Module RoomForm.

(** The page with a capacity typed into the room form. *)
Definition typed (capacity : string) : World :=
  mkWorld
    (mkDom "2025-2026" "B.Tech" "CS" "3" "A" "Block A" "101" "classroom"
       capacity true false true)
    [Scenario.thorne] [] [Scenario.room101] [] (Some [Scenario.room101]) None
    (fun _ => Scenario.half) 0 Scenario.wallClock 0 (fun _ => true) [].

End RoomForm.

Module Accounts.

Definition sarah : UserRow :=
  mkUserRow 1 "dr.sarahthorne" "s4lt1990-04-12" "faculty"
    (Some "Dr. Sarah Thorne") 1700000000.


Definition server : Server :=
  mkServer true [sarah] 2 1700000500 (fun _ => "s4lt") 0.

Definition newStudent : CreateUserBody :=
  mkCreateUserBody (Some "Ada  Lovelace") (Some "student") (Some "1815-12-10").

End Accounts.

(** * Part II, continued: more of the scripts *)

(** ** What the pages show of the stored timetable *)

Section Views.

Context {MR : MathRandom}.

(** The time rows of the admin grid ([loadTimetable]). *)
Definition loadTimetableTimes : list string :=
  ["08:00 - 08:50"; "08:50 - 09:40"; "09:40 - 10:30";
   "10:45 - 11:35"; "11:35 - 12:25"; "12:25 - 01:15";
   "02:05 - 02:55"; "02:55 - 03:45"; "03:45 - 04:35";
   "04:35 - 05:25"; "05:25 - 06:15"].

(** [!t.section] for a stored entry. *)
Definition sectionMissing (t : Entry) : bool :=
  match e_section t with
  | Some s => negb (JsString.truthy s)
  | None => true
  end.

(** The entries [loadTimetable] keeps for display. *)
Definition displayData (isFiltered : bool) (w : World) : list Entry :=
  let allData := storedTimetable w in
  let criteria := criteriaOf w in
  if isFiltered
  then filter (matchesCriteria criteria) allData
  else filter (fun t => matchesCriteria criteria t || sectionMissing t) allData.

(** [data.find(t => t.day === day && t.time === time)] *)
Definition findClass (day time : string) (data : list Entry) : option Entry :=
  find (fun t => String.eqb (e_day t) day && String.eqb (e_time t) time) data.

(** The cells [loadTimetable] fills: a row per time, a cell per day, each
    holding the class found for it, if any. *)
Definition loadTimetableGrid (isFiltered : bool) (w : World)
  : list (string * list (string * option Entry)) :=
  map (fun time =>
         (time,
          map (fun day => (day, findClass day time (displayData isFiltered w)))
            days))
    loadTimetableTimes.

(** The student page: its own time rows, and the whole stored list. *)
Definition studentTimes : list string :=
  ["09:00"; "10:00"; "11:00"; "12:00"; "01:00"; "02:00"; "03:00"].

(** [loadData] of the student script. *)
Definition studentLoadData (w : World) : list Entry := storedTimetable w.

(** The cells [renderFullSchedule] fills. *)
Definition renderFullSchedule (timetableData : list Entry)
  : list (string * list (string * option Entry)) :=
  map (fun time =>
         (time, map (fun day => (day, findClass day time timetableData)) days))
    studentTimes.

(** *** Room logic, continued *)

(** [roomData = roomData.filter(r => r.id !== id)], then stored. *)
Definition deleteRoom (id : Z) : M unit := fun w =>
  let rooms := filter (fun r => negb (r_id r =? id)%Z) (roomData w) in
  (tt,
   mkWorld (dom w) (facultyData w) (studentData w) rooms (ruleData w)
     (Some rooms) (ls_timetable w) (rng w) (rng_pos w) (clock w)
     (clock_pos w) (confirmReply w) (alerts w)).

(** The room form passes [saveRoom]'s required-fields test. *)
Definition roomFormFilled (w : World) : bool :=
  JsString.truthy (room_building (dom w))
  && JsString.truthy (room_number (dom w))
  && numberTruthy (JsString.parseInt (room_capacity (dom w))).

End Views.

(** ** The credential service, continued *)

Record RegisterBody := mkRegisterBody {
  rg_username : option string; rg_password : option string;
  rg_role : option string; rg_fullName : option string
}.

Section ServiceMore.

Context {BC : Bcrypt}.

(** POST /api/auth/register.  An undefined [fullName] is stored as NULL. *)
Definition register (req : RegisterBody) : Srv Response :=
  if falsy (rg_username req) || falsy (rg_password req) || falsy (rg_role req)
  then ret (mkResponse 400 (errorBody "Missing fields"))
  else
    let username := stringOf (rg_username req) in
    let password := stringOf (rg_password req) in
    let role := stringOf (rg_role req) in
    salt <- nextSalt ;;
    let hashedPassword := bcrypt_hash password 10 salt in
    result <- insertUser username hashedPassword role (rg_fullName req) ;;
    match result with
    | inr row =>
        ret (mkResponse 201
               (JObj [("id", JNum (u_id row));
                      ("username", JStr (u_username row));
                      ("role", JStr (u_role row))]))
    | inl UniqueViolation =>
        ret (mkResponse 409 (errorBody "Username already exists"))
    | inl OtherError => ret (mkResponse 500 (errorBody "Server error"))
    end.

(** No two rows of the users table carry the same username. *)
Definition uniqueUsernames (s : Server) : Prop :=
  NoDup (map u_username (users s)).

End ServiceMore.

Module Registry.

Definition admin : RegisterBody :=
  mkRegisterBody (Some "root") (Some "123") (Some "admin") None.

End Registry.

(** ** The admin page and the service together

    [saveFaculty] and [saveStudent] post to /api/admin/create-user before
    they touch their lists.  The request either reaches the handler, whose
    answer comes back, or [fetch] rejects without the server being reached;
    [fetchFailure] is the message of that rejection, [typeFailure] the
    message of the TypeError the engine raises when a property of undefined
    or null is read. *)

Record FacultyForm := mkFacultyForm {
  fac_name : string; fac_dept : string; fac_role : string;
  fac_subject : string; fac_max : string; fac_dob : string
}.

Record StudentForm := mkStudentForm {
  stu_name : string; stu_roll : string; stu_batch : string;
  stu_dept : string; stu_sec : string; stu_dob : string
}.

Section Admin.

Context {MR : MathRandom} {BC : Bcrypt}.

Record System := mkSystem {
  page : World;
  ls_faculty : option (list Faculty);
  ls_students : option (list Student);
  facultyForm : FacultyForm;
  studentForm : StudentForm;
  backend : Server;
  online : bool;
  fetchFailure : string;
  typeFailure : string
}.

Definition Sys : Type -> Type := State System.

(** A function of the page, run in the system. *)
Definition onPage {A} (c : M A) : Sys A := fun y =>
  let (a, w) := c (page y) in
  (a, mkSystem w (ls_faculty y) (ls_students y) (facultyForm y)
        (studentForm y) (backend y) (online y) (fetchFailure y)
        (typeFailure y)).

(** [fetch('http://localhost:3000/api/admin/create-user', {method: 'POST',
    ...})]: [None] when the promise rejects. *)
Definition postCreateUser (req : CreateUserBody) : Sys (option Response) :=
  fun y =>
    if online y
    then let (r, s) := createUser req (backend y) in
         (Some r,
          mkSystem (page y) (ls_faculty y) (ls_students y) (facultyForm y)
            (studentForm y) s (online y) (fetchFailure y) (typeFailure y))
    else (None, y).

(** [response.ok] *)
Definition responseOk (r : Response) : bool :=
  (200 <=? status r) && (status r <=? 299).

(** A value inside a template literal or a string concatenation. *)
Definition display (v : option Json) : string :=
  match v with
  | None => "undefined"
  | Some JNull => "null"
  | Some (JNum z) => JsString.numberToString (Some z)
  | Some (JStr s) => s
  | Some (JObj _) => "[object Object]"
  end.

(** [data.error || 'Failed to create user credentials'] as the message of
    the Error thrown; [None] when reading [data.error] throws instead. *)
Definition errorMessage (data : Json) : option string :=
  match data with
  | JNull => None
  | JObj fields =>
      match field "error" fields with
      | None | Some JNull => Some "Failed to create user credentials"
      | Some (JStr e) =>
          Some (if JsString.truthy e then e
                else "Failed to create user credentials")
      | Some (JNum z) =>
          Some (if (z =? 0)%Z then "Failed to create user credentials"
                else display (Some (JNum z)))
      | Some (JObj o) => Some (display (Some (JObj o)))
      end
  | _ => Some "Failed to create user credentials"
  end.

(** [data.generatedCredentials.username] and [.password] as the template
    shows them; [None] when reading them throws. *)
Definition shownCredentials (data : Json) : option (string * string) :=
  match data with
  | JObj fields =>
      match field "generatedCredentials" fields with
      | None | Some JNull => None
      | Some (JObj creds) =>
          Some (display (field "username" creds),
                display (field "password" creds))
      | Some _ => Some ("undefined", "undefined")
      end
  | _ => None
  end.

Definition credentialsError : string := "Error creating login credentials: ".

(** The try block the two functions share, up to the heading of the alert:
    post, check the answer, announce the credentials.  [false] when the catch
    block returned. *)
Definition createCredentials (name role dob heading : string) : Sys bool :=
  response <- postCreateUser (mkCreateUserBody (Some name) (Some role)
                                (Some dob)) ;;
  match response with
  | None =>
      msg <- gets fetchFailure ;;
      onPage (alert (credentialsError ++ msg)) ;;; ret false
  | Some r =>
      thrown <- gets typeFailure ;;
      if negb (responseOk r)
      then
        onPage (alert (credentialsError
                         ++ match errorMessage (body r) with
                            | Some msg => msg
                            | None => thrown
                            end)) ;;;
        ret false
      else
        match shownCredentials (body r) with
        | Some (u, p) =>
            onPage (alert (heading ++ nl ++ "Username: " ++ u ++ nl
                             ++ "Password: " ++ p)) ;;;
            ret true
        | None =>
            onPage (alert (credentialsError ++ thrown)) ;;; ret false
        end
  end.

(** [facultyData.push(...)], then the list is stored. *)
Definition pushFaculty (f : Faculty) : Sys unit := fun y =>
  let w := page y in
  let l := facultyData w ++ [f] in
  (tt,
   mkSystem
     (mkWorld (dom w) l (studentData w) (roomData w) (ruleData w)
        (ls_rooms w) (ls_timetable w) (rng w) (rng_pos w) (clock w)
        (clock_pos w) (confirmReply w) (alerts w))
     (Some l) (ls_students y) (facultyForm y) (studentForm y) (backend y)
     (online y) (fetchFailure y) (typeFailure y)).

(** [studentData.push(...)], then the list is stored. *)
Definition pushStudent (st : Student) : Sys unit := fun y =>
  let w := page y in
  let l := studentData w ++ [st] in
  (tt,
   mkSystem
     (mkWorld (dom w) (facultyData w) l (roomData w) (ruleData w)
        (ls_rooms w) (ls_timetable w) (rng w) (rng_pos w) (clock w)
        (clock_pos w) (confirmReply w) (alerts w))
     (ls_faculty y) (Some l) (facultyForm y) (studentForm y) (backend y)
     (online y) (fetchFailure y) (typeFailure y)).

(** [saveFaculty]; closing the modal and re-rendering the table change
    neither the lists nor the store. *)
Definition saveFaculty : Sys unit :=
  form <- gets facultyForm ;;
  let name := fac_name form in
  let dept := fac_dept form in
  let role := fac_role form in
  let subject := fac_subject form in
  let max := JsString.parseInt (fac_max form) in
  let dob := fac_dob form in
  if negb (JsString.truthy name) || negb (JsString.truthy subject)
     || negb (JsString.truthy dob)
  then onPage (alert "Please enter name, subject, and date of birth")
  else
    ok <- createCredentials name "faculty" dob "Faculty User Created!" ;;
    if ok
    then
      now <- onPage dateNow ;;
      pushFaculty (mkFaculty now name dept role subject 0 max)
    else ret tt.

(** [saveStudent] *)
Definition saveStudent : Sys unit :=
  form <- gets studentForm ;;
  let name := stu_name form in
  let roll := stu_roll form in
  let batch := stu_batch form in
  let dept := stu_dept form in
  let section := stu_sec form in
  let dob := stu_dob form in
  if negb (JsString.truthy name) || negb (JsString.truthy roll)
     || negb (JsString.truthy section) || negb (JsString.truthy dob)
  then onPage (alert "Please fill all details including DOB")
  else
    ok <- createCredentials name "student" dob "Student User Created!" ;;
    if ok
    then
      now <- onPage dateNow ;;
      pushStudent (mkStudent now name roll batch dept section)
    else ret tt.

(** [deleteFaculty(id)] *)
Definition deleteFaculty (id : Z) : Sys unit := fun y =>
  let w := page y in
  let l := filter (fun f => negb (f_id f =? id)%Z) (facultyData w) in
  (tt,
   mkSystem
     (mkWorld (dom w) l (studentData w) (roomData w) (ruleData w)
        (ls_rooms w) (ls_timetable w) (rng w) (rng_pos w) (clock w)
        (clock_pos w) (confirmReply w) (alerts w))
     (Some l) (ls_students y) (facultyForm y) (studentForm y) (backend y)
     (online y) (fetchFailure y) (typeFailure y)).

(** The page asks the service for an account and the service grants it. *)
Definition accountGranted (name role dob : string) (y : System) : bool :=
  online y
  && (status (fst (createUser (mkCreateUserBody (Some name) (Some role)
                                 (Some dob)) (backend y))) =? 201).

Definition facultyFormFilled (y : System) : bool :=
  JsString.truthy (fac_name (facultyForm y))
  && JsString.truthy (fac_subject (facultyForm y))
  && JsString.truthy (fac_dob (facultyForm y)).

Definition studentFormFilled (y : System) : bool :=
  JsString.truthy (stu_name (studentForm y))
  && JsString.truthy (stu_roll (studentForm y))
  && JsString.truthy (stu_sec (studentForm y))
  && JsString.truthy (stu_dob (studentForm y)).

End Admin.

Module Office.

Definition facultyEntry : FacultyForm :=
  mkFacultyForm "Grace Hopper" "CSE" "Professor" "Compilers" "12"
    "1906-12-09".

Definition studentEntry : StudentForm :=
  mkStudentForm "grace hopper" "CB.EN.U4CSE21001" "2021" "CSE" "A"
    "2003-05-01".

Definition desk : System :=
  mkSystem (Scenario.fresh (fun _ => Scenario.half)) None None facultyEntry
    studentEntry Accounts.server true "Failed to fetch"
    "Cannot read properties of undefined (reading 'username')".

End Office.

(** ** The conflicts page (part_001)

    The page keeps its conflicts in [mockConflicts] and the count of
    resolved ones in [stats.resolved].  What is on screen is the panel: the
    cards appended to the container, each built from one conflict, and the
    text of the four counters.  The elements the script looks up at load
    time are taken to exist. *)

Record Conflict := mkConflict {
  k_id : string; k_type : string; k_severity : string; k_title : string;
  k_description : string; k_time : string; k_location : string;
  k_parties : list string; k_status : string
}.

Record Panel := mkPanel {
  cards : list Conflict;
  statCritical : string;
  statWarnings : string;
  statResolved : string;
  navCount : string
}.

Record Board := mkBoard {
  mockConflicts : list Conflict;
  stats_resolved : Z;
  panel : Panel
}.

Definition Brd : Type -> Type := State Board.

(** The body of the [forEach] in [renderConflicts]: the two counters and the
    cards appended so far. *)
Definition renderStep (acc : nat * nat * list Conflict) (conflict : Conflict)
  : nat * nat * list Conflict :=
  let '(crit, warn, shown) := acc in
  if negb (String.eqb (k_status conflict) "open") then acc
  else
    (if String.eqb (k_severity conflict) "critical" then S crit else crit,
     if String.eqb (k_severity conflict) "warning" then S warn else warn,
     shown ++ [conflict]).

Definition countText (n : nat) : string :=
  JsString.numberToString (Some (Z.of_nat n)).

(** [renderConflicts] *)
Definition renderConflicts : Brd unit := fun b =>
  let '(crit, warn, shown) :=
    fold_left renderStep (mockConflicts b) (0, 0, []) in
  (tt,
   mkBoard (mockConflicts b) (stats_resolved b)
     (mkPanel shown (countText crit) (countText warn)
        (JsString.numberToString (Some (stats_resolved b)))
        (countText (crit + warn)))).

(** [Array.prototype.findIndex]; [None] is -1. *)
Fixpoint findIndex {A} (p : A -> bool) (l : list A) : option nat :=
  match l with
  | [] => None
  | x :: rest =>
      if p x then Some 0 else option_map S (findIndex p rest)
  end.

Definition markResolved (c : Conflict) : Conflict :=
  mkConflict (k_id c) (k_type c) (k_severity c) (k_title c)
    (k_description c) (k_time c) (k_location c) (k_parties c) "resolved".

(** [mockConflicts[idx].status = 'resolved'] for an index of the array. *)
Fixpoint resolveAt (idx : nat) (l : list Conflict) : list Conflict :=
  match l, idx with
  | [], _ => []
  | c :: rest, 0 => markResolved c :: rest
  | c :: rest, S i => c :: resolveAt i rest
  end.

(** [window.resolveConflict] *)
Definition resolveConflict (id : string) : Brd unit := fun b =>
  match findIndex (fun c => String.eqb (k_id c) id) (mockConflicts b) with
  | Some idx =>
      renderConflicts
        (mkBoard (resolveAt idx (mockConflicts b)) (stats_resolved b + 1)%Z
           (panel b))
  | None => (tt, b)
  end.

(** The calls [resolveConflict(id)] for the ids of a list, in order. *)
Fixpoint resolveEach (ids : list string) : Brd unit :=
  match ids with
  | [] => ret tt
  | id :: rest => resolveConflict id ;;; resolveEach rest
  end.

Definition openConflicts (b : Board) : list Conflict :=
  filter (fun c => String.eqb (k_status c) "open") (mockConflicts b).

Definition severityCount (severity : string) (l : list Conflict) : nat :=
  length (filter (fun c => String.eqb (k_severity c) severity) l).

Definition known (b : Board) (id : string) : bool :=
  existsb (fun c => String.eqb (k_id c) id) (mockConflicts b).

(** The panel shows the board: redrawing would change nothing. *)
Definition upToDate (b : Board) : Prop :=
  panel b = panel (snd (renderConflicts b)).

Module Desk.

Definition conflict (id severity : string) : Conflict :=
  mkConflict id "ROOM_DOUBLE_BOOKING" severity "Room 304 Double Booked" ""
    "Mon, 10:00 AM - 11:00 AM" "Block A, Room 304" ["Prof. Smith"] "open".

Definition board : Board :=
  mkBoard [conflict "C-101" "critical"; conflict "C-102" "critical";
           conflict "C-103" "warning"; conflict "C-104" "warning"]
    14 (mkPanel [] "0" "0" "0" "0").

End Desk.

(** * Part III: facts and claims *)

(** ** The loops and their pure reading *)

Section GeneratorFacts.

Context {MR : MathRandom}.

Lemma forEach_app {X S : Type} (xs ys : list X) (body : X -> S -> M S) s w :
  forEach (xs ++ ys) body s w
  = let (s', w') := forEach xs body s w in forEach ys body s' w'.
Proof.
  revert s w. induction xs as [|x xs IH]; intros s w; simpl.
  - reflexivity.
  - unfold bind. destruct (body x s w) as [s1 w1]. apply IH.
Qed.

Lemma forEach_map {X Y S : Type} (f : X -> Y) (xs : list X)
  (body : Y -> S -> M S) s w :
  forEach (map f xs) body s w = forEach xs (fun x => body (f x)) s w.
Proof.
  revert s w. induction xs as [|x xs IH]; intros s w; simpl.
  - reflexivity.
  - unfold bind. destruct (body (f x) s w) as [s1 w1]. apply IH.
Qed.

(** Two nested [forEach] loops visit the product of their arrays. *)
Lemma forEach_nested {X Y S : Type} (xs : list X) (ys : list Y)
  (body : X -> Y -> S -> M S) s w :
  forEach xs (fun x => forEach ys (body x)) s w
  = forEach (list_prod xs ys) (fun p => body (fst p) (snd p)) s w.
Proof.
  revert s w. induction xs as [|x xs IH]; intros s w; simpl.
  - reflexivity.
  - rewrite forEach_app, forEach_map. unfold bind. simpl.
    destruct (forEach ys (fun y => body x y) s w) as [s1 w1] eqn:E.
    replace (forEach ys (body x) s w) with (s1, w1). apply IH.
Qed.

Lemma cellBody_spec c day time acc w :
  cellBody c day time acc w
  = if accepts w
    then (acc ++ [entryAt c day time w], advance (drawsPerEntry c w) 1 w)
    else (acc, advance 1 0 w).
Proof.
  destruct w as [dm fs ss rs rls lr lt rnd p clk cp cr al].
  cbv [cellBody accepts entryAt drawsPerEntry deptFacultyOf classroomsOf
       bind random gets dateNow ret advance
       dom facultyData roomData rng rng_pos clock clock_pos].
  destruct (draw_gt (rnd p) lit_0_2); [|reflexivity].
  destruct (0 <? length (filter _ fs));
    destruct (0 <? length (filter _ rs)); reflexivity.
Qed.

Lemma forEach_runCells c cells acc w :
  forEach cells (fun p => cellBody c (fst p) (snd p)) acc w
  = (acc ++ fst (runCells c cells w), snd (runCells c cells w)).
Proof.
  revert acc w. induction cells as [|[day time] rest IH]; intros acc w; simpl.
  - unfold ret. now rewrite app_nil_r.
  - unfold bind. rewrite cellBody_spec.
    destruct (accepts w).
    + rewrite IH.
      destruct (runCells c rest (advance (drawsPerEntry c w) 1 w)) as [l w'].
      simpl. now rewrite <- app_assoc.
    + apply IH.
Qed.

Lemma generateEntries_runCells c acc w :
  generateEntries c acc w
  = (acc ++ fst (runCells c grid w), snd (runCells c grid w)).
Proof.
  unfold generateEntries.
  rewrite (forEach_nested days times (cellBody c)).
  apply forEach_runCells.
Qed.

Lemma sameData_refl w : sameData w w.
Proof. repeat split. Qed.

Lemma sameData_advance w w' dr dc :
  sameData w w' -> sameData w (advance dr dc w').
Proof. unfold sameData, advance; simpl; tauto. Qed.

Lemma sameData_drawsPerEntry c w w' :
  sameData w w' -> drawsPerEntry c w' = drawsPerEntry c w.
Proof.
  intros (_ & Hf & _). unfold drawsPerEntry, deptFacultyOf. now rewrite Hf.
Qed.

Lemma runCells_sameData c cells w :
  sameData w (snd (runCells c cells w)).
Proof.
  assert (G : forall w', sameData w w' -> sameData w (snd (runCells c cells w'))).
  { induction cells as [|[day time] rest IH]; intros w' H; simpl.
    - exact H.
    - destruct (accepts w').
      + specialize (IH (advance (drawsPerEntry c w') 1 w')
                      (sameData_advance _ _ _ _ H)).
        destruct (runCells c rest (advance (drawsPerEntry c w') 1 w')).
        exact IH.
      + apply IH, sameData_advance, H. }
  apply G, sameData_refl.
Qed.

(** A property of every entry a cell can push holds of all a run adds. *)
Lemma runCells_Forall (P : Entry -> Prop) c cells w :
  (forall day time w', In (day, time) cells -> sameData w w' ->
     accepts w' = true -> P (entryAt c day time w')) ->
  Forall P (fst (runCells c cells w)).
Proof.
  intros HP.
  assert (G : forall cs w', incl cs cells -> sameData w w' ->
                Forall P (fst (runCells c cs w'))).
  { induction cs as [|[day time] rest IH]; intros w' Hin H; simpl.
    - constructor.
    - assert (Hrest : incl rest cells)
        by (intros x Hx; apply Hin; now right).
      destruct (accepts w') eqn:Ha.
      + specialize (IH (advance (drawsPerEntry c w') 1 w') Hrest
                      (sameData_advance _ _ _ _ H)).
        destruct (runCells c rest (advance (drawsPerEntry c w') 1 w')).
        simpl in *. constructor; [|exact IH].
        apply HP; [apply Hin; now left | exact H | exact Ha].
      + apply IH; [exact Hrest | apply sameData_advance, H]. }
  apply G; [apply incl_refl | apply sameData_refl].
Qed.

(** The cells a run fills are those whose decision draw exceeds 0.2. *)
Lemma runCells_cells c cells w :
  map cellOf (fst (runCells c cells w))
  = acceptedCells (rng w) (drawsPerEntry c w) (rng_pos w) cells.
Proof.
  assert (G : forall w', sameData w w' ->
     map cellOf (fst (runCells c cells w'))
     = acceptedCells (rng w) (drawsPerEntry c w) (rng_pos w') cells).
  { induction cells as [|[day time] rest IH]; intros w' H; simpl.
    - reflexivity.
    - unfold accepts.
      assert (Hr : rng w' = rng w) by apply H.
      rewrite Hr.
      destruct (draw_gt (rng w (rng_pos w')) lit_0_2).
      + specialize (IH (advance (drawsPerEntry c w') 1 w')
                      (sameData_advance _ _ _ _ H)).
        destruct (runCells c rest (advance (drawsPerEntry c w') 1 w')).
        simpl in *. rewrite IH.
        now rewrite (sameData_drawsPerEntry c w w' H).
      + apply (IH (advance 1 0 w')), sameData_advance, H. }
  apply G, sameData_refl.
Qed.

(** [acceptedCells] selects a subsequence. *)
Lemma acceptedCells_incl rnd k pos cells :
  incl (acceptedCells rnd k pos cells) cells.
Proof.
  revert pos. induction cells as [|cell rest IH]; intros pos; simpl.
  - apply incl_refl.
  - destruct (draw_gt (rnd pos) lit_0_2).
    + intros x [Hx|Hx]; [now left | right; eapply IH; eauto].
    + intros x Hx. right. eapply IH; eauto.
Qed.

Lemma acceptedCells_NoDup rnd k pos cells :
  NoDup cells -> NoDup (acceptedCells rnd k pos cells).
Proof.
  revert pos. induction cells as [|cell rest IH]; intros pos Hnd; simpl.
  - constructor.
  - inversion Hnd as [|? ? Hnotin Hrest]; subst.
    destruct (draw_gt (rnd pos) lit_0_2).
    + constructor; [|now apply IH].
      intros Hin. apply Hnotin. eapply acceptedCells_incl; eauto.
    + now apply IH.
Qed.

Lemma acceptedCells_length rnd k pos cells :
  length (acceptedCells rnd k pos cells) <= length cells.
Proof.
  revert pos. induction cells as [|cell rest IH]; intros pos; simpl.
  - lia.
  - destruct (draw_gt (rnd pos) lit_0_2); simpl;
      [specialize (IH (k + pos)) | specialize (IH (S pos))]; lia.
Qed.

Lemma distinctb_NoDup {A} (eqb : A -> A -> bool) (l : list A) :
  (forall x y, eqb x y = true <-> x = y) ->
  distinctb eqb l = true -> NoDup l.
Proof.
  intros Heq. induction l as [|x r IH]; simpl; intros H.
  - constructor.
  - apply andb_true_iff in H as [Hx Hr]. constructor; [|now apply IH].
    intros Hin. apply negb_true_iff in Hx.
    assert (Ht : existsb (eqb x) r = true)
      by (apply existsb_exists; exists x; split; [exact Hin | now apply Heq]).
    congruence.
Qed.

Lemma cell_eqb_eq (a b : string * string) : cell_eqb a b = true <-> a = b.
Proof.
  destruct a as [a1 a2], b as [b1 b2]. unfold cell_eqb; simpl.
  rewrite andb_true_iff, !String.eqb_eq. split.
  - intros [-> ->]. reflexivity.
  - intros H. inversion H. auto.
Qed.

Lemma grid_NoDup : NoDup grid.
Proof. apply (distinctb_NoDup cell_eqb); [apply cell_eqb_eq | reflexivity]. Qed.

Lemma grid_length : length grid = 35.
Proof. reflexivity. Qed.

(** A confirmed run: the stored list becomes the kept entries followed by
    the added ones, one alert is shown, the oracles move on. *)
Lemma generateTimetable_confirmed mode w :
  confirmed mode w = true ->
  generateTimetable mode w
  = (tt,
     let w1 := snd (runCells (criteriaOf w) grid w) in
     mkWorld (dom w1) (facultyData w1) (studentData w1) (roomData w1)
       (ruleData w1) (ls_rooms w1) (Some (keptEntries w ++ addedEntries w))
       (rng w1) (rng_pos w1) (clock w1) (clock_pos w1) (confirmReply w1)
       (alerts w1 ++ ["Timetable Generated Successfully!"])).
Proof.
  intros Hc. unfold confirmed in Hc.
  cbv [generateTimetable bind getFilterCriteria confirm gets].
  fold (criteriaOf w). rewrite Hc. cbv [negb].
  fold (storedTimetable w). fold (keptEntries w).
  rewrite generateEntries_runCells.
  reflexivity.
Qed.

Lemma generateTimetable_cancelled mode w :
  confirmed mode w = false -> generateTimetable mode w = (tt, w).
Proof.
  intros Hc. unfold generateTimetable, bind, getFilterCriteria, confirm, gets.
  fold (criteriaOf w). unfold confirmed in Hc. now rewrite Hc.
Qed.

Lemma stored_after_run mode w :
  confirmed mode w = true ->
  storedTimetable (snd (generateTimetable mode w))
  = keptEntries w ++ addedEntries w.
Proof.
  intros Hc. rewrite (generateTimetable_confirmed mode w Hc). reflexivity.
Qed.

Lemma alerts_after_run mode w :
  confirmed mode w = true ->
  alerts (snd (generateTimetable mode w))
  = alerts w ++ ["Timetable Generated Successfully!"].
Proof.
  intros Hc. rewrite (generateTimetable_confirmed mode w Hc).
  cbn [snd alerts].
  destruct (runCells_sameData (criteriaOf w) grid w)
    as (_ & _ & _ & _ & _ & _ & _ & _ & _ & _ & Ha).
  now rewrite Ha.
Qed.

(** A run writes the stored timetable and nothing else that is kept. *)
Lemma lists_after_run mode w :
  let w' := snd (generateTimetable mode w) in
  dom w' = dom w /\ facultyData w' = facultyData w
  /\ studentData w' = studentData w /\ roomData w' = roomData w
  /\ ruleData w' = ruleData w /\ ls_rooms w' = ls_rooms w.
Proof.
  destruct (confirmed mode w) eqn:Hc.
  - rewrite (generateTimetable_confirmed mode w Hc). cbn [snd].
    destruct (runCells_sameData (criteriaOf w) grid w)
      as (Hd & Hf & Hs & Hr & Hrl & Hlr & _).
    cbn [dom facultyData studentData roomData ruleData ls_rooms]. tauto.
  - rewrite (generateTimetable_cancelled mode w Hc). cbn [snd]. tauto.
Qed.

Lemma added_cells w :
  map cellOf (addedEntries w)
  = acceptedCells (rng w) (drawsPerEntry (criteriaOf w) w) (rng_pos w) grid.
Proof. apply runCells_cells. Qed.

Lemma added_NoDup w : NoDup (map cellOf (addedEntries w)).
Proof. rewrite added_cells. apply acceptedCells_NoDup, grid_NoDup. Qed.

Lemma added_length w : length (addedEntries w) <= 35.
Proof.
  rewrite <- (length_map cellOf), added_cells, <- grid_length.
  apply acceptedCells_length.
Qed.

Lemma strictEq_refl s : strictEq (Some s) s = true.
Proof. apply String.eqb_refl. Qed.

Lemma entryAt_tagged c day time w : matchesCriteria c (entryAt c day time w) = true.
Proof.
  unfold matchesCriteria, entryAt; cbn [e_dept e_sem e_section].
  now rewrite !strictEq_refl.
Qed.

Lemma added_tagged w :
  Forall (fun e => matchesCriteria (criteriaOf w) e = true) (addedEntries w).
Proof.
  apply runCells_Forall. intros day time w' _ _ _. apply entryAt_tagged.
Qed.

Lemma kept_untagged w :
  Forall (fun e => matchesCriteria (criteriaOf w) e = false) (keptEntries w).
Proof.
  apply Forall_forall. intros e He. apply filter_In in He as [_ He].
  now apply negb_true_iff.
Qed.

(** Entries with pairwise different cells: a cell holds at most one. *)
Lemma cell_count_le_1 (l : list Entry) cell :
  NoDup (map cellOf l) ->
  length (filter (fun e => cell_eqb (cellOf e) cell) l) <= 1.
Proof.
  induction l as [|e l IH]; simpl; intros Hnd; [lia|].
  inversion Hnd as [|? ? Hnotin Hrest]; subst.
  destruct (cell_eqb (cellOf e) cell) eqn:E; [|now apply IH].
  apply cell_eqb_eq in E. subst cell. simpl.
  assert (Hnone : filter (fun e0 => cell_eqb (cellOf e0) (cellOf e)) l = []).
  { clear -Hnotin. induction l as [|x l IHl]; simpl; [reflexivity|].
    destruct (cell_eqb (cellOf x) (cellOf e)) eqn:E.
    - apply cell_eqb_eq in E. exfalso. apply Hnotin. left. exact E.
    - apply IHl. intros H. apply Hnotin. now right. }
  rewrite Hnone. simpl. lia.
Qed.


Lemma NoDup_map_nth_error {A B} (f : A -> B) (l : list A) i j a b :
  NoDup (map f l) -> i <> j ->
  nth_error l i = Some a -> nth_error l j = Some b -> f a <> f b.
Proof.
  intros Hnd Hij Ha Hb Heq. apply Hij.
  apply (proj1 (NoDup_nth_error (map f l)) Hnd).
  - rewrite length_map. apply nth_error_Some. congruence.
  - rewrite !nth_error_map, Ha, Hb. simpl. now rewrite Heq.
Qed.

End GeneratorFacts.

(** ** Claims about what a run stores *)

Section GeneratorClaims.

Context {MR : MathRandom}.

(** C10. A confirmed run with criteria (dept, sem, section) leaves in the
    store the old entries of other criteria, unchanged and in order, none of
    the old entries of its own criteria among them, followed by the entries it
    adds; these carry the criteria and no (day, time) cell holds two of them;
    the room and faculty lists are as they were. *)
Theorem regeneration_scoped (mode : string) (w : World) :
  confirmed mode w = true ->
  let c := criteriaOf w in
  let w' := snd (generateTimetable mode w) in
  storedTimetable w'
  = filter (fun t => negb (matchesCriteria c t)) (storedTimetable w)
    ++ addedEntries w
  /\ (forall t, In t (storedTimetable w) -> matchesCriteria c t = true ->
        ~ In t (filter (fun t => negb (matchesCriteria c t)) (storedTimetable w)))
  /\ (forall t, In t (storedTimetable w) -> matchesCriteria c t = false ->
        In t (storedTimetable w'))
  /\ Forall (fun e => matchesCriteria c e = true) (addedEntries w)
  /\ (forall cell,
        length (filter (fun e => cell_eqb (cellOf e) cell) (addedEntries w)) <= 1)
  /\ (roomData w' = roomData w /\ ls_rooms w' = ls_rooms w
      /\ facultyData w' = facultyData w).
Proof.
  intros Hc c w'. subst c w'. rewrite (stored_after_run mode w Hc).
  split; [reflexivity|]. split; [|split; [|split; [|split]]].
  - intros t _ Hm Hin. apply filter_In in Hin as [_ Hn].
    rewrite Hm in Hn. discriminate.
  - intros t Hin Hm. apply in_or_app. left. apply filter_In.
    split; [exact Hin | now rewrite Hm].
  - apply added_tagged.
  - intros cell. apply cell_count_le_1, added_NoDup.
  - pose proof (lists_after_run mode w) as H. cbv zeta in H. tauto.
Qed.

(** C1, amended.  Among the entries one run adds, no two share a (day, time)
    slot: their cells are pairwise different, entries at different positions
    never sit in the same slot, and so no two of them share (room, slot) or
    (faculty, slot). *)
Theorem run_adds_no_double_booking (mode : string) (w : World) :
  confirmed mode w = true ->
  storedTimetable (snd (generateTimetable mode w))
  = keptEntries w ++ addedEntries w
  /\ NoDup (map cellOf (addedEntries w))
  /\ (forall i j a b, i <> j ->
        nth_error (addedEntries w) i = Some a ->
        nth_error (addedEntries w) j = Some b -> ~ sameSlot a b)
  /\ noDoubleBooking (addedEntries w).
Proof.
  intros Hc. split; [now apply stored_after_run|].
  split; [apply added_NoDup|].
  assert (Hslots : forall i j a b, i <> j ->
            nth_error (addedEntries w) i = Some a ->
            nth_error (addedEntries w) j = Some b -> ~ sameSlot a b).
  { intros i j a b Hij Ha Hb [Hday Htime].
    apply (NoDup_map_nth_error cellOf (addedEntries w) i j a b
             (added_NoDup w) Hij Ha Hb).
    unfold cellOf. now rewrite Hday, Htime. }
  split; [exact Hslots|].
  intros i j a b Hij Ha Hb Hs. exfalso. exact (Hslots i j a b Hij Ha Hb Hs).
Qed.



End GeneratorClaims.

Lemma regeneration_scoped_witness :
  storedTimetable (snd (generateTimetable "regenerate" Scenario.withBoth))
  = [Scenario.oldB] ++ addedEntries Scenario.withBoth.
Proof.
  exact (proj1 (regeneration_scoped "regenerate" Scenario.withBoth eq_refl)).
Defined.

Lemma run_adds_no_double_booking_witness :
  length (addedEntries Overloaded.page) = 35
  /\ NoDup (map cellOf (addedEntries Overloaded.page)).
Proof.
  split; [vm_compute; reflexivity|].
  exact (proj1 (proj2 (run_adds_no_double_booking "generate" Overloaded.page
                         eq_refl))).
Defined.

(** C1 as stated fails: after section A and then section B are generated
    from an empty store, the stored timetable holds two entries for Monday
    09:00 with the same room and the same faculty member. *)
Lemma stored_timetable_double_booked :
  confirmed "generate" Scenario.afterSectionA = true
  /\ ~ noDoubleBooking
         (storedTimetable
            (snd (generateTimetable "generate" Scenario.afterSectionA))).
Proof.
  split; [reflexivity|]. intros H.
  destruct (H 0 1
    (mkEntry (3400000000001 # 2) "Monday" "09:00" "OS" "Dr. Sarah Thorne"
       "Block A - 101" (Some "CS") (Some "3") (Some "A") "B.Tech" "2025-2026")
    (mkEntry (3400000000003 # 2) "Monday" "09:00" "OS" "Dr. Sarah Thorne"
       "Block A - 101" (Some "CS") (Some "3") (Some "B") "B.Tech" "2025-2026"))
    as [Hroom _].
  - discriminate.
  - vm_compute. reflexivity.
  - vm_compute. reflexivity.
  - split; reflexivity.
  - apply Hroom. reflexivity.
Qed.



(** ** What the generator does not read *)

Section Blind.

Context {MR : MathRandom}.

Lemma map_filter_through {A B} (g : A -> B) (p : A -> bool) (q : B -> bool)
  (l : list A) :
  (forall x, p x = q (g x)) -> map g (filter p l) = filter q (map g l).
Proof.
  intros Hpq. induction l as [|x l IH]; simpl; [reflexivity|].
  rewrite <- Hpq. destruct (p x); simpl; now rewrite IH.
Qed.

Lemma deptFaculty_blind c w w2 :
  sameAsRead w w2 ->
  map facultyAsRead (deptFacultyOf c w2)
  = map facultyAsRead (deptFacultyOf c w).
Proof.
  intros (_ & Hf & _). unfold deptFacultyOf.
  rewrite !(map_filter_through facultyAsRead _
              (fun f => String.eqb (f_dept f) (c_dept c)))
    by reflexivity.
  now rewrite Hf.
Qed.

Lemma classrooms_blind w w2 :
  sameAsRead w w2 ->
  map roomAsRead (classroomsOf w2) = map roomAsRead (classroomsOf w).
Proof.
  intros (_ & _ & Hr & _). unfold classroomsOf.
  rewrite !(map_filter_through roomAsRead _
              (fun r => String.eqb (r_type r) "classroom"))
    by reflexivity.
  now rewrite Hr.
Qed.

Lemma pick_name_blind d (l l2 : list Faculty) :
  map facultyAsRead l2 = map facultyAsRead l ->
  f_name (pick d l2 noFaculty) = f_name (pick d l noFaculty).
Proof.
  intros H. unfold pick.
  assert (Hlen : length l2 = length l)
    by (rewrite <- (length_map facultyAsRead l2), H; apply length_map).
  rewrite Hlen.
  change (f_name (nth (draw_index d (length l)) l2 noFaculty))
    with (f_name (facultyAsRead (nth (draw_index d (length l)) l2 noFaculty))).
  change (f_name (nth (draw_index d (length l)) l noFaculty))
    with (f_name (facultyAsRead (nth (draw_index d (length l)) l noFaculty))).
  rewrite <- (map_nth facultyAsRead l2), <- (map_nth facultyAsRead l), H.
  reflexivity.
Qed.

Lemma pick_fullName_blind d (l l2 : list Room) :
  map roomAsRead l2 = map roomAsRead l ->
  r_fullName (pick d l2 noRoom) = r_fullName (pick d l noRoom).
Proof.
  intros H. unfold pick.
  assert (Hlen : length l2 = length l)
    by (rewrite <- (length_map roomAsRead l2), H; apply length_map).
  rewrite Hlen.
  change (r_fullName (nth (draw_index d (length l)) l2 noRoom))
    with (r_fullName (roomAsRead (nth (draw_index d (length l)) l2 noRoom))).
  change (r_fullName (nth (draw_index d (length l)) l noRoom))
    with (r_fullName (roomAsRead (nth (draw_index d (length l)) l noRoom))).
  rewrite <- (map_nth roomAsRead l2), <- (map_nth roomAsRead l), H.
  reflexivity.
Qed.

Lemma length_blind {A B} (g : A -> B) (l l2 : list A) :
  map g l2 = map g l -> length l2 = length l.
Proof. intros H. rewrite <- (length_map g l2), H. apply length_map. Qed.

Lemma entryAt_blind c day time w w2 :
  sameAsRead w w2 -> entryAt c day time w2 = entryAt c day time w.
Proof.
  intros H.
  pose proof (deptFaculty_blind c w w2 H) as Hf.
  pose proof (classrooms_blind w w2 H) as Hr.
  destruct H as (_ & _ & _ & Hrng & Hpos & Hclk & Hcpos).
  unfold entryAt.
  rewrite Hrng, Hpos, Hclk, Hcpos, (length_blind _ _ _ Hf),
    (length_blind _ _ _ Hr), (pick_name_blind _ _ _ Hf),
    (pick_fullName_blind _ _ _ Hr).
  reflexivity.
Qed.

Lemma drawsPerEntry_blind c w w2 :
  sameAsRead w w2 -> drawsPerEntry c w2 = drawsPerEntry c w.
Proof.
  intros H. unfold drawsPerEntry.
  now rewrite (length_blind _ _ _ (deptFaculty_blind c w w2 H)).
Qed.

Lemma sameAsRead_advance w w2 dr dc :
  sameAsRead w w2 -> sameAsRead (advance dr dc w) (advance dr dc w2).
Proof.
  intros (Hd & Hf & Hr & Hrng & Hpos & Hclk & Hcpos).
  unfold sameAsRead, advance; simpl.
  rewrite Hpos, Hcpos. tauto.
Qed.

Lemma runCells_blind c cells w w2 :
  sameAsRead w w2 ->
  fst (runCells c cells w2) = fst (runCells c cells w).
Proof.
  revert w w2. induction cells as [|[day time] rest IH]; intros w w2 H; simpl.
  - reflexivity.
  - assert (Ha : accepts w2 = accepts w).
    { unfold accepts. destruct H as (_ & _ & _ & Hrng & Hpos & _).
      now rewrite Hrng, Hpos. }
    rewrite Ha, (drawsPerEntry_blind c w w2 H), (entryAt_blind c day time w w2 H).
    destruct (accepts w).
    + specialize (IH _ _ (sameAsRead_advance w w2 (drawsPerEntry c w) 1 H)).
      destruct (runCells c rest (advance (drawsPerEntry c w) 1 w2)).
      destruct (runCells c rest (advance (drawsPerEntry c w) 1 w)).
      simpl in *. now rewrite IH.
    + apply IH, sameAsRead_advance, H.
Qed.

Lemma added_as_read w w2 :
  sameAsRead w w2 -> addedEntries w2 = addedEntries w.
Proof.
  intros H. unfold addedEntries.
  assert (Hc : criteriaOf w2 = criteriaOf w)
    by (unfold criteriaOf; destruct H as (Hd & _); now rewrite Hd).
  rewrite Hc. now apply runCells_blind.
Qed.

Lemma sameButLimits_sameAsRead w w2 : sameButLimits w w2 -> sameAsRead w w2.
Proof.
  intros (Hd & Hf & Hr & Hrest).
  assert (Hfac : forall l, map facultyAsRead l
                           = map facultyAsRead (map eraseLoad l))
    by (intros l; rewrite map_map; apply map_ext; reflexivity).
  assert (Hroom : forall l, map roomAsRead l
                            = map roomAsRead (map eraseCapacity l))
    by (intros l; rewrite map_map; apply map_ext; reflexivity).
  split; [exact Hd|]. split; [|split; [|exact Hrest]].
  - rewrite (Hfac (facultyData w2)), (Hfac (facultyData w)), Hf. reflexivity.
  - rewrite (Hroom (roomData w2)), (Hroom (roomData w)), Hr. reflexivity.
Qed.

Lemma added_blind w w2 :
  sameButLimits w w2 -> addedEntries w2 = addedEntries w.
Proof. intros H. now apply added_as_read, sameButLimits_sameAsRead. Qed.

Lemma pick_In {A} d (l : list A) dflt : 0 < length l -> In (pick d l dflt) l.
Proof.
  intros Hl. unfold pick. apply nth_In. now apply draw_index_lt.
Qed.

Lemma sameData_classrooms w w' :
  sameData w w' -> classroomsOf w' = classroomsOf w.
Proof. intros (_ & _ & _ & Hr & _). unfold classroomsOf. now rewrite Hr. Qed.

Lemma sameData_deptFaculty c w w' :
  sameData w w' -> deptFacultyOf c w' = deptFacultyOf c w.
Proof. intros (_ & Hf & _). unfold deptFacultyOf. now rewrite Hf. Qed.

Lemma addedEntries_head (w : World) :
  accepts w = true ->
  hd_error (addedEntries w) = Some (entryAt (criteriaOf w) "Monday" "09:00" w).
Proof.
  intros Ha. unfold addedEntries.
  change grid with (("Monday", "09:00") :: tl grid).
  cbn [runCells]. rewrite Ha.
  destruct (runCells (criteriaOf w) (tl grid)
              (advance (drawsPerEntry (criteriaOf w) w) 1 w)).
  reflexivity.
Qed.

Lemma added_rooms (P : string -> Prop) w :
  (forall d, P (if 0 <? length (classroomsOf w)
                then r_fullName (pick d (classroomsOf w) noRoom)
                else fallbackRoom (tt_sem (dom w)) (draw_index d 5))) ->
  Forall (fun e => P (e_room e)) (addedEntries w).
Proof.
  intros HP. apply runCells_Forall. intros day time w' _ Hs _.
  unfold entryAt; cbn [e_room].
  fold (classroomsOf w'). rewrite (sameData_classrooms w w' Hs).
  apply HP.
Qed.

(** The run on a page that differs only in what is not read: the same
    entries behind the entries it keeps, the same one message. *)
Lemma run_blind mode w w2 :
  sameButLimits w w2 -> confirmed mode w2 = true ->
  storedTimetable (snd (generateTimetable mode w2))
  = keptEntries w2 ++ addedEntries w
  /\ alerts (snd (generateTimetable mode w2))
     = alerts w2 ++ ["Timetable Generated Successfully!"].
Proof.
  intros Hs Hc.
  rewrite (stored_after_run mode w2 Hc), (added_blind w w2 Hs).
  split; [reflexivity | now apply alerts_after_run].
Qed.

(** C4, amended.  Every room a run assigns is the full name of a stored
    room of type "classroom"; when no classroom is stored it is "R-NaN" for
    a semester that does not parse, and "R-" followed by 100 + 10 * sem + k
    with k from 0 to 4 for one that does (within the range where the code's
    arithmetic is exact).  Capacities and the student list play no part:
    pages that differ only there get the same entries, and the run shows the
    one success message whatever they are. *)
Theorem room_chosen_by_type_only (mode : string) (w : World) :
  confirmed mode w = true ->
  let w' := snd (generateTimetable mode w) in
  let sem := JsString.parseInt (tt_sem (dom w)) in
  storedTimetable w' = keptEntries w ++ addedEntries w
  /\ (0 < length (classroomsOf w) ->
      Forall (fun e => exists r, In r (roomData w) /\ r_type r = "classroom"
                                 /\ e_room e = r_fullName r)
        (addedEntries w))
  /\ (length (classroomsOf w) = 0 -> sem = None ->
      Forall (fun e => e_room e = "R-NaN") (addedEntries w))
  /\ (length (classroomsOf w) = 0 ->
      forall z, sem = Some z -> (Z.abs z <= 900000000000000)%Z ->
      Forall (fun e => exists k, (0 <= k < 5)%Z
                /\ e_room e
                   = ("R-" ++ JsString.numberToString
                                (Some (100 + z * 10 + k)%Z))%string)
        (addedEntries w))
  /\ (forall w2, sameButLimits w w2 -> addedEntries w2 = addedEntries w)
  /\ alerts w' = alerts w ++ ["Timetable Generated Successfully!"]
  /\ (forall w2, sameButLimits w w2 -> confirmed mode w2 = true ->
      storedTimetable (snd (generateTimetable mode w2))
      = keptEntries w2 ++ addedEntries w
      /\ alerts (snd (generateTimetable mode w2))
         = alerts w2 ++ ["Timetable Generated Successfully!"]).
Proof.
  intros Hc w' sem. subst w' sem.
  split; [now apply stored_after_run|].
  split; [|split; [|split; [|split; [apply added_blind|split]]]].
  - intros Hl. apply (added_rooms (fun room => exists r, _ /\ _ /\ room = _)).
    intros d. apply Nat.ltb_lt in Hl. rewrite Hl. apply Nat.ltb_lt in Hl.
    pose proof (pick_In d (classroomsOf w) noRoom Hl) as Hin.
    apply filter_In in Hin as [Hin Ht]. apply String.eqb_eq in Ht.
    eexists. split; [exact Hin|]. split; [exact Ht | reflexivity].
  - intros Hl Hsem. apply (added_rooms (fun room => room = "R-NaN")).
    intros d. rewrite Hl. cbn [Nat.ltb Nat.leb].
    unfold fallbackRoom. now rewrite Hsem.
  - intros Hl z Hsem _.
    apply (added_rooms (fun room => exists k, _ /\ room = _)).
    intros d. rewrite Hl. cbn [Nat.ltb Nat.leb].
    unfold fallbackRoom. rewrite Hsem. cbn [option_map].
    exists (Z.of_nat (draw_index d 5)). split; [|reflexivity].
    pose proof (draw_index_lt d 5 ltac:(lia)). lia.
  - now apply alerts_after_run.
  - intros w2 Hs Hc2. now apply run_blind.
Qed.

(** C5, amended.  Every entry a run adds names a faculty member of the
    criteria's department, or "TBA" when the department has none; one run
    gives nobody more than 35 entries; loads, limits and rules play no part:
    pages that differ only there get the same entries, the run shows the one
    success message whatever they are, and it leaves the faculty list, loads
    included, and the rules as they were. *)
Theorem faculty_chosen_by_department_only (mode : string) (w : World) :
  confirmed mode w = true ->
  let w' := snd (generateTimetable mode w) in
  storedTimetable w' = keptEntries w ++ addedEntries w
  /\ Forall (fun e =>
       if 0 <? length (deptFacultyOf (criteriaOf w) w)
       then exists f, In f (facultyData w) /\ f_dept f = tt_dept (dom w)
                      /\ e_faculty e = f_name f
       else e_faculty e = "TBA")
       (addedEntries w)
  /\ (forall name, currentLoad name (addedEntries w) <= 35)
  /\ (forall w2, sameButLimits w w2 -> addedEntries w2 = addedEntries w)
  /\ alerts w' = alerts w ++ ["Timetable Generated Successfully!"]
  /\ (facultyData w' = facultyData w /\ ruleData w' = ruleData w)
  /\ (forall w2, sameButLimits w w2 -> confirmed mode w2 = true ->
      storedTimetable (snd (generateTimetable mode w2))
      = keptEntries w2 ++ addedEntries w
      /\ alerts (snd (generateTimetable mode w2))
         = alerts w2 ++ ["Timetable Generated Successfully!"]).
Proof.
  intros Hc w'. subst w'. split; [now apply stored_after_run|].
  split; [|split; [|split; [apply added_blind|split; [|split]]]].
  - apply runCells_Forall. intros day time w' _ Hs _.
    unfold entryAt; cbn [e_faculty].
    rewrite (sameData_deptFaculty (criteriaOf w) w w' Hs).
    destruct (0 <? length (deptFacultyOf (criteriaOf w) w)) eqn:Hl;
      [|reflexivity].
    apply Nat.ltb_lt in Hl.
    pose proof (pick_In (rng w' (2 + rng_pos w'))
                  (deptFacultyOf (criteriaOf w) w) noFaculty Hl) as Hin.
    apply filter_In in Hin as [Hin Ht]. apply String.eqb_eq in Ht.
    eexists. split; [exact Hin|]. split; [exact Ht | reflexivity].
  - intros name. unfold currentLoad.
    etransitivity; [apply filter_length_le | apply added_length].
  - now apply alerts_after_run.
  - pose proof (lists_after_run mode w) as H. cbv zeta in H. tauto.
  - intros w2 Hs Hc2. now apply run_blind.
Qed.

(** C7, amended.  The generator computes no penalty and applies no
    tie-break.  The faculty member and the room of an entry are the ones at
    the indexes two draws give, in stored order: for the first cell, when it
    is accepted, the draws after the decision and the subject; so whichever
    classroom's position the room draw yields is committed, and likewise the
    faculty member.  Ids play no part: pages that differ only in what is not
    read of rooms and faculty, ids included, get the same entries. *)
Theorem any_classroom_can_be_committed (mode : string) (w : World)
  (i j : nat) :
  confirmed mode w = true ->
  let rooms := classroomsOf w in
  let staff := deptFacultyOf (criteriaOf w) w in
  0 < length rooms -> 0 < length staff ->
  accepts w = true ->
  draw_index (rng w (2 + rng_pos w)) (length staff) = j ->
  draw_index (rng w (3 + rng_pos w)) (length rooms) = i ->
  storedTimetable (snd (generateTimetable mode w))
  = keptEntries w ++ addedEntries w
  /\ (exists e, hd_error (addedEntries w) = Some e
                /\ e_room e = r_fullName (nth i rooms noRoom)
                /\ e_faculty e = f_name (nth j staff noFaculty))
  /\ Forall (fun e => exists p,
               e_faculty e = f_name (pick (rng w p) staff noFaculty)
               /\ e_room e = r_fullName (pick (rng w (S p)) rooms noRoom))
       (addedEntries w)
  /\ (forall w2, sameAsRead w w2 -> addedEntries w2 = addedEntries w).
Proof.
  intros Hc rooms staff Hr Hs Ha Hj Hi.
  split; [now apply stored_after_run|].
  assert (Hsb : (0 <? length staff) = true) by now apply Nat.ltb_lt.
  assert (Hrb : (0 <? length rooms) = true) by now apply Nat.ltb_lt.
  split; [|split; [|apply added_as_read]].
  - rewrite (addedEntries_head w Ha). eexists. split; [reflexivity|].
    unfold entryAt; cbn [e_room e_faculty].
    fold rooms staff. rewrite Hsb, Hrb. unfold pick.
    rewrite Hi, Hj. split; reflexivity.
  - apply runCells_Forall. intros day time w' _ Hsame _.
    unfold entryAt; cbn [e_room e_faculty].
    rewrite (sameData_deptFaculty (criteriaOf w) w w' Hsame),
      (sameData_classrooms w w' Hsame).
    fold rooms staff. rewrite Hsb, Hrb.
    assert (Hrng : rng w' = rng w) by apply Hsame. rewrite Hrng.
    exists (2 + rng_pos w'). split; reflexivity.
Qed.

End Blind.

Lemma room_chosen_by_type_only_witness :
  Forall (fun e => exists r, In r (roomData Crowded.page)
                             /\ r_type r = "classroom"
                             /\ e_room e = r_fullName r)
    (addedEntries Crowded.page)
  /\ Forall (fun e => exists k, (0 <= k < 5)%Z
               /\ e_room e
                  = ("R-" ++ JsString.numberToString
                               (Some (100 + 3 * 10 + k)%Z))%string)
       (addedEntries (NoClassroom.page "3"))
  /\ Forall (fun e => e_room e = "R-NaN")
       (addedEntries (NoClassroom.page "third")).
Proof.
  split; [|split].
  - apply (proj1 (proj2 (room_chosen_by_type_only "generate" Crowded.page
                           eq_refl))).
    vm_compute. lia.
  - apply (proj1 (proj2 (proj2 (proj2
             (room_chosen_by_type_only "generate" (NoClassroom.page "3")
                eq_refl)))) eq_refl 3%Z eq_refl).
    vm_compute. discriminate.
  - exact (proj1 (proj2 (proj2
             (room_chosen_by_type_only "generate" (NoClassroom.page "third")
                eq_refl))) eq_refl eq_refl).
Defined.

(** C4 as stated fails: the section has 65 students, the only classroom
    seats 50, and the run still assigns it. *)
Lemma room_smaller_than_section_assigned :
  confirmed "generate" Crowded.page = true
  /\ enrolledCount (criteriaOf Crowded.page) (studentData Crowded.page) = 65
  /\ r_capacity Scenario.room101 = 50%Z
  /\ ~ capacityRespected (criteriaOf Crowded.page) Crowded.page
         (storedTimetable (snd (generateTimetable "generate" Crowded.page))).
Proof.
  split; [reflexivity|]. split; [reflexivity|]. split; [reflexivity|].
  intros H.
  specialize (H (mkEntry (3400000000001 # 2) "Monday" "09:00" "OS"
                   "Dr. Sarah Thorne" "Block A - 101" (Some "CS") (Some "3")
                   (Some "A") "B.Tech" "2025-2026")
                Scenario.room101).
  assert (Hle : (Z.of_nat (enrolledCount (criteriaOf Crowded.page)
                             (studentData Crowded.page))
                 <= r_capacity Scenario.room101)%Z).
  { apply H.
    - vm_compute. left. reflexivity.
    - reflexivity.
    - left. reflexivity.
    - reflexivity. }
  vm_compute in Hle. apply Hle. reflexivity.
Qed.

Lemma faculty_chosen_by_department_only_witness :
  currentLoad "Prof. Alan Turing" (addedEntries Overloaded.page) <= 35
  /\ alerts (snd (generateTimetable "generate" Overloaded.page))
     = ["Timetable Generated Successfully!"].
Proof.
  split.
  - exact (proj1 (proj2 (proj2 (faculty_chosen_by_department_only "generate"
                                  Overloaded.page eq_refl)))
             "Prof. Alan Turing").
  - exact (proj1 (proj2 (proj2 (proj2 (proj2
             (faculty_chosen_by_department_only "generate" Overloaded.page
                eq_refl)))))).
Defined.

(** C5 as stated fails: with a hard rule active and a weekly maximum of 2,
    the run gives the lecturer all 35 sessions. *)
Lemma lecturer_over_weekly_maximum :
  confirmed "generate" Overloaded.page = true
  /\ hardRuleActive (ruleData Overloaded.page) = true
  /\ f_max Overloaded.lecturer = Some 2%Z
  /\ currentLoad "Prof. Alan Turing"
       (storedTimetable (snd (generateTimetable "generate" Overloaded.page)))
     = 35
  /\ ~ workloadBounded Overloaded.page
         (storedTimetable (snd (generateTimetable "generate" Overloaded.page))).
Proof.
  split; [reflexivity|]. split; [reflexivity|]. split; [reflexivity|].
  split; [vm_compute; reflexivity|].
  intros H.
  specialize (H eq_refl Overloaded.lecturer 2%Z (or_introl eq_refl) eq_refl).
  vm_compute in H. apply H. reflexivity.
Qed.

(** ** Selection by draw *)

Lemma any_classroom_can_be_committed_witness :
  exists e, hd_error (addedEntries TwoRooms.page) = Some e
            /\ e_room e = "Block A - 102"
            /\ e_faculty e = "Dr. Sarah Thorne".
Proof.
  refine (proj1 (proj2 (any_classroom_can_be_committed "generate"
                          TwoRooms.page 1 0 eq_refl _ _ eq_refl eq_refl
                          eq_refl)));
    vm_compute; lia.
Defined.

(** C7 as stated fails: both classrooms are free for Monday 09:00 and no
    penalty tells them apart, yet the draw commits the room with id 2. *)
Lemma higher_room_id_committed :
  confirmed "generate" TwoRooms.page = true
  /\ exists e,
       hd_error (storedTimetable
                   (snd (generateTimetable "generate" TwoRooms.page)))
       = Some e
       /\ e_room e = r_fullName TwoRooms.room2
       /\ ~ lowestRoomCommitted TwoRooms.page e.
Proof.
  split; [reflexivity|].
  eexists. split; [vm_compute; reflexivity|]. split; [reflexivity|].
  intros H.
  specialize (H TwoRooms.room2 (or_intror (or_introl eq_refl)) eq_refl
                TwoRooms.room1 (or_introl eq_refl)).
  vm_compute in H. apply H. reflexivity.
Qed.

(** ** Dependence on the oracles *)

Section Oracles.

Context {MR : MathRandom}.

Lemma agreeFor_accepts nr nc w w2 :
  agreeFor (S nr) nc w w2 -> accepts w2 = accepts w.
Proof.
  intros (_ & _ & Hp & _ & Hr & _). unfold accepts.
  rewrite Hp, Hr by lia. reflexivity.
Qed.

Lemma agreeFor_drawsPerEntry c nr nc w w2 :
  agreeFor nr nc w w2 -> drawsPerEntry c w2 = drawsPerEntry c w.
Proof.
  intros (Hf & _). unfold drawsPerEntry, deptFacultyOf. now rewrite Hf.
Qed.

Lemma drawsPerEntry_le c w : drawsPerEntry c w <= 5.
Proof.
  unfold drawsPerEntry. destruct (0 <? length (deptFacultyOf c w)); lia.
Qed.

Lemma agreeFor_entryAt c day time nr nc w w2 :
  agreeFor (5 + nr) (S nc) w w2 -> entryAt c day time w2 = entryAt c day time w.
Proof.
  intros (Hf & Hrm & Hp & Hcp & Hr & Hc). unfold entryAt.
  unfold deptFacultyOf, classroomsOf. rewrite Hf, Hrm, Hp, Hcp.
  rewrite (Hc (clock_pos w)) by lia.
  destruct (0 <? length (filter _ (facultyData w)));
    rewrite !Hr by lia; reflexivity.
Qed.

Lemma agreeFor_advance nr nc dr dc w w2 :
  agreeFor (dr + nr) (dc + nc) w w2 ->
  agreeFor nr nc (advance dr dc w) (advance dr dc w2).
Proof.
  intros (Hf & Hrm & Hp & Hcp & Hr & Hc).
  unfold agreeFor, advance; cbn.
  repeat split; try assumption; try congruence.
  - intros q Hq. apply Hr. lia.
  - intros q Hq. apply Hc. lia.
Qed.

Lemma agreeFor_weaken nr nc nr' nc' w w2 :
  nr' <= nr -> nc' <= nc -> agreeFor nr nc w w2 -> agreeFor nr' nc' w w2.
Proof.
  intros Hnr Hnc (Hf & Hrm & Hp & Hcp & Hr & Hc).
  repeat split; try assumption.
  - intros q Hq. apply Hr. lia.
  - intros q Hq. apply Hc. lia.
Qed.

(** A run over [cells] reads at most five draws and one clock value per
    cell, and nothing of the oracles beyond them. *)
Lemma runCells_agree c cells w w2 :
  agreeFor (5 * length cells) (length cells) w w2 ->
  fst (runCells c cells w2) = fst (runCells c cells w).
Proof.
  revert w w2. induction cells as [|[day time] rest IH]; intros w w2 H.
  - reflexivity.
  - cbn [runCells].
    assert (H5 : agreeFor (5 + 5 * length rest) (S (length rest)) w w2).
    { eapply agreeFor_weaken; [| |exact H]; cbn [length]; lia. }
    rewrite (agreeFor_accepts _ _ w w2 H5),
      (agreeFor_drawsPerEntry c _ _ w w2 H5),
      (agreeFor_entryAt c day time _ _ w w2 H5).
    pose proof (drawsPerEntry_le c w) as Hk.
    destruct (accepts w).
    + assert (Hn : agreeFor (5 * length rest) (length rest)
                     (advance (drawsPerEntry c w) 1 w)
                     (advance (drawsPerEntry c w) 1 w2)).
      { apply agreeFor_advance.
        eapply agreeFor_weaken; [| |exact H5]; lia. }
      specialize (IH _ _ Hn).
      destruct (runCells c rest (advance (drawsPerEntry c w) 1 w2)).
      destruct (runCells c rest (advance (drawsPerEntry c w) 1 w)).
      cbn [fst] in *. now rewrite IH.
    + apply IH, agreeFor_advance.
      eapply agreeFor_weaken; [| |exact H5]; lia.
Qed.

(** C2, amended.  What a run stores is a function of the page and of the
    values [Math.random] and [Date.now] return during it: with the same page
    and the same next 175 draws and 35 clock readings the stored timetable is
    the same, and so is the demonstration cell's markup. *)
Theorem output_determined_by_draws (mode day hour : string) (w : World)
  (rnd : nat -> draw) (clk : nat -> Z) :
  (forall q, rng_pos w <= q < rng_pos w + 175 -> rnd q = rng w q) ->
  (forall q, clock_pos w <= q < clock_pos w + 35 -> clk q = clock w q) ->
  ls_timetable (snd (generateTimetable mode (withOracles rnd clk w)))
  = ls_timetable (snd (generateTimetable mode w))
  /\ fst (mockClass day hour (withOracles rnd clk w))
     = fst (mockClass day hour w).
Proof.
  intros Hr Hc. split.
  - destruct (confirmed mode w) eqn:Hconf.
    + assert (Hconf2 : confirmed mode (withOracles rnd clk w) = true)
        by exact Hconf.
      rewrite (generateTimetable_confirmed mode w Hconf),
        (generateTimetable_confirmed mode _ Hconf2).
      cbn [snd ls_timetable].
      assert (Hadd : addedEntries (withOracles rnd clk w) = addedEntries w).
      { unfold addedEntries.
        change (criteriaOf (withOracles rnd clk w)) with (criteriaOf w).
        apply runCells_agree. rewrite grid_length.
        repeat split; assumption. }
      rewrite Hadd. reflexivity.
    + assert (Hconf2 : confirmed mode (withOracles rnd clk w) = false)
        by exact Hconf.
      rewrite (generateTimetable_cancelled mode w Hconf),
        (generateTimetable_cancelled mode _ Hconf2).
      reflexivity.
  - unfold mockClass, bind, random, withOracles; cbn [rng rng_pos].
    rewrite Hr by lia.
    destruct (draw_gt (rng w (rng_pos w)) lit_0_7); reflexivity.
Qed.

End Oracles.

Lemma output_determined_by_draws_witness :
  ls_timetable
    (snd (generateTimetable "generate"
            (withOracles Rerun.sameStart Scenario.wallClock
               (Scenario.fresh Scenario.firstCellOnly))))
  = ls_timetable
      (snd (generateTimetable "generate"
              (Scenario.fresh Scenario.firstCellOnly))).
Proof.
  refine (proj1 (output_determined_by_draws "generate" "Monday" "09:00"
                   (Scenario.fresh Scenario.firstCellOnly)
                   Rerun.sameStart Scenario.wallClock _ _)).
  - intros q Hq. unfold Rerun.sameStart.
    assert (Hlt : (q <? 175) = true) by (apply Nat.ltb_lt; cbn in Hq; lia).
    now rewrite Hlt.
  - intros q _. reflexivity.
Defined.

(** C2 as stated fails: the same page, criteria and lists, run with two
    sequences of draws, stores two different timetables; the demonstration
    cell differs likewise. *)
Lemma same_input_different_output :
  storedTimetable
    (snd (generateTimetable "generate"
            (Scenario.fresh Scenario.firstCellOnly)))
  <> storedTimetable
       (snd (generateTimetable "generate"
               (withOracles (fun _ => Scenario.zero) Scenario.wallClock
                  (Scenario.fresh Scenario.firstCellOnly))))
  /\ fst (mockClass "Monday" "09:00"
            (Scenario.fresh (fun _ => Rerun.threeQuarters)))
     <> fst (mockClass "Monday" "09:00"
               (withOracles (fun _ => Scenario.zero) Scenario.wallClock
                  (Scenario.fresh (fun _ => Rerun.threeQuarters)))).
Proof.
  split; vm_compute; discriminate.
Qed.

(** ** The room form *)

Section RoomClaims.

Context {MR : MathRandom}.




End RoomClaims.



(** ** The credential service *)

Section ServiceClaims.

Context {BC : Bcrypt}.

Lemma skipRun_length s : String.length (JsString.skipRun s) <= String.length s.
Proof.
  induction s as [|c s IH]; simpl; [lia|].
  destruct (JsString.isWhiteSpace c); simpl; lia.
Qed.

Lemma filterChars_skipRun s :
  JsString.filterChars (fun c => negb (JsString.isWhiteSpace c))
    (JsString.skipRun s)
  = JsString.filterChars (fun c => negb (JsString.isWhiteSpace c)) s.
Proof.
  induction s as [|c s IH]; simpl; [reflexivity|].
  destruct (JsString.isWhiteSpace c) eqn:E; simpl; [exact IH|].
  now rewrite E.
Qed.

Lemma replaceRuns_filter fuel s :
  String.length s < fuel ->
  JsString.replaceRuns fuel s
  = JsString.filterChars (fun c => negb (JsString.isWhiteSpace c)) s.
Proof.
  revert s. induction fuel as [|fuel IH]; intros s Hlen; [lia|].
  destruct s as [|c s]; simpl; [reflexivity|].
  simpl in Hlen.
  destruct (JsString.isWhiteSpace c); simpl.
  - rewrite IH, filterChars_skipRun; [reflexivity|].
    pose proof (skipRun_length s). lia.
  - rewrite IH by lia. reflexivity.
Qed.

(** Deleting the runs of white space deletes the white-space characters. *)
Lemma replaceWhiteSpaceRuns_filter s :
  JsString.replaceWhiteSpaceRuns s
  = JsString.filterChars (fun c => negb (JsString.isWhiteSpace c)) s.
Proof. apply replaceRuns_filter. lia. Qed.

Lemma filterChars_all p s : JsString.allChars p (JsString.filterChars p s) = true.
Proof.
  induction s as [|c s IH]; simpl; [reflexivity|].
  destruct (p c) eqn:E; simpl; [now rewrite E|exact IH].
Qed.

Lemma allChars_dropChars p n s :
  JsString.allChars p s = true -> JsString.allChars p (dropChars n s) = true.
Proof.
  revert s. induction n as [|n IH]; intros s H; [destruct s; exact H|].
  destruct s as [|c s]; simpl in *; [reflexivity|].
  apply andb_true_iff in H as [_ H]. now apply IH.
Qed.

Lemma dropChars_nonempty n s :
  n < String.length s -> dropChars n s <> "".
Proof.
  revert s. induction n as [|n IH]; intros s H.
  - destruct s; simpl in *; [lia | discriminate].
  - destruct s as [|c s]; simpl in *; [lia|]. apply IH. lia.
Qed.

(** A value without white space is stored whole or not at all. *)
Lemma varchar_without_space n s v :
  JsString.allChars (fun c => negb (JsString.isWhiteSpace c)) s = true ->
  varchar n s = Some v -> v = s.
Proof.
  intros Hs. unfold varchar.
  destruct (String.length s <=? n) eqn:Hlen; [congruence|].
  apply Nat.leb_gt in Hlen.
  pose proof (dropChars_nonempty n s Hlen) as Hne.
  pose proof (allChars_dropChars _ n s Hs) as Hd.
  destruct (dropChars n s) as [|c rest]; [congruence|].
  cbn [JsString.allChars] in *. apply andb_true_iff in Hd as [Hc _].
  destruct (Ascii.eqb " " c) eqn:E; cbn [andb]; [|discriminate].
  apply Ascii.eqb_eq in E. subst c. discriminate Hc.
Qed.

Ltac break_conditions :=
  repeat match goal with
         | |- context [if ?b then _ else _] => destruct b eqn:?
         | |- context [match ?o with Some _ => _ | None => _ end] =>
             destruct o eqn:?
         end.

(** The outcome of an insert: a row appended, with the stored forms of the
    username and the hash, or the rows as they were. *)
Lemma insertUser_outcome u h r fn s :
  match fst (insertUser u h r fn s) with
  | inr row =>
      users (snd (insertUser u h r fn s)) = users s ++ [row]
      /\ varchar 255 u = Some (u_username row)
      /\ varchar 255 h = Some (u_password_hash row)
  | inl _ => users (snd (insertUser u h r fn s)) = users s
  end.
Proof.
  unfold insertUser. break_conditions; cbn; auto.
Qed.

Lemma falsy_Some_false s : s <> "" -> falsy (Some s) = false.
Proof. destruct s; [congruence | reflexivity]. Qed.

(** The handler for a request with the three fields, in one step. *)
Lemma createUser_run s name role dob :
  name <> "" -> role <> "" -> dob <> "" ->
  let username := lowercasedWithoutWhiteSpace name in
  let hash := bcrypt_hash dob 10 (salts s (salt_pos s)) in
  let s1 := snd (nextSalt s) in
  createUser (mkCreateUserBody (Some name) (Some role) (Some dob)) s
  = (match fst (insertUser username hash role (Some name) s1) with
     | inr row =>
         mkResponse 201
           (JObj [("message", JStr "User created successfully");
                  ("user", JObj [("id", JNum (u_id row));
                                 ("username", JStr (u_username row));
                                 ("role", JStr (u_role row))]);
                  ("generatedCredentials",
                   JObj [("username", JStr username);
                         ("password", JStr dob)])])
     | inl UniqueViolation =>
         mkResponse 409
           (errorBody ("Username '" ++ username ++
              "' already exists. Please use a distinct name or handle duplicates."))
     | inl OtherError => mkResponse 500 (errorBody "Server error")
     end,
     snd (insertUser username hash role (Some name) s1)).
Proof.
  intros Hn Hr Hd username hash s1.
  unfold createUser; cbn [cu_name cu_role cu_dob stringOf].
  rewrite (falsy_Some_false name Hn), (falsy_Some_false role Hr),
    (falsy_Some_false dob Hd); cbn [orb].
  rewrite replaceWhiteSpaceRuns_filter. fold (lowercasedWithoutWhiteSpace name).
  fold username. unfold bind.
  change (nextSalt s) with (salts s (salt_pos s), s1). subst hash.
  cbv beta iota.
  destruct (insertUser username (bcrypt_hash dob 10 (salts s (salt_pos s)))
              role (Some name) s1) as [[[|]|row] s2];
    reflexivity.
Qed.

Lemma insertUser_salt u h r fn s :
  fst (insertUser u h r fn (snd (nextSalt s))) = fst (insertUser u h r fn s).
Proof.
  unfold insertUser, nextSalt; cbn [snd db_available users users_id_seq db_now].
  break_conditions; reflexivity.
Qed.

(** C8.  For a request that provides name, role and dob, the endpoint
    answers 201 exactly when the insert goes through, whatever the salt; the
    credentials it then reports are the name lowercased with all white space
    removed and the dob as given, and the row it stores carries that username
    and the hash of that dob. *)
Theorem createUser_credentials (s : Server) (name role dob : string) :
  name <> "" -> role <> "" -> dob <> "" ->
  let req := mkCreateUserBody (Some name) (Some role) (Some dob) in
  let username := lowercasedWithoutWhiteSpace name in
  let hash := bcrypt_hash dob 10 (salts s (salt_pos s)) in
  let r := fst (createUser req s) in
  let s' := snd (createUser req s) in
  (status r = 201 <->
   exists row, fst (insertUser username hash role (Some name) s) = inr row)
  /\ (status r = 201 ->
      generatedCredentials r = Some (username, dob)
      /\ exists row,
           users s' = users s ++ [row] /\ u_username row = username
           /\ varchar 255 hash = Some (u_password_hash row))
  /\ (status r <> 201 ->
      (status r = 409 \/ status r = 500) /\ users s' = users s).
Proof.
  intros Hn Hr Hd req username hash r s'. subst r s' req.
  rewrite (createUser_run s name role dob Hn Hr Hd).
  fold username. fold hash. cbn [fst snd].
  pose proof (insertUser_outcome username hash role (Some name)
                (snd (nextSalt s))) as Hout.
  rewrite <- (insertUser_salt username hash role (Some name) s).
  change (users (snd (nextSalt s))) with (users s) in Hout.
  destruct (fst (insertUser username hash role (Some name) (snd (nextSalt s))))
    as [[|]|row].
  - cbn. repeat split; try discriminate; try tauto;
      try (intros [row H]; discriminate); try (left; reflexivity).
  - cbn. repeat split; try discriminate; try tauto;
      try (intros [row H]; discriminate); try (right; reflexivity).
  - destruct Hout as (Hu & Hname & Hhash). cbn.
    assert (Hrow : u_username row = username).
    { apply (varchar_without_space 255 username); [|exact Hname].
      apply filterChars_all. }
    repeat split; try tauto; try (intros _; now exists row);
      try (exists row; auto).
Qed.




Lemma rowMatches_password req row :
  rowMatches req row
  <-> rowMatches (mkLoginBody (lg_username req) None (lg_role req)) row.
Proof. reflexivity. Qed.






End ServiceClaims.


Lemma createUser_credentials_witness :
  generatedCredentials (fst (createUser Accounts.newStudent Accounts.server))
  = Some ("adalovelace", "1815-12-10").
Proof.
  refine (proj1 (proj1 (proj2 (createUser_credentials Accounts.server
                                 "Ada  Lovelace" "student" "1815-12-10"
                                 _ _ _)) eq_refl));
    discriminate.
Defined.

(** * Part IV: further properties of the scripts *)

(** ** The generator's use of its oracles and of the store *)

Section GeneratorMore.

Context {MR : MathRandom}.

Lemma runCells_positions c cells w w' :
  sameData w w' ->
  rng_pos (snd (runCells c cells w'))
  = rng_pos w' + length cells
    + (drawsPerEntry c w - 1) * length (fst (runCells c cells w'))
  /\ clock_pos (snd (runCells c cells w'))
     = clock_pos w' + length (fst (runCells c cells w')).
Proof.
  revert w'. induction cells as [|[day time] rest IH]; intros w' H.
  - cbn. lia.
  - cbn [runCells].
    pose proof (sameData_drawsPerEntry c w w' H) as Hk.
    assert (Hk1 : 1 <= drawsPerEntry c w)
      by (unfold drawsPerEntry; destruct (0 <? length (deptFacultyOf c w)); lia).
    destruct (accepts w').
    + specialize (IH _ (sameData_advance w w' (drawsPerEntry c w') 1 H)).
      destruct (runCells c rest (advance (drawsPerEntry c w') 1 w'))
        as [l w2].
      cbn [fst snd length advance rng_pos clock_pos] in *.
      destruct IH as [IHr IHc]. rewrite IHr, IHc, Hk. split; nia.
    + specialize (IH _ (sameData_advance w w' 1 0 H)).
      destruct (runCells c rest (advance 1 0 w')) as [l w2].
      cbn [fst snd length advance rng_pos clock_pos] in *.
      destruct IH as [IHr IHc]. rewrite IHr, IHc. split; nia.
Qed.

(** X1.  A confirmed run that adds [n] entries calls [Math.random] 35 times
    for the decisions and three or four more times for each entry (four when
    the department has faculty), and [Date.now] [n] times. *)
Theorem run_consumes_draws (mode : string) (w : World) :
  confirmed mode w = true ->
  let w' := snd (generateTimetable mode w) in
  let n := length (addedEntries w) in
  rng_pos w' = rng_pos w + 35 + (drawsPerEntry (criteriaOf w) w - 1) * n
  /\ clock_pos w' = clock_pos w + n
  /\ 3 <= drawsPerEntry (criteriaOf w) w - 1 <= 4.
Proof.
  intros Hc w' n. subst w' n.
  rewrite (generateTimetable_confirmed mode w Hc). cbn [snd rng_pos clock_pos].
  destruct (runCells_positions (criteriaOf w) grid w w (sameData_refl w))
    as [Hr Hk].
  rewrite grid_length in Hr. unfold addedEntries.
  split; [exact Hr|]. split; [exact Hk|].
  unfold drawsPerEntry.
  destruct (0 <? length (deptFacultyOf (criteriaOf w) w)); lia.
Qed.

Lemma filter_all_true {A} (p : A -> bool) (l : list A) :
  Forall (fun x => p x = true) l -> filter p l = l.
Proof.
  induction 1 as [|x l Hx _ IH]; simpl; [reflexivity|]. now rewrite Hx, IH.
Qed.

Lemma filter_all_false {A} (p : A -> bool) (l : list A) :
  Forall (fun x => p x = false) l -> filter p l = [].
Proof.
  induction 1 as [|x l Hx _ IH]; simpl; [reflexivity|]. now rewrite Hx.
Qed.

(** The entries of the criteria in the store after a run are the added ones. *)
Lemma matching_after_run mode w :
  confirmed mode w = true ->
  filter (matchesCriteria (criteriaOf w))
    (storedTimetable (snd (generateTimetable mode w)))
  = addedEntries w.
Proof.
  intros Hc. rewrite (stored_after_run mode w Hc), filter_app.
  rewrite (filter_all_false _ _ (kept_untagged w)).
  rewrite (filter_all_true _ _ (added_tagged w)). reflexivity.
Qed.

Lemma criteria_after_run mode w :
  criteriaOf (snd (generateTimetable mode w)) = criteriaOf w.
Proof.
  unfold criteriaOf.
  destruct (lists_after_run mode w) as (Hd & _). cbv zeta in Hd.
  now rewrite Hd.
Qed.

Lemma kept_after_run mode w :
  confirmed mode w = true ->
  keptEntries (snd (generateTimetable mode w)) = keptEntries w.
Proof.
  intros Hc. unfold keptEntries at 1.
  rewrite (criteria_after_run mode w), (stored_after_run mode w Hc), filter_app.
  rewrite (filter_all_true (fun t => negb (matchesCriteria (criteriaOf w) t))
             (keptEntries w)).
  - rewrite (filter_all_false
               (fun t => negb (matchesCriteria (criteriaOf w) t))
               (addedEntries w)).
    + apply app_nil_r.
    + eapply Forall_impl; [|apply added_tagged].
      intros e He. cbn beta. now rewrite He.
  - eapply Forall_impl; [|apply kept_untagged].
    intros e He. cbn beta. now rewrite He.
Qed.

(** X2.  Regeneration overwrites: after two confirmed runs for the same
    criteria the store holds the entries of other criteria followed by the
    second run's entries only; none of the first run's are kept, and the
    criteria never has more than 35 entries in the store. *)
Theorem regeneration_overwrites (mode mode2 : string) (w : World) :
  confirmed mode w = true ->
  confirmed mode2 (snd (generateTimetable mode w)) = true ->
  let w1 := snd (generateTimetable mode w) in
  let w2 := snd (generateTimetable mode2 w1) in
  storedTimetable w2 = keptEntries w ++ addedEntries w1
  /\ filter (matchesCriteria (criteriaOf w)) (storedTimetable w2)
     = addedEntries w1
  /\ length (filter (matchesCriteria (criteriaOf w))
               (storedTimetable w2)) <= 35.
Proof.
  intros Hc Hc2 w1 w2. subst w1 w2.
  pose proof (matching_after_run mode2 _ Hc2) as Hm.
  rewrite (criteria_after_run mode w) in Hm.
  rewrite (stored_after_run mode2 _ Hc2), (kept_after_run mode w Hc).
  split; [reflexivity|].
  rewrite (stored_after_run mode2 _ Hc2), (kept_after_run mode w Hc) in Hm.
  split; [exact Hm|]. rewrite Hm. apply added_length.
Qed.

(** X3.  Every entry a run adds sits on one of the five days and seven
    times of the generator's grid, has one of its seven subjects whatever the
    faculty member's own subject is, and carries the program and year of the
    form. *)
Theorem added_entries_well_formed (w : World) :
  Forall (fun e =>
            In (e_day e) days /\ In (e_time e) times
            /\ In (e_subject e) subjects
            /\ e_program e = tt_program (dom w) /\ e_year e = tt_year (dom w))
    (addedEntries w).
Proof.
  apply runCells_Forall. intros day time w' Hin _ _.
  apply in_prod_iff in Hin as [Hd Ht].
  unfold entryAt; cbn [e_day e_time e_subject e_program e_year].
  repeat split; try assumption.
  apply pick_In. cbn. lia.
Qed.

End GeneratorMore.

Lemma run_consumes_draws_witness :
  rng_pos (snd (generateTimetable "generate"
                  (Scenario.fresh Scenario.firstCellOnly))) = 39
  /\ clock_pos (snd (generateTimetable "generate"
                       (Scenario.fresh Scenario.firstCellOnly))) = 1.
Proof.
  pose proof (run_consumes_draws "generate"
                (Scenario.fresh Scenario.firstCellOnly) eq_refl) as H.
  cbv zeta in H. destruct H as (Hr & Hk & _).
  split; [rewrite Hr | rewrite Hk]; vm_compute; reflexivity.
Defined.

Lemma regeneration_overwrites_witness :
  length (storedTimetable
            (snd (generateTimetable "regenerate"
                    (snd (generateTimetable "generate"
                            (Scenario.fresh Scenario.firstCellOnly))))))
  = 1.
Proof.
  rewrite (proj1 (regeneration_overwrites "generate" "regenerate"
                    (Scenario.fresh Scenario.firstCellOnly) eq_refl eq_refl)).
  vm_compute. reflexivity.
Defined.

(** ** The pages that show the stored timetable *)

Section ViewFacts.

Context {MR : MathRandom}.

Lemma find_none_all {A} (p : A -> bool) (l : list A) :
  Forall (fun x => p x = false) l -> find p l = None.
Proof.
  induction 1 as [|x l Hx _ IH]; simpl; [reflexivity|]. now rewrite Hx.
Qed.

Lemma added_times w : Forall (fun e => In (e_time e) times) (addedEntries w).
Proof.
  apply runCells_Forall. intros day time w' Hin _ _.
  apply in_prod_iff in Hin as [_ Ht]. exact Ht.
Qed.

(** No row of the admin grid has one of the generator's times. *)
Lemma admin_times_disjoint time :
  In time loadTimetableTimes -> In time times -> False.
Proof.
  intros H1 H2. unfold loadTimetableTimes in H1. unfold times in H2.
  repeat (destruct H1 as [<-|H1];
          [repeat (destruct H2 as [H2|H2]; [discriminate H2|]); exact H2|]).
  exact H1.
Qed.

(** X4.  After a confirmed run, the admin grid that [generateTimetable]
    reloads (filtered to the criteria) shows no class at all: its rows are
    the slots "08:00 - 08:50" and so on, the generator writes "09:00" and so
    on, and the entries of the criteria are exactly the generated ones. *)
Theorem admin_grid_empty_after_run (mode : string) (w : World) :
  confirmed mode w = true ->
  Forall (fun row => Forall (fun cell => snd cell = None) (snd row))
    (loadTimetableGrid true (snd (generateTimetable mode w))).
Proof.
  intros Hc. unfold loadTimetableGrid, displayData.
  rewrite (criteria_after_run mode w), (matching_after_run mode w Hc).
  apply Forall_forall. intros row Hrow.
  apply in_map_iff in Hrow as (time & <- & Htime). cbn [snd].
  apply Forall_forall. intros cell Hcell.
  apply in_map_iff in Hcell as (day & <- & _). cbn [snd].
  apply find_none_all.
  eapply Forall_impl; [|apply added_times].
  intros e He. cbn beta.
  destruct (String.eqb (e_time e) time) eqn:E; [|apply andb_false_r].
  apply String.eqb_eq in E. subst time.
  destruct (admin_times_disjoint _ Htime He).
Qed.

Lemma find_append {A} (p : A -> bool) (l1 l2 : list A) :
  find p (l1 ++ l2)
  = match find p l1 with Some x => Some x | None => find p l2 end.
Proof.
  induction l1 as [|x l1 IH]; simpl; [reflexivity|].
  destruct (p x); [reflexivity | exact IH].
Qed.

Lemma find_some_iff_exists {A} (p : A -> bool) (l : list A) :
  find p l <> None <-> exists x, In x l /\ p x = true.
Proof.
  split.
  - destruct (find p l) as [x|] eqn:E; [|congruence].
    intros _. exists x. now apply find_some in E.
  - intros (x & Hin & Hp) Hnone.
    pose proof (find_none p l Hnone x Hin). congruence.
Qed.

(** X5.  After a confirmed run the student grid, which reads the whole
    store, shows in a cell the first stored entry of that (day, time): an
    entry kept from other criteria when there is one, otherwise the entry the
    run added there; a cell with no kept entry shows a class exactly when the
    run accepted the cell. *)
Theorem student_cell_after_run (mode day time : string) (w : World) :
  confirmed mode w = true ->
  let shown := findClass day time
                 (studentLoadData (snd (generateTimetable mode w))) in
  shown = match findClass day time (keptEntries w) with
          | Some e => Some e
          | None => findClass day time (addedEntries w)
          end
  /\ (findClass day time (keptEntries w) = None ->
      (shown <> None <->
       In (day, time)
         (acceptedCells (rng w) (drawsPerEntry (criteriaOf w) w) (rng_pos w)
            grid))).
Proof.
  intros Hc shown. subst shown. unfold studentLoadData.
  rewrite (stored_after_run mode w Hc).
  assert (Happ : findClass day time (keptEntries w ++ addedEntries w)
                 = match findClass day time (keptEntries w) with
                   | Some e => Some e
                   | None => findClass day time (addedEntries w)
                   end) by apply find_append.
  split; [exact Happ|].
  intros Hk. rewrite Happ, Hk. unfold findClass.
  rewrite find_some_iff_exists, <- added_cells, in_map_iff.
  split.
  - intros (e & Hin & Hp). exists e. split; [|exact Hin].
    apply andb_true_iff in Hp as [Hd Ht].
    apply String.eqb_eq in Hd, Ht. unfold cellOf. now rewrite Hd, Ht.
  - intros (e & Hcell & Hin). exists e. split; [exact Hin|].
    unfold cellOf in Hcell. inversion Hcell. now rewrite !String.eqb_refl.
Qed.

Lemma list_sum_map_add {A} (f g : A -> nat) (l : list A) :
  list_sum (map (fun x => f x + g x) l)
  = list_sum (map f l) + list_sum (map g l).
Proof. induction l as [|x l IH]; simpl; lia. Qed.

Lemma indicator_sum (names : list string) (x : string) :
  NoDup names -> In x names ->
  list_sum (map (fun n => if String.eqb x n then 1 else 0) names) = 1.
Proof.
  induction names as [|n names IH]; intros Hnd Hin; [destruct Hin|].
  inversion Hnd as [|? ? Hnot Hrest]; subst. simpl.
  destruct (String.eqb x n) eqn:E.
  - apply String.eqb_eq in E. subst n.
    assert (Hz : list_sum (map (fun n => if String.eqb x n then 1 else 0) names)
                 = 0).
    { clear -Hnot. induction names as [|m names IHn]; [reflexivity|].
      simpl. destruct (String.eqb x m) eqn:E.
      - apply String.eqb_eq in E. subst m. exfalso. apply Hnot. now left.
      - apply IHn. intros H. apply Hnot. now right. }
    rewrite Hz. reflexivity.
  - destruct Hin as [Hin|Hin].
    + subst n. rewrite String.eqb_refl in E. discriminate.
    + now rewrite IH.
Qed.

Lemma loads_sum (names : list string) (l : list Entry) :
  NoDup names -> Forall (fun e => In (e_faculty e) names) l ->
  list_sum (map (fun n => currentLoad n l) names) = length l.
Proof.
  intros Hnd. induction 1 as [|e l He _ IH]; simpl.
  - clear. induction names as [|n names IH]; [reflexivity|exact IH].
  - transitivity
      (list_sum (map (fun n => (if String.eqb (e_faculty e) n then 1 else 0)
                               + currentLoad n l) names)).
    + f_equal. apply map_ext. intros n. unfold currentLoad. simpl.
      destruct (String.eqb (e_faculty e) n); reflexivity.
    + rewrite list_sum_map_add, IH, (indicator_sum names _ Hnd He).
      reflexivity.
Qed.

Lemma added_faculty_names w :
  0 < length (deptFacultyOf (criteriaOf w) w) ->
  Forall (fun e => In (e_faculty e)
                     (map f_name (deptFacultyOf (criteriaOf w) w)))
    (addedEntries w).
Proof.
  intros Hl. apply runCells_Forall. intros day time w' _ Hs _.
  unfold entryAt; cbn [e_faculty].
  rewrite (sameData_deptFaculty (criteriaOf w) w w' Hs).
  apply Nat.ltb_lt in Hl. rewrite Hl. apply in_map, pick_In.
  now apply Nat.ltb_lt.
Qed.

(** X6.  When the department has faculty with pairwise different names,
    the loads the faculty dashboard counts for them over the entries a run
    adds add up to the number of those entries: each added entry counts for
    exactly one of them. *)
Theorem department_loads_sum (w : World) :
  0 < length (deptFacultyOf (criteriaOf w) w) ->
  NoDup (map f_name (deptFacultyOf (criteriaOf w) w)) ->
  list_sum (map (fun f => currentLoad (f_name f) (addedEntries w))
              (deptFacultyOf (criteriaOf w) w))
  = length (addedEntries w).
Proof.
  intros Hl Hnd.
  rewrite <- (loads_sum _ _ Hnd (added_faculty_names w Hl)), map_map.
  reflexivity.
Qed.

End ViewFacts.

Lemma admin_grid_empty_after_run_witness :
  Forall (fun row => Forall (fun cell => snd cell = None) (snd row))
    (loadTimetableGrid true
       (snd (generateTimetable "generate" Overloaded.page))).
Proof.
  exact (admin_grid_empty_after_run "generate" Overloaded.page eq_refl).
Defined.

Lemma student_cell_after_run_witness :
  findClass "Monday" "09:00"
    (studentLoadData (snd (generateTimetable "regenerate" Scenario.withBoth)))
  = findClass "Monday" "09:00" (addedEntries Scenario.withBoth)
  /\ findClass "Friday" "03:00"
       (studentLoadData
          (snd (generateTimetable "regenerate" Scenario.withBoth)))
     = Some Scenario.oldB.
Proof.
  split.
  - exact (proj1 (student_cell_after_run "regenerate" "Monday" "09:00"
                    Scenario.withBoth eq_refl)).
  - exact (proj1 (student_cell_after_run "regenerate" "Friday" "03:00"
                    Scenario.withBoth eq_refl)).
Defined.

Lemma department_loads_sum_witness :
  list_sum (map (fun f => currentLoad (f_name f)
                            (addedEntries Overloaded.page))
              (deptFacultyOf (criteriaOf Overloaded.page) Overloaded.page))
  = length (addedEntries Overloaded.page).
Proof.
  apply (department_loads_sum Overloaded.page).
  - vm_compute. lia.
  - vm_compute. repeat constructor. intros [].
Defined.

(** ** Rooms: saving, deleting, and the runs that follow *)

Section RoomFacts.

Context {MR : MathRandom}.

Lemma saveRoom_filled w :
  roomFormFilled w = true ->
  exists room,
    r_id room = clock w (clock_pos w)
    /\ roomData (snd (saveRoom w)) = roomData w ++ [room]
    /\ ls_rooms (snd (saveRoom w)) = Some (roomData w ++ [room]).
Proof.
  intros Hf. unfold roomFormFilled in Hf.
  apply andb_true_iff in Hf as [Hf Hc]. apply andb_true_iff in Hf as [Hb Hn].
  unfold saveRoom, bind, gets. rewrite Hb, Hn, Hc. cbn [negb orb].
  unfold dateNow, pushRoom. cbn. eexists.
  split; [|split]; cycle 1; reflexivity.
Qed.

(** X7.  Saving a room and then deleting it by its id gives back the room
    list as it was, and the stored copy with it, provided no room already on
    the list has the id [Date.now] hands out. *)
Theorem saveRoom_deleteRoom_round_trip (w : World) :
  roomFormFilled w = true ->
  Forall (fun r => r_id r <> clock w (clock_pos w)) (roomData w) ->
  let w' := snd (deleteRoom (clock w (clock_pos w)) (snd (saveRoom w))) in
  roomData w' = roomData w /\ ls_rooms w' = Some (roomData w).
Proof.
  intros Hf Hfresh w'. subst w'.
  destruct (saveRoom_filled w Hf) as (room & Hid & Hrooms & _).
  unfold deleteRoom; cbn [snd roomData ls_rooms]. rewrite Hrooms.
  assert (Hfil : filter (fun r => negb (r_id r =? clock w (clock_pos w))%Z)
                   (roomData w ++ [room]) = roomData w).
  { rewrite filter_app. cbn [filter]. rewrite Hid, Z.eqb_refl. cbn [negb].
    rewrite app_nil_r. apply filter_all_true.
    eapply Forall_impl; [|exact Hfresh].
    intros r Hr. cbn beta. apply negb_true_iff, Z.eqb_neq. exact Hr. }
  rewrite Hfil. split; reflexivity.
Qed.

Lemma added_rooms_are_classrooms w :
  0 < length (classroomsOf w) ->
  Forall (fun e => exists r, In r (classroomsOf w) /\ e_room e = r_fullName r)
    (addedEntries w).
Proof.
  intros Hl. apply runCells_Forall. intros day time w' _ Hs _.
  unfold entryAt; cbn [e_room].
  rewrite (sameData_classrooms w w' Hs).
  apply Nat.ltb_lt in Hl. rewrite Hl.
  eexists. split; [|reflexivity]. apply pick_In. now apply Nat.ltb_lt.
Qed.

(** X8.  After [deleteRoom], and as long as a classroom is left, every room
    a run assigns is a classroom that was on the list before the deletion and
    whose id is not the deleted one; deleting does not touch the stored
    timetable, so entries that name the deleted room stay. *)
Theorem deleted_room_never_assigned (id : Z) (w : World) :
  let w1 := snd (deleteRoom id w) in
  0 < length (classroomsOf w1) ->
  Forall (fun e => exists r, In r (roomData w) /\ r_id r <> id
                             /\ r_type r = "classroom"
                             /\ e_room e = r_fullName r)
    (addedEntries w1)
  /\ storedTimetable w1 = storedTimetable w.
Proof.
  intros w1 Hl. split; [|reflexivity].
  eapply Forall_impl; [|apply (added_rooms_are_classrooms w1 Hl)].
  intros e (r & Hin & He). exists r.
  unfold classroomsOf in Hin. apply filter_In in Hin as [Hin Ht].
  unfold w1, deleteRoom in Hin; cbn [snd roomData] in Hin.
  apply filter_In in Hin as [Hin Hid].
  apply negb_true_iff, Z.eqb_neq in Hid. apply String.eqb_eq in Ht.
  repeat split; assumption.
Qed.

End RoomFacts.

Lemma saveRoom_deleteRoom_round_trip_witness :
  roomData (snd (deleteRoom 1700000000000
                   (snd (saveRoom (RoomForm.typed "40")))))
  = [Scenario.room101].
Proof.
  refine (proj1 (saveRoom_deleteRoom_round_trip (RoomForm.typed "40")
                   eq_refl _)).
  repeat constructor. discriminate.
Defined.

Lemma deleted_room_never_assigned_witness :
  Forall (fun e => exists r, In r (roomData TwoRooms.page) /\ r_id r <> 2%Z
                             /\ r_type r = "classroom"
                             /\ e_room e = r_fullName r)
    (addedEntries (snd (deleteRoom 2 TwoRooms.page))).
Proof.
  refine (proj1 (deleted_room_never_assigned 2 TwoRooms.page _)).
  vm_compute. lia.
Defined.

(** ** The credential service: registering, creating, logging in *)

Section ServiceMoreFacts.

Context {BC : Bcrypt}.

Ltac split_cases :=
  repeat match goal with
         | |- context [if ?b then _ else _] => destruct b eqn:?
         | |- context [match ?o with Some _ => _ | None => _ end] =>
             destruct o eqn:?
         end.

Lemma takeChars_length n s :
  n <= String.length s -> String.length (takeChars n s) = n.
Proof.
  revert s. induction n as [|n IH]; intros s H; [reflexivity|].
  destruct s as [|c s]; simpl in *; [lia|]. rewrite IH; lia.
Qed.

Lemma varchar_fits n s v :
  String.length s <= n -> varchar n s = Some v -> v = s.
Proof.
  intros H. unfold varchar. apply Nat.leb_le in H. rewrite H. congruence.
Qed.

Lemma varchar_length n s v : varchar n s = Some v -> String.length v <= n.
Proof.
  unfold varchar. destruct (String.length s <=? n) eqn:E.
  - apply Nat.leb_le in E. intros H. inversion H. subst. exact E.
  - apply Nat.leb_gt in E.
    destruct (JsString.allChars (Ascii.eqb " ") (dropChars n s));
      [|discriminate].
    intros H. assert (Hv : takeChars n s = v) by congruence.
    rewrite <- Hv, takeChars_length; lia.
Qed.

(** A role the CHECK accepts was stored as given. *)
Lemma varchar_allowed_role role v :
  varchar 50 role = Some v -> existsb (String.eqb v) allowedRoles = true ->
  v = role.
Proof.
  unfold varchar. destruct (String.length role <=? 50) eqn:E; [congruence|].
  apply Nat.leb_gt in E.
  destruct (JsString.allChars (Ascii.eqb " ") (dropChars 50 role));
    [|discriminate].
  intros H Hal. assert (Hv : takeChars 50 role = v) by congruence.
  assert (Hlen : String.length v = 50)
    by (rewrite <- Hv; apply takeChars_length; lia).
  apply existsb_exists in Hal as (a & Hin & Ha).
  apply String.eqb_eq in Ha. subst a.
  destruct Hin as [<-|[<-|[<-|[]]]]; discriminate Hlen.
Qed.

Lemma filter_all_false_rows {A} (p : A -> bool) (l : list A) :
  (forall x, In x l -> p x = false) -> filter p l = [].
Proof.
  induction l as [|x l IH]; intros H; [reflexivity|]. simpl.
  rewrite (H x (or_introl eq_refl)). apply IH. intros y Hy. apply H. now right.
Qed.

(** What a successful insert did. *)
Lemma insertUser_success u h r fn s row :
  fst (insertUser u h r fn s) = inr row ->
  db_available (snd (insertUser u h r fn s)) = true
  /\ users (snd (insertUser u h r fn s)) = users s ++ [row]
  /\ varchar 255 u = Some (u_username row)
  /\ varchar 255 h = Some (u_password_hash row)
  /\ u_role row = r
  /\ usernameTaken (u_username row) (users s) = false
  /\ hasNul u = false /\ hasNul r = false
  /\ u_id row = users_id_seq s.
Proof.
  unfold insertUser.
  destruct (db_available s) eqn:Hav; cbn [negb]; [|discriminate].
  destruct (hasNul u) eqn:Hnu; cbn [orb]; [discriminate|].
  destruct (hasNul h) eqn:Hnh; cbn [orb]; [discriminate|].
  destruct (hasNul r) eqn:Hnr; cbn [orb]; [discriminate|].
  destruct (match fn with Some n => hasNul n | None => false end);
    [discriminate|].
  destruct (varchar 255 u) as [u'|] eqn:Hu; [|discriminate].
  destruct (varchar 255 h) as [h'|] eqn:Hh; [|discriminate].
  destruct (varchar 50 r) as [r'|] eqn:Hr; [|discriminate].
  destruct (match fn with
            | Some n => option_map Some (varchar 255 n)
            | None => Some None
            end) as [fn'|]; [|discriminate].
  destruct (existsb (String.eqb r') allowedRoles) eqn:Hal; cbn [negb];
    [|discriminate].
  destruct (usernameTaken u' (users s)) eqn:Ht; [discriminate|].
  cbn. intros H. inversion H. subst row. cbn.
  repeat split; try assumption; try reflexivity.
  now apply varchar_allowed_role.
Qed.

(** What a failed insert left. *)
Lemma insertUser_failure u h r fn s e :
  fst (insertUser u h r fn s) = inl e ->
  users (snd (insertUser u h r fn s)) = users s.
Proof.
  pose proof (insertUser_outcome u h r fn s) as H. intros He.
  now rewrite He in H.
Qed.

Lemma usernameTaken_false_iff u rows :
  usernameTaken u rows = false <-> ~ In u (map u_username rows).
Proof.
  unfold usernameTaken. split.
  - intros H Hin. apply in_map_iff in Hin as (row & Hrow & Hin).
    assert (Ht : existsb (fun x => String.eqb (u_username x) u) rows = true).
    { apply existsb_exists. exists row. split; [exact Hin|].
      now apply String.eqb_eq. }
    congruence.
  - intros H. destruct (existsb _ rows) eqn:E; [|reflexivity].
    apply existsb_exists in E as (row & Hin & Hrow).
    apply String.eqb_eq in Hrow. exfalso. apply H.
    apply in_map_iff. now exists row.
Qed.

Lemma insertUser_unique u h r fn s :
  uniqueUsernames s -> uniqueUsernames (snd (insertUser u h r fn s)).
Proof.
  intros Hu. unfold uniqueUsernames in *.
  destruct (fst (insertUser u h r fn s)) as [e|row] eqn:E.
  - now rewrite (insertUser_failure u h r fn s e E).
  - destruct (insertUser_success u h r fn s row E)
      as (_ & Hus & _ & _ & _ & Ht & _).
    rewrite Hus, map_app. cbn [map].
    apply NoDup_app; [exact Hu | repeat constructor; intros [] |].
    intros a Ha [Hb|[]]. subst a.
    apply usernameTaken_false_iff in Ht. contradiction.
Qed.

(** The state a handler leaves is the one it found or the one its insert
    left. *)
Lemma createUser_state req s :
  snd (createUser req s) = s
  \/ exists u h r fn,
       snd (createUser req s) = snd (insertUser u h r fn (snd (nextSalt s))).
Proof.
  unfold createUser.
  destruct (falsy (cu_name req) || falsy (cu_role req) || falsy (cu_dob req));
    [now left|].
  right. unfold bind, nextSalt. cbv beta iota zeta.
  match goal with
  | |- context [insertUser ?u ?h ?r ?fn ?st] =>
      exists u, h, r, fn; cbn [snd];
      destruct (insertUser u h r fn st) as [[[|]|row] s2]
  end; reflexivity.
Qed.

Lemma register_state req s :
  snd (register req s) = s
  \/ exists u h r fn,
       snd (register req s) = snd (insertUser u h r fn (snd (nextSalt s))).
Proof.
  unfold register.
  destruct (falsy (rg_username req) || falsy (rg_password req)
            || falsy (rg_role req)); [now left|].
  right. unfold bind, nextSalt. cbv beta iota zeta.
  match goal with
  | |- context [insertUser ?u ?h ?r ?fn ?st] =>
      exists u, h, r, fn; cbn [snd];
      destruct (insertUser u h r fn st) as [[[|]|row] s2]
  end; reflexivity.
Qed.

Lemma login_state req s : snd (login req s) = s.
Proof.
  unfold login, bind, selectUser.
  destruct (negb (db_available s)); [reflexivity|].
  destruct (negb (parameterOk (lg_username req))
            || negb (parameterOk (lg_role req))); [reflexivity|].
  destruct (usersWhere (lg_username req) (lg_role req) (users s));
    [reflexivity|].
  destruct (lg_password req); [|reflexivity].
  destruct (bcrypt_compare _ _); reflexivity.
Qed.

Lemma usersWhere_at_most_one u r rows :
  NoDup (map u_username rows) ->
  length (usersWhere (Some u) (Some r) rows) <= 1.
Proof.
  unfold usersWhere. induction rows as [|row rows IH]; intros Hnd; [cbn; lia|].
  inversion Hnd as [|? ? Hnot Hrest]; subst. cbn [filter].
  destruct (String.eqb (u_username row) u) eqn:E; cbn [andb];
    [|now apply IH].
  apply String.eqb_eq in E.
  assert (Hnone : filter (fun x => String.eqb (u_username x) u
                                   && String.eqb (u_role x) r) rows = []).
  { apply filter_all_false_rows. intros x Hx.
    destruct (String.eqb (u_username x) u) eqn:Ex; [|reflexivity].
    apply String.eqb_eq in Ex. exfalso. apply Hnot.
    rewrite E, <- Ex. now apply in_map. }
  destruct (String.eqb (u_role row) r); rewrite Hnone; cbn; lia.
Qed.

(** X10.  If no two rows share a username, no request to create-user,
    register or login changes that, and the query of login returns at most
    one row, so that taking its first row loses nothing. *)
Theorem usernames_stay_unique (s : Server) (c : CreateUserBody)
  (g : RegisterBody) (l : LoginBody) :
  uniqueUsernames s ->
  uniqueUsernames (snd (createUser c s))
  /\ uniqueUsernames (snd (register g s))
  /\ uniqueUsernames (snd (login l s))
  /\ (forall u r, length (usersWhere (Some u) (Some r) (users s)) <= 1).
Proof.
  intros Hu. repeat split.
  - destruct (createUser_state c s) as [->|(u & h & r & fn & ->)];
      [exact Hu | now apply insertUser_unique].
  - destruct (register_state g s) as [->|(u & h & r & fn & ->)];
      [exact Hu | now apply insertUser_unique].
  - now rewrite login_state.
  - intros u r. now apply usersWhere_at_most_one.
Qed.

(** Login right after the insert of a row, with the row's username and
    role and a password its hash accepts. *)
Lemma login_after_insert u h r fn s row password :
  fst (insertUser u h r fn s) = inr row ->
  u_username row = u ->
  bcrypt_compare password (u_password_hash row) = true ->
  fst (login (mkLoginBody (Some u) (Some password) (Some r))
         (snd (insertUser u h r fn s)))
  = mkResponse 200
      (JObj [("id", JNum (u_id row)); ("username", JStr u);
             ("role", JStr r);
             ("name", match u_full_name row with
                      | Some n => JStr n
                      | None => JNull
                      end)]).
Proof.
  intros Hins Hname Hcmp.
  destruct (insertUser_success u h r fn s row Hins)
    as (Hav & Hus & _ & _ & Hrole & Ht & Hnu & Hnr & _).
  unfold login, bind, selectUser.
  cbn [lg_username lg_role lg_password parameterOk].
  rewrite Hav, Hnu, Hnr. cbn [negb orb].
  rewrite Hus. unfold usersWhere. rewrite filter_app.
  assert (Hnone : filter (fun x => String.eqb (u_username x) u
                                   && String.eqb (u_role x) r) (users s) = []).
  { apply filter_all_false_rows. intros x Hx.
    destruct (String.eqb (u_username x) u) eqn:Ex; [|reflexivity].
    apply String.eqb_eq in Ex. exfalso.
    rewrite Hname in Ht. apply usernameTaken_false_iff in Ht. apply Ht.
    rewrite <- Ex. now apply in_map. }
  rewrite Hnone. cbn [app filter].
  rewrite Hname, Hrole, !String.eqb_refl. cbn [andb].
  rewrite Hcmp. cbn. now rewrite Hname, Hrole.
Qed.

(** X11.  A user that create-user has just created can log in with the
    credentials the response reported and the role requested, provided bcrypt
    accepts the password against the hash it made of it and the hash fits the
    column. *)
Theorem created_user_can_log_in (s : Server) (name role dob : string) :
  name <> "" -> role <> "" -> dob <> "" ->
  let req := mkCreateUserBody (Some name) (Some role) (Some dob) in
  let hash := bcrypt_hash dob 10 (salts s (salt_pos s)) in
  status (fst (createUser req s)) = 201 ->
  String.length hash <= 255 ->
  bcrypt_compare dob hash = true ->
  exists id fullName,
    fst (login (mkLoginBody (Some (lowercasedWithoutWhiteSpace name))
                  (Some dob) (Some role))
           (snd (createUser req s)))
    = mkResponse 200
        (JObj [("id", JNum id);
               ("username", JStr (lowercasedWithoutWhiteSpace name));
               ("role", JStr role); ("name", fullName)]).
Proof.
  intros Hn Hr Hd req hash Hst Hlen Hcmp. subst req.
  rewrite (createUser_run s name role dob Hn Hr Hd) in *.
  cbn [fst snd] in *. fold hash in Hst |- *.
  destruct (fst (insertUser (lowercasedWithoutWhiteSpace name) hash role
                   (Some name) (snd (nextSalt s)))) as [[|]|row] eqn:Hins;
    try discriminate Hst.
  destruct (insertUser_success _ _ _ _ _ _ Hins)
    as (_ & _ & Hu & Hh & _).
  assert (Hname : u_username row = lowercasedWithoutWhiteSpace name).
  { apply (varchar_without_space 255 _ _ (filterChars_all _ _) Hu). }
  assert (Hhash : u_password_hash row = hash)
    by apply (varchar_fits 255 _ _ Hlen Hh).
  eexists. eexists.
  apply (login_after_insert _ _ _ _ _ row dob Hins Hname).
  now rewrite Hhash.
Qed.

(** X9.  Register answers 400 exactly when username, password or role is
    missing or empty, and then leaves the server as it was; a 201 answer
    carries the id, username and role of the one row appended, whose hash is
    the stored form of bcrypt's hash of the password, and nothing of the
    password; any other answer is 409 or 500 and leaves the rows as they
    were. *)
Theorem register_outcomes (s : Server) (req : RegisterBody) :
  let r := fst (register req s) in
  let s' := snd (register req s) in
  (status r = 400 <->
   falsy (rg_username req) || falsy (rg_password req) || falsy (rg_role req)
   = true)
  /\ (status r = 400 -> s' = s)
  /\ (status r = 201 ->
      exists row,
        body r = JObj [("id", JNum (u_id row));
                       ("username", JStr (u_username row));
                       ("role", JStr (u_role row))]
        /\ users s' = users s ++ [row]
        /\ u_role row = stringOf (rg_role req)
        /\ varchar 255 (stringOf (rg_username req)) = Some (u_username row)
        /\ varchar 255 (bcrypt_hash (stringOf (rg_password req)) 10
                          (salts s (salt_pos s)))
           = Some (u_password_hash row))
  /\ (status r <> 201 -> users s' = users s)
  /\ (status r = 400 \/ status r = 201 \/ status r = 409 \/ status r = 500).
Proof.
  intros r s'. subst r s'. unfold register.
  destruct (falsy (rg_username req) || falsy (rg_password req)
            || falsy (rg_role req)).
  - cbn. repeat split; try discriminate; try tauto.
  - unfold bind, nextSalt. cbv beta iota zeta.
    match goal with
    | |- context [insertUser ?u ?h ?r ?fn ?st] =>
        pose proof (insertUser_success u h r fn st) as Hok;
        pose proof (insertUser_failure u h r fn st) as Hko;
        destruct (insertUser u h r fn st) as [[[|]|row] s2]
    end; cbn [fst snd] in *.
    + specialize (Hko _ eq_refl). cbn in Hko. cbn.
      repeat split; try discriminate; try tauto.
    + specialize (Hko _ eq_refl). cbn in Hko. cbn.
      repeat split; try discriminate; try tauto.
    + destruct (Hok row eq_refl) as (_ & Hus & Hu & Hh & Hr & _).
      cbn in Hus. cbn.
      repeat split; try discriminate; try tauto.
      intros _. exists row. repeat split; assumption.
Qed.

Lemma register_run s username password role fn :
  username <> "" -> password <> "" -> role <> "" ->
  let hash := bcrypt_hash password 10 (salts s (salt_pos s)) in
  let s1 := snd (nextSalt s) in
  register (mkRegisterBody (Some username) (Some password) (Some role) fn) s
  = (match fst (insertUser username hash role fn s1) with
     | inr row =>
         mkResponse 201
           (JObj [("id", JNum (u_id row));
                  ("username", JStr (u_username row));
                  ("role", JStr (u_role row))])
     | inl UniqueViolation =>
         mkResponse 409 (errorBody "Username already exists")
     | inl OtherError => mkResponse 500 (errorBody "Server error")
     end,
     snd (insertUser username hash role fn s1)).
Proof.
  intros Hu Hp Hr hash s1.
  unfold register;
    cbn [rg_username rg_password rg_role rg_fullName stringOf].
  rewrite (falsy_Some_false username Hu), (falsy_Some_false password Hp),
    (falsy_Some_false role Hr); cbn [orb].
  unfold bind.
  change (nextSalt s) with (salts s (salt_pos s), s1). subst hash.
  cbv beta iota.
  destruct (insertUser username
              (bcrypt_hash password 10 (salts s (salt_pos s))) role fn s1)
    as [[[|]|row] s2]; reflexivity.
Qed.

(** X12.  A user that register has just stored can log in with the same
    username, password and role, provided the username and the hash fit their
    columns and bcrypt accepts the password against the hash it made. *)
Theorem registered_user_can_log_in (s : Server)
  (username password role : string) (fn : option string) :
  username <> "" -> password <> "" -> role <> "" ->
  let req := mkRegisterBody (Some username) (Some password) (Some role) fn in
  let hash := bcrypt_hash password 10 (salts s (salt_pos s)) in
  status (fst (register req s)) = 201 ->
  String.length username <= 255 ->
  String.length hash <= 255 ->
  bcrypt_compare password hash = true ->
  exists id fullName,
    fst (login (mkLoginBody (Some username) (Some password) (Some role))
           (snd (register req s)))
    = mkResponse 200
        (JObj [("id", JNum id); ("username", JStr username);
               ("role", JStr role); ("name", fullName)]).
Proof.
  intros Hu Hp Hr req hash Hst Hlu Hlh Hcmp. subst req.
  rewrite (register_run s username password role fn Hu Hp Hr) in *.
  cbn [fst snd] in *. fold hash in Hst |- *.
  destruct (fst (insertUser username hash role fn (snd (nextSalt s))))
    as [[|]|row] eqn:Hins; try discriminate Hst.
  destruct (insertUser_success _ _ _ _ _ _ Hins) as (_ & _ & Hn & Hh & _).
  assert (Hname : u_username row = username)
    by apply (varchar_fits 255 _ _ Hlu Hn).
  assert (Hhash : u_password_hash row = hash)
    by apply (varchar_fits 255 _ _ Hlh Hh).
  eexists. eexists.
  apply (login_after_insert _ _ _ _ _ row password Hins Hname).
  now rewrite Hhash.
Qed.

(** X13.  Usernames are derived from names, so names that differ only in
    letter case or white space collide: once create-user has created a user,
    a second request whose name lowercases and strips to the same username is
    never answered 201, whatever its role and dob, and adds no row. *)
Theorem same_normalized_name_collides (s : Server)
  (name role dob name2 role2 dob2 : string) :
  name <> "" -> role <> "" -> dob <> "" ->
  name2 <> "" -> role2 <> "" -> dob2 <> "" ->
  status (fst (createUser (mkCreateUserBody (Some name) (Some role) (Some dob))
                 s)) = 201 ->
  lowercasedWithoutWhiteSpace name2 = lowercasedWithoutWhiteSpace name ->
  let s1 := snd (createUser (mkCreateUserBody (Some name) (Some role)
                               (Some dob)) s) in
  let req2 := mkCreateUserBody (Some name2) (Some role2) (Some dob2) in
  (status (fst (createUser req2 s1)) = 409
   \/ status (fst (createUser req2 s1)) = 500)
  /\ users (snd (createUser req2 s1)) = users s1.
Proof.
  intros Hn Hr Hd Hn2 Hr2 Hd2 Hst Heq s1 req2. subst s1 req2.
  rewrite (createUser_run s name role dob Hn Hr Hd) in *.
  cbn [fst snd] in *.
  set (u := lowercasedWithoutWhiteSpace name) in *.
  destruct (fst (insertUser u (bcrypt_hash dob 10 (salts s (salt_pos s))) role
                   (Some name) (snd (nextSalt s)))) as [[|]|row] eqn:Hins;
    try discriminate Hst.
  destruct (insertUser_success _ _ _ _ _ _ Hins) as (_ & Hus & Hu & _).
  assert (Hname : u_username row = u)
    by apply (varchar_without_space 255 _ _ (filterChars_all _ _) Hu).
  set (s1 := snd (insertUser u (bcrypt_hash dob 10 (salts s (salt_pos s)))
                    role (Some name) (snd (nextSalt s)))) in *.
  rewrite (createUser_run s1 name2 role2 dob2 Hn2 Hr2 Hd2).
  cbn [fst snd]. rewrite Heq. fold u.
  destruct (fst (insertUser u (bcrypt_hash dob2 10 (salts s1 (salt_pos s1)))
                   role2 (Some name2) (snd (nextSalt s1))))
    as [[|]|row2] eqn:Hins2.
  - split; [now left|]. apply (insertUser_failure _ _ _ _ _ _ Hins2).
  - split; [now right|]. apply (insertUser_failure _ _ _ _ _ _ Hins2).
  - exfalso.
    destruct (insertUser_success _ _ _ _ _ _ Hins2)
      as (_ & _ & Hu2 & _ & _ & Ht & _).
    assert (Hname2 : u_username row2 = u)
      by apply (varchar_without_space 255 _ _ (filterChars_all _ _) Hu2).
    rewrite Hname2 in Ht. apply usernameTaken_false_iff in Ht. apply Ht.
    change (users (snd (nextSalt s1))) with (users s1).
    rewrite Hus, map_app. apply in_or_app. right. left. exact Hname.
Qed.

End ServiceMoreFacts.

Lemma usernames_stay_unique_witness :
  uniqueUsernames (snd (createUser Accounts.newStudent Accounts.server))
  /\ length (usersWhere (Some "dr.sarahthorne") (Some "faculty")
               (users Accounts.server)) <= 1.
Proof.
  assert (Hu : uniqueUsernames Accounts.server)
    by (repeat constructor; intros []).
  destruct (usernames_stay_unique Accounts.server Accounts.newStudent
              Registry.admin
              (mkLoginBody (Some "dr.sarahthorne") (Some "1990-04-12")
                 (Some "faculty")) Hu) as (Hc & _ & _ & Hl).
  split; [exact Hc | apply Hl].
Defined.

Lemma created_user_can_log_in_witness :
  exists id fullName,
    fst (login (mkLoginBody (Some "adalovelace") (Some "1815-12-10")
                  (Some "student"))
           (snd (createUser Accounts.newStudent Accounts.server)))
    = mkResponse 200
        (JObj [("id", JNum id); ("username", JStr "adalovelace");
               ("role", JStr "student"); ("name", fullName)]).
Proof.
  refine (created_user_can_log_in Accounts.server "Ada  Lovelace" "student"
            "1815-12-10" _ _ _ eq_refl _ eq_refl);
    try discriminate.
  vm_compute. lia.
Defined.

Lemma registered_user_can_log_in_witness :
  exists id fullName,
    fst (login (mkLoginBody (Some "root") (Some "123") (Some "admin"))
           (snd (register Registry.admin Accounts.server)))
    = mkResponse 200
        (JObj [("id", JNum id); ("username", JStr "root");
               ("role", JStr "admin"); ("name", fullName)]).
Proof.
  refine (registered_user_can_log_in Accounts.server "root" "123" "admin" None
            _ _ _ eq_refl _ _ eq_refl);
    try discriminate; vm_compute; lia.
Defined.

Lemma same_normalized_name_collides_witness :
  users (snd (createUser
                (mkCreateUserBody (Some "ADA LOVELACE") (Some "faculty")
                   (Some "1900-01-01"))
                (snd (createUser Accounts.newStudent Accounts.server))))
  = users (snd (createUser Accounts.newStudent Accounts.server)).
Proof.
  refine (proj2 (same_normalized_name_collides Accounts.server
                   "Ada  Lovelace" "student" "1815-12-10"
                   "ADA LOVELACE" "faculty" "1900-01-01"
                   _ _ _ _ _ _ eq_refl eq_refl));
    discriminate.
Defined.

(** ** The admin page and the service together *)

Section AdminFacts.

Context {MR : MathRandom} {BC : Bcrypt}.

Lemma truthy_nonempty s : JsString.truthy s = true -> s <> "".
Proof. destruct s; discriminate. Qed.

(** A 201 from create-user, unfolded: the insert went through, and the row
    carries the derived username. *)
Lemma createUser_created s name role dob :
  name <> "" -> role <> "" -> dob <> "" ->
  status (fst (createUser (mkCreateUserBody (Some name) (Some role)
                             (Some dob)) s)) = 201 ->
  let u := lowercasedWithoutWhiteSpace name in
  let hash := bcrypt_hash dob 10 (salts s (salt_pos s)) in
  exists row,
    fst (insertUser u hash role (Some name) (snd (nextSalt s))) = inr row
    /\ snd (createUser (mkCreateUserBody (Some name) (Some role) (Some dob))
              s)
       = snd (insertUser u hash role (Some name) (snd (nextSalt s)))
    /\ u_username row = u
    /\ shownCredentials
         (body (fst (createUser (mkCreateUserBody (Some name) (Some role)
                                   (Some dob)) s)))
       = Some (u, dob).
Proof.
  intros Hn Hr Hd Hst u hash.
  rewrite (createUser_run s name role dob Hn Hr Hd) in *.
  cbn [fst snd] in *. fold u hash in Hst |- *.
  destruct (fst (insertUser u hash role (Some name) (snd (nextSalt s))))
    as [[|]|row] eqn:Hins; try discriminate Hst.
  exists row. repeat split.
  - destruct (insertUser_success _ _ _ _ _ _ Hins) as (_ & _ & Hu & _).
    apply (varchar_without_space 255 _ _ (filterChars_all _ _) Hu).
Qed.

(** Any other answer: no row was added, and the body carries an error. *)
Lemma createUser_refused s name role dob :
  name <> "" -> role <> "" -> dob <> "" ->
  status (fst (createUser (mkCreateUserBody (Some name) (Some role)
                             (Some dob)) s)) <> 201 ->
  users (snd (createUser (mkCreateUserBody (Some name) (Some role)
                            (Some dob)) s)) = users s
  /\ responseOk (fst (createUser (mkCreateUserBody (Some name) (Some role)
                                    (Some dob)) s)) = false
  /\ exists msg,
       errorMessage (body (fst (createUser (mkCreateUserBody (Some name)
                                              (Some role) (Some dob)) s)))
       = Some msg.
Proof.
  intros Hn Hr Hd Hst.
  rewrite (createUser_run s name role dob Hn Hr Hd) in *.
  cbn [fst snd] in *.
  destruct (fst (insertUser _ _ role (Some name) (snd (nextSalt s))))
    as [[|]|row] eqn:Hins.
  - split; [apply (insertUser_failure _ _ _ _ _ _ Hins)|].
    split; [reflexivity|]. eexists. reflexivity.
  - split; [apply (insertUser_failure _ _ _ _ _ _ Hins)|].
    split; [reflexivity|]. eexists. reflexivity.
  - now contradiction Hst.
Qed.

(** A name whose username is taken is refused. *)
Lemma createUser_taken s name role dob :
  name <> "" -> role <> "" -> dob <> "" ->
  In (lowercasedWithoutWhiteSpace name) (map u_username (users s)) ->
  status (fst (createUser (mkCreateUserBody (Some name) (Some role)
                             (Some dob)) s)) <> 201.
Proof.
  intros Hn Hr Hd Hin Hst.
  destruct (createUser_created s name role dob Hn Hr Hd Hst)
    as (row & Hins & _ & Hname & _).
  destruct (insertUser_success _ _ _ _ _ _ Hins)
    as (_ & _ & _ & _ & _ & Ht & _).
  rewrite Hname in Ht. apply usernameTaken_false_iff in Ht. now apply Ht.
Qed.

(** The try block in one step: one alert, the server as the request left
    it, and nothing else touched. *)
Lemma createCredentials_run name role dob heading y :
  name <> "" -> role <> "" -> dob <> "" ->
  exists msg,
    createCredentials name role dob heading y
    = (accountGranted name role dob y,
       mkSystem (snd (alert msg (page y))) (ls_faculty y) (ls_students y)
         (facultyForm y) (studentForm y)
         (if online y
          then snd (createUser (mkCreateUserBody (Some name) (Some role)
                                  (Some dob)) (backend y))
          else backend y)
         (online y) (fetchFailure y) (typeFailure y))
    /\ (accountGranted name role dob y = true ->
        msg = (heading ++ nl ++ "Username: "
                 ++ lowercasedWithoutWhiteSpace name ++ nl
                 ++ "Password: " ++ dob)%string).
Proof.
  intros Hn Hr Hd.
  unfold createCredentials, accountGranted, bind, postCreateUser, gets.
  destruct (online y) eqn:Ho; cbn [andb].
  - destruct (Nat.eq_dec
                (status (fst (createUser (mkCreateUserBody (Some name)
                                            (Some role) (Some dob))
                                (backend y)))) 201) as [Hst|Hst].
    + destruct (createUser_created _ name role dob Hn Hr Hd Hst)
        as (row & _ & _ & _ & Hc).
      destruct (createUser _ (backend y)) as [r s1].
      cbn [fst snd] in *. cbv beta iota.
      unfold responseOk. rewrite Hst, Hc. cbn [Nat.leb andb negb].
      change ((200 <=? 201) && (201 <=? 299)) with true. cbn [negb].
      unfold onPage, alert. cbn [page fst snd online]. rewrite ?Ho.
      eexists. split; [reflexivity|]. reflexivity.
    + destruct (createUser_refused _ name role dob Hn Hr Hd Hst)
        as (_ & Hok & msg & Hm).
      apply Nat.eqb_neq in Hst.
      destruct (createUser _ (backend y)) as [r s1].
      cbn [fst snd] in *. cbv beta iota.
      rewrite Hok, Hm, Hst. cbn [negb].
      unfold onPage, alert. cbn [page fst snd typeFailure online].
      rewrite ?Ho. eexists. split; [reflexivity|]. discriminate.
  - unfold onPage, alert. cbn [page fst snd fetchFailure online].
    rewrite ?Ho. eexists. split; [reflexivity|]. discriminate.
Qed.

Lemma accountGranted_true name role dob y :
  accountGranted name role dob y = true ->
  online y = true
  /\ status (fst (createUser (mkCreateUserBody (Some name) (Some role)
                                (Some dob)) (backend y))) = 201.
Proof.
  unfold accountGranted. intros H. apply andb_true_iff in H as [Ho Hst].
  split; [exact Ho | now apply Nat.eqb_eq].
Qed.

Lemma accountGranted_false name role dob y :
  name <> "" -> role <> "" -> dob <> "" ->
  accountGranted name role dob y = false ->
  users (if online y
         then snd (createUser (mkCreateUserBody (Some name) (Some role)
                                 (Some dob)) (backend y))
         else backend y) = users (backend y).
Proof.
  unfold accountGranted. intros Hn Hr Hd H.
  destruct (online y); [|reflexivity]. cbn [andb] in H.
  apply Nat.eqb_neq in H.
  apply (createUser_refused _ name role dob Hn Hr Hd H).
Qed.

(** What [saveFaculty] leaves, field by field. *)
Lemma saveFaculty_effect y :
  let form := facultyForm y in
  let y' := snd (saveFaculty y) in
  (facultyForm y' = form /\ studentForm y' = studentForm y
   /\ online y' = online y /\ clock (page y') = clock (page y)
   /\ studentData (page y') = studentData (page y)
   /\ ls_students y' = ls_students y)
  /\ (exists msg, alerts (page y') = alerts (page y) ++ [msg])
  /\ if facultyFormFilled y
        && accountGranted (fac_name form) "faculty" (fac_dob form) y
     then
       facultyData (page y')
       = facultyData (page y)
           ++ [mkFaculty (clock (page y) (clock_pos (page y)))
                 (fac_name form) (fac_dept form) (fac_role form)
                 (fac_subject form) 0 (JsString.parseInt (fac_max form))]
       /\ ls_faculty y' = Some (facultyData (page y'))
       /\ backend y'
          = snd (createUser (mkCreateUserBody (Some (fac_name form))
                               (Some "faculty") (Some (fac_dob form)))
                   (backend y))
     else
       facultyData (page y') = facultyData (page y)
       /\ ls_faculty y' = ls_faculty y
       /\ users (backend y') = users (backend y).
Proof.
  intros form y'. subst y'.
  unfold saveFaculty, bind, gets, facultyFormFilled. fold form.
  destruct (JsString.truthy (fac_name form)) eqn:Hn; cbn [negb orb andb];
    [|unfold onPage, alert; cbn; repeat split; eexists; reflexivity].
  destruct (JsString.truthy (fac_subject form)) eqn:Hs; cbn [negb orb andb];
    [|unfold onPage, alert; cbn; repeat split; eexists; reflexivity].
  destruct (JsString.truthy (fac_dob form)) eqn:Hd; cbn [negb orb andb];
    [|unfold onPage, alert; cbn; repeat split; eexists; reflexivity].
  apply truthy_nonempty in Hn, Hd.
  assert (Hr : "faculty" <> "") by discriminate.
  destruct (createCredentials_run (fac_name form) "faculty" (fac_dob form)
              "Faculty User Created!" y Hn Hr Hd) as (msg & Hrun & _).
  rewrite Hrun. cbv beta iota.
  destruct (accountGranted (fac_name form) "faculty" (fac_dob form) y)
    eqn:Hg.
  - destruct (accountGranted_true _ _ _ _ Hg) as [Ho _].
    unfold onPage, dateNow, pushFaculty, alert, ret.
    cbn [fst snd page facultyForm studentForm online backend ls_faculty
         ls_students facultyData studentData clock clock_pos alerts].
    rewrite Ho. repeat split. eexists; reflexivity.
  - pose proof (accountGranted_false _ _ _ _ Hn Hr Hd Hg) as Hu.
    unfold alert, ret.
    cbn [fst snd page facultyForm studentForm online backend ls_faculty
         ls_students facultyData studentData clock clock_pos alerts].
    repeat split; [eexists; reflexivity | exact Hu].
Qed.

(** What [saveStudent] leaves, field by field. *)
Lemma saveStudent_effect y :
  let form := studentForm y in
  let y' := snd (saveStudent y) in
  (facultyForm y' = facultyForm y /\ studentForm y' = form
   /\ online y' = online y /\ clock (page y') = clock (page y)
   /\ facultyData (page y') = facultyData (page y)
   /\ ls_faculty y' = ls_faculty y)
  /\ (exists msg, alerts (page y') = alerts (page y) ++ [msg])
  /\ if studentFormFilled y
        && accountGranted (stu_name form) "student" (stu_dob form) y
     then
       studentData (page y')
       = studentData (page y)
           ++ [mkStudent (clock (page y) (clock_pos (page y)))
                 (stu_name form) (stu_roll form) (stu_batch form)
                 (stu_dept form) (stu_sec form)]
       /\ ls_students y' = Some (studentData (page y'))
       /\ backend y'
          = snd (createUser (mkCreateUserBody (Some (stu_name form))
                               (Some "student") (Some (stu_dob form)))
                   (backend y))
     else
       studentData (page y') = studentData (page y)
       /\ ls_students y' = ls_students y
       /\ users (backend y') = users (backend y).
Proof.
  intros form y'. subst y'.
  unfold saveStudent, bind, gets, studentFormFilled. fold form.
  destruct (JsString.truthy (stu_name form)) eqn:Hn; cbn [negb orb andb];
    [|unfold onPage, alert; cbn; repeat split; eexists; reflexivity].
  destruct (JsString.truthy (stu_roll form)) eqn:Hs; cbn [negb orb andb];
    [|unfold onPage, alert; cbn; repeat split; eexists; reflexivity].
  destruct (JsString.truthy (stu_sec form)) eqn:Hc; cbn [negb orb andb];
    [|unfold onPage, alert; cbn; repeat split; eexists; reflexivity].
  destruct (JsString.truthy (stu_dob form)) eqn:Hd; cbn [negb orb andb];
    [|unfold onPage, alert; cbn; repeat split; eexists; reflexivity].
  apply truthy_nonempty in Hn, Hd.
  assert (Hr : "student" <> "") by discriminate.
  destruct (createCredentials_run (stu_name form) "student" (stu_dob form)
              "Student User Created!" y Hn Hr Hd) as (msg & Hrun & _).
  rewrite Hrun. cbv beta iota.
  destruct (accountGranted (stu_name form) "student" (stu_dob form) y)
    eqn:Hg.
  - destruct (accountGranted_true _ _ _ _ Hg) as [Ho _].
    unfold onPage, dateNow, pushStudent, alert, ret.
    cbn [fst snd page facultyForm studentForm online backend ls_faculty
         ls_students facultyData studentData clock clock_pos alerts].
    rewrite Ho. repeat split. eexists; reflexivity.
  - pose proof (accountGranted_false _ _ _ _ Hn Hr Hd Hg) as Hu.
    unfold alert, ret.
    cbn [fst snd page facultyForm studentForm online backend ls_faculty
         ls_students facultyData studentData clock clock_pos alerts].
    repeat split; [eexists; reflexivity | exact Hu].
Qed.

Lemma createUser_created_row s name role dob :
  name <> "" -> role <> "" -> dob <> "" ->
  status (fst (createUser (mkCreateUserBody (Some name) (Some role)
                             (Some dob)) s)) = 201 ->
  exists row,
    users (snd (createUser (mkCreateUserBody (Some name) (Some role)
                              (Some dob)) s)) = users s ++ [row]
    /\ u_username row = lowercasedWithoutWhiteSpace name
    /\ u_role row = role.
Proof.
  intros Hn Hr Hd Hst.
  destruct (createUser_created s name role dob Hn Hr Hd Hst)
    as (row & Hins & Hsnd & Hname & _).
  destruct (insertUser_success _ _ _ _ _ _ Hins)
    as (_ & Hus & _ & _ & Hrole & _).
  exists row. rewrite Hsnd, Hus. repeat split; assumption.
Qed.

Lemma accountGranted_taken name role dob y :
  name <> "" -> role <> "" -> dob <> "" ->
  In (lowercasedWithoutWhiteSpace name) (map u_username (users (backend y))) ->
  accountGranted name role dob y = false.
Proof.
  intros Hn Hr Hd Hin. unfold accountGranted.
  pose proof (createUser_taken _ name role dob Hn Hr Hd Hin) as H.
  apply Nat.eqb_neq in H. rewrite H. apply andb_false_r.
Qed.

Lemma facultyFormFilled_nonempty y :
  facultyFormFilled y = true ->
  fac_name (facultyForm y) <> "" /\ fac_dob (facultyForm y) <> "".
Proof.
  unfold facultyFormFilled. intros H.
  apply andb_true_iff in H as [H Hd]. apply andb_true_iff in H as [Hn _].
  split; now apply truthy_nonempty.
Qed.

(** The list grows only when the form was filled and the account granted. *)
Lemma saveFaculty_grew y :
  facultyData (page (snd (saveFaculty y))) <> facultyData (page y) ->
  facultyFormFilled y = true
  /\ accountGranted (fac_name (facultyForm y)) "faculty"
       (fac_dob (facultyForm y)) y = true.
Proof.
  intros Hgrew. pose proof (saveFaculty_effect y) as (_ & _ & H).
  cbv zeta in H.
  destruct (facultyFormFilled y
            && accountGranted (fac_name (facultyForm y)) "faculty"
                 (fac_dob (facultyForm y)) y) eqn:E.
  - now apply andb_true_iff in E.
  - destruct H as (H & _). contradiction.
Qed.

(** X14.  [saveFaculty] shows exactly one alert, and it adds a faculty
    member to the list exactly when the form has name, subject and date of
    birth, the service was reached and it answered 201: then the list and
    its stored copy grow by the member the form describes, with 0 current
    hours and the id [Date.now] gave, and the users table grows by one
    faculty row under the derived username; otherwise the list, its stored
    copy and the users table stay as they were. *)
Theorem saveFaculty_entry_iff_account (y : System) :
  let form := facultyForm y in
  let y' := snd (saveFaculty y) in
  (exists msg, alerts (page y') = alerts (page y) ++ [msg])
  /\ if facultyFormFilled y
        && accountGranted (fac_name form) "faculty" (fac_dob form) y
     then
       facultyData (page y')
       = facultyData (page y)
           ++ [mkFaculty (clock (page y) (clock_pos (page y)))
                 (fac_name form) (fac_dept form) (fac_role form)
                 (fac_subject form) 0 (JsString.parseInt (fac_max form))]
       /\ ls_faculty y' = Some (facultyData (page y'))
       /\ exists row,
            users (backend y') = users (backend y) ++ [row]
            /\ u_username row = lowercasedWithoutWhiteSpace (fac_name form)
            /\ u_role row = "faculty"
     else
       facultyData (page y') = facultyData (page y)
       /\ ls_faculty y' = ls_faculty y
       /\ users (backend y') = users (backend y).
Proof.
  intros form y'. subst form y'.
  pose proof (saveFaculty_effect y) as (_ & Hal & H). cbv zeta in H.
  split; [exact Hal|].
  destruct (facultyFormFilled y
            && accountGranted (fac_name (facultyForm y)) "faculty"
                 (fac_dob (facultyForm y)) y) eqn:E; [|exact H].
  destruct H as (Hdata & Hls & Hback).
  split; [exact Hdata|]. split; [exact Hls|].
  apply andb_true_iff in E as [Hf Hg].
  destruct (facultyFormFilled_nonempty y Hf) as [Hn Hd].
  destruct (accountGranted_true _ _ _ _ Hg) as [_ Hst].
  rewrite Hback.
  apply (createUser_created_row _ _ "faculty" _ Hn ltac:(discriminate) Hd Hst).
Qed.

(** X15.  Whenever [saveFaculty] puts a faculty member on the list, that
    member can log in as faculty with the name lowercased and stripped of
    white space and the date of birth, provided bcrypt accepts the date
    against the hash it made of it and the hash fits the column. *)
Theorem saved_faculty_can_log_in (y : System) :
  let form := facultyForm y in
  let hash := bcrypt_hash (fac_dob form) 10
                (salts (backend y) (salt_pos (backend y))) in
  facultyData (page (snd (saveFaculty y))) <> facultyData (page y) ->
  String.length hash <= 255 ->
  bcrypt_compare (fac_dob form) hash = true ->
  exists id fullName,
    fst (login (mkLoginBody
                  (Some (lowercasedWithoutWhiteSpace (fac_name form)))
                  (Some (fac_dob form)) (Some "faculty"))
           (backend (snd (saveFaculty y))))
    = mkResponse 200
        (JObj [("id", JNum id);
               ("username",
                JStr (lowercasedWithoutWhiteSpace (fac_name form)));
               ("role", JStr "faculty"); ("name", fullName)]).
Proof.
  intros form hash Hgrew Hlen Hcmp.
  destruct (saveFaculty_grew y Hgrew) as [Hf Hg].
  pose proof (saveFaculty_effect y) as (_ & _ & H). cbv zeta in H.
  rewrite Hf, Hg in H. cbn [andb] in H. destruct H as (_ & _ & Hback).
  destruct (facultyFormFilled_nonempty y Hf) as [Hn Hd].
  destruct (accountGranted_true _ _ _ _ Hg) as [_ Hst].
  destruct (createUser_created _ _ "faculty" _ Hn ltac:(discriminate) Hd Hst)
    as (row & Hins & Hsnd & Hname & _).
  destruct (insertUser_success _ _ _ _ _ _ Hins) as (_ & _ & _ & Hh & _).
  fold form hash in Hins, Hsnd, Hname, Hh, Hback.
  assert (Hhash : u_password_hash row = hash)
    by apply (varchar_fits 255 _ _ Hlen Hh).
  rewrite Hback, Hsnd. eexists. eexists.
  apply (login_after_insert _ _ _ _ _ row (fac_dob form) Hins Hname).
  now rewrite Hhash.
Qed.

(** X16.  Deleting a faculty member deletes no account.  After a save that
    added a member under an id no other member has, [deleteFaculty] with
    that id gives back the list as it was, and its stored copy; the users
    table still holds the username, so saving the same form again adds
    nothing to the list and nothing to the table. *)
Theorem deleted_faculty_keeps_account (y : System) :
  let id := clock (page y) (clock_pos (page y)) in
  let y1 := snd (saveFaculty y) in
  let y2 := snd (deleteFaculty id y1) in
  let y3 := snd (saveFaculty y2) in
  facultyData (page y1) <> facultyData (page y) ->
  Forall (fun f => f_id f <> id) (facultyData (page y)) ->
  facultyData (page y2) = facultyData (page y)
  /\ ls_faculty y2 = Some (facultyData (page y))
  /\ In (lowercasedWithoutWhiteSpace (fac_name (facultyForm y)))
       (map u_username (users (backend y2)))
  /\ facultyData (page y3) = facultyData (page y)
  /\ ls_faculty y3 = Some (facultyData (page y))
  /\ users (backend y3) = users (backend y2).
Proof.
  intros id y1 y2 y3 Hgrew Hfresh.
  destruct (saveFaculty_grew y Hgrew) as [Hf Hg].
  pose proof (saveFaculty_effect y) as ((Hform & _) & _ & H). cbv zeta in H.
  rewrite Hf, Hg in H. cbn [andb] in H. destruct H as (Hdata & _ & Hback).
  fold y1 in Hform, Hdata, Hback.
  destruct (facultyFormFilled_nonempty y Hf) as [Hn Hd].
  destruct (accountGranted_true _ _ _ _ Hg) as [_ Hst].
  destruct (createUser_created_row _ _ "faculty" _ Hn ltac:(discriminate) Hd
              Hst) as (row & Hus & Hname & _).
  assert (Hdata2 : facultyData (page y2) = facultyData (page y)).
  { subst y2. unfold deleteFaculty. cbn [snd page facultyData].
    rewrite Hdata, filter_app. cbn [filter f_id]. fold id.
    rewrite Z.eqb_refl. cbn [negb]. rewrite app_nil_r.
    apply filter_all_true.
    eapply Forall_impl; [|exact Hfresh].
    intros f Hfid. cbn beta. apply negb_true_iff, Z.eqb_neq. exact Hfid. }
  assert (Hls2 : ls_faculty y2 = Some (facultyData (page y2))) by reflexivity.
  assert (Hback2 : backend y2 = backend y1) by reflexivity.
  assert (Hform2 : facultyForm y2 = facultyForm y) by exact Hform.
  assert (Hin : In (lowercasedWithoutWhiteSpace (fac_name (facultyForm y)))
                  (map u_username (users (backend y2)))).
  { rewrite Hback2, Hback, Hus, map_app. apply in_or_app. right. left.
    exact Hname. }
  split; [exact Hdata2|]. split; [now rewrite Hls2, Hdata2|].
  split; [exact Hin|].
  pose proof (saveFaculty_effect y2) as (_ & _ & H). cbv zeta in H.
  fold y3 in H. rewrite Hform2 in H.
  rewrite (accountGranted_taken _ "faculty" _ y2 Hn ltac:(discriminate) Hd
             Hin), andb_false_r in H.
  destruct H as (H3 & Hls3 & Hus3).
  split; [now rewrite H3|]. split; [|exact Hus3].
  now rewrite Hls3, Hls2, Hdata2.
Qed.

(** X17.  Students and faculty share one username space: after a save that
    added a faculty member, [saveStudent] for a student whose name differs
    from the member's at most in letter case and white space adds no
    student, whatever else the form holds, and no row. *)
Theorem student_named_like_faculty_refused (y : System) :
  let y1 := snd (saveFaculty y) in
  let y2 := snd (saveStudent y1) in
  facultyData (page y1) <> facultyData (page y) ->
  lowercasedWithoutWhiteSpace (stu_name (studentForm y))
  = lowercasedWithoutWhiteSpace (fac_name (facultyForm y)) ->
  studentData (page y2) = studentData (page y)
  /\ ls_students y2 = ls_students y
  /\ users (backend y2) = users (backend y1).
Proof.
  intros y1 y2 Hgrew Hsame.
  destruct (saveFaculty_grew y Hgrew) as [Hf Hg].
  pose proof (saveFaculty_effect y)
    as ((_ & Hform & _ & _ & Hstu & Hls) & _ & H).
  cbv zeta in H.
  rewrite Hf, Hg in H. cbn [andb] in H. destruct H as (_ & _ & Hback).
  fold y1 in Hform, Hstu, Hls, Hback.
  destruct (facultyFormFilled_nonempty y Hf) as [Hn Hd].
  destruct (accountGranted_true _ _ _ _ Hg) as [_ Hst].
  destruct (createUser_created_row _ _ "faculty" _ Hn ltac:(discriminate) Hd
              Hst) as (row & Hus & Hname & _).
  pose proof (saveStudent_effect y1) as (_ & _ & H). cbv zeta in H.
  fold y2 in H. rewrite Hform in H.
  assert (Hno : studentFormFilled y1
                && accountGranted (stu_name (studentForm y)) "student"
                     (stu_dob (studentForm y)) y1 = false).
  { destruct (studentFormFilled y1) eqn:Hsf; [|reflexivity]. cbn [andb].
    unfold studentFormFilled in Hsf. rewrite Hform in Hsf.
    apply andb_true_iff in Hsf as [Hsf Hd2].
    apply andb_true_iff in Hsf as [Hsf _].
    apply andb_true_iff in Hsf as [Hn2 _].
    apply truthy_nonempty in Hn2, Hd2.
    apply (accountGranted_taken _ "student" _ y1 Hn2 ltac:(discriminate) Hd2).
    rewrite Hsame, Hback, Hus, map_app. apply in_or_app. right. left.
    exact Hname. }
  rewrite Hno in H. destruct H as (H2 & Hls2 & Hus2).
  split; [now rewrite H2|]. split; [now rewrite Hls2|exact Hus2].
Qed.

(** X18.  [saveStudent] shows exactly one alert, and it adds a student to
    the list exactly when the form has name, roll number, section and date
    of birth, the service was reached and it answered 201: then the list and
    its stored copy grow by the student the form describes and the users
    table grows by one student row under the derived username; otherwise the
    list, its stored copy and the users table stay as they were. *)
Theorem saveStudent_entry_iff_account (y : System) :
  let form := studentForm y in
  let y' := snd (saveStudent y) in
  (exists msg, alerts (page y') = alerts (page y) ++ [msg])
  /\ if studentFormFilled y
        && accountGranted (stu_name form) "student" (stu_dob form) y
     then
       studentData (page y')
       = studentData (page y)
           ++ [mkStudent (clock (page y) (clock_pos (page y)))
                 (stu_name form) (stu_roll form) (stu_batch form)
                 (stu_dept form) (stu_sec form)]
       /\ ls_students y' = Some (studentData (page y'))
       /\ exists row,
            users (backend y') = users (backend y) ++ [row]
            /\ u_username row = lowercasedWithoutWhiteSpace (stu_name form)
            /\ u_role row = "student"
     else
       studentData (page y') = studentData (page y)
       /\ ls_students y' = ls_students y
       /\ users (backend y') = users (backend y).
Proof.
  intros form y'. subst form y'.
  pose proof (saveStudent_effect y) as (_ & Hal & H). cbv zeta in H.
  split; [exact Hal|].
  destruct (studentFormFilled y
            && accountGranted (stu_name (studentForm y)) "student"
                 (stu_dob (studentForm y)) y) eqn:E; [|exact H].
  destruct H as (Hdata & Hls & Hback).
  split; [exact Hdata|]. split; [exact Hls|].
  apply andb_true_iff in E as [Hf Hg].
  unfold studentFormFilled in Hf.
  apply andb_true_iff in Hf as [Hf Hd].
  apply andb_true_iff in Hf as [Hf _].
  apply andb_true_iff in Hf as [Hn _].
  apply truthy_nonempty in Hn, Hd.
  destruct (accountGranted_true _ _ _ _ Hg) as [_ Hst].
  rewrite Hback.
  apply (createUser_created_row _ _ "student" _ Hn ltac:(discriminate) Hd Hst).
Qed.

End AdminFacts.

Lemma saved_faculty_can_log_in_witness :
  exists id fullName,
    fst (login (mkLoginBody (Some "gracehopper") (Some "1906-12-09")
                  (Some "faculty"))
           (backend (snd (saveFaculty Office.desk))))
    = mkResponse 200
        (JObj [("id", JNum id); ("username", JStr "gracehopper");
               ("role", JStr "faculty"); ("name", fullName)]).
Proof.
  refine (saved_faculty_can_log_in Office.desk _ _ eq_refl).
  - vm_compute. discriminate.
  - vm_compute. lia.
Defined.

Lemma deleted_faculty_keeps_account_witness :
  facultyData (page (snd (saveFaculty
                            (snd (deleteFaculty 1700000000000
                                    (snd (saveFaculty Office.desk)))))))
  = [Scenario.thorne].
Proof.
  refine (proj1 (proj2 (proj2 (proj2
            (deleted_faculty_keeps_account Office.desk _ _))))).
  - vm_compute. discriminate.
  - repeat constructor. vm_compute. discriminate.
Defined.

Lemma student_named_like_faculty_refused_witness :
  studentData (page (snd (saveStudent (snd (saveFaculty Office.desk))))) = [].
Proof.
  refine (proj1 (student_named_like_faculty_refused Office.desk _ eq_refl)).
  vm_compute. discriminate.
Defined.

(** ** The conflicts page *)

Section ConflictFacts.

Lemma renderStep_fold l crit warn shown :
  fold_left renderStep l (crit, warn, shown)
  = (crit + severityCount "critical"
              (filter (fun c => String.eqb (k_status c) "open") l),
     warn + severityCount "warning"
              (filter (fun c => String.eqb (k_status c) "open") l),
     shown ++ filter (fun c => String.eqb (k_status c) "open") l).
Proof.
  revert crit warn shown.
  induction l as [|c l IH]; intros crit warn shown; cbn [fold_left filter].
  - unfold severityCount. cbn. now rewrite !Nat.add_0_r, app_nil_r.
  - unfold renderStep at 2.
    destruct (String.eqb (k_status c) "open"); cbn [negb]; [|apply IH].
    rewrite IH. unfold severityCount. cbn [filter].
    destruct (String.eqb (k_severity c) "critical");
      destruct (String.eqb (k_severity c) "warning");
      cbn [length]; rewrite <- ?app_assoc; cbn [app];
      (apply (f_equal2 pair); [apply (f_equal2 pair); lia | reflexivity]).
Qed.

(** What [renderConflicts] puts on screen. *)
Lemma renderConflicts_panel b :
  renderConflicts b
  = (tt,
     mkBoard (mockConflicts b) (stats_resolved b)
       (mkPanel (openConflicts b)
          (countText (severityCount "critical" (openConflicts b)))
          (countText (severityCount "warning" (openConflicts b)))
          (JsString.numberToString (Some (stats_resolved b)))
          (countText (severityCount "critical" (openConflicts b)
                      + severityCount "warning" (openConflicts b))))).
Proof.
  unfold renderConflicts. rewrite renderStep_fold. reflexivity.
Qed.

Lemma findIndex_none {A} (p : A -> bool) l :
  findIndex p l = None <-> existsb p l = false.
Proof.
  induction l as [|x l IH]; cbn; [tauto|].
  destruct (p x); cbn; [split; discriminate|].
  destruct (findIndex p l); cbn in *; [|tauto].
  split; [discriminate|]. intros H. apply IH in H. discriminate.
Qed.

Lemma resolveAt_first id l idx :
  NoDup (map k_id l) ->
  findIndex (fun c => String.eqb (k_id c) id) l = Some idx ->
  resolveAt idx l
  = map (fun c => if String.eqb (k_id c) id then markResolved c else c) l.
Proof.
  revert idx. induction l as [|c l IH]; intros idx Hnd Hfind;
    [discriminate|].
  cbn [map] in Hnd. inversion Hnd as [|? ? Hnotin Hnd']; subst.
  cbn [findIndex] in Hfind. cbn [map].
  destruct (String.eqb (k_id c) id) eqn:E.
  - inversion Hfind; subst idx. cbn [resolveAt]. f_equal.
    apply String.eqb_eq in E. subst id.
    clear - Hnotin. induction l as [|d l IH]; [reflexivity|].
    cbn [map] in *. destruct (String.eqb (k_id d) (k_id c)) eqn:Ed.
    + apply String.eqb_eq in Ed. exfalso. apply Hnotin. now left.
    + f_equal. apply IH. intros H. apply Hnotin. now right.
  - destruct (findIndex _ l) as [i|] eqn:Ei; [|discriminate].
    inversion Hfind; subst idx. cbn [resolveAt]. f_equal.
    now apply IH.
Qed.

Lemma map_resolve_ids id l :
  map k_id (map (fun c => if String.eqb (k_id c) id then markResolved c
                          else c) l)
  = map k_id l.
Proof.
  rewrite map_map. apply map_ext. intros c.
  now destruct (String.eqb (k_id c) id).
Qed.

(** One call, on a board whose ids are pairwise different. *)
Lemma resolveConflict_run id b :
  NoDup (map k_id (mockConflicts b)) ->
  snd (resolveConflict id b)
  = if known b id
    then snd (renderConflicts
                (mkBoard
                   (map (fun c => if String.eqb (k_id c) id
                                  then markResolved c else c)
                      (mockConflicts b))
                   (stats_resolved b + 1)%Z (panel b)))
    else b.
Proof.
  intros Hnd. unfold resolveConflict, known.
  destruct (findIndex _ (mockConflicts b)) as [idx|] eqn:E.
  - rewrite (resolveAt_first id _ idx Hnd E).
    destruct (existsb _ (mockConflicts b)) eqn:Ex; [reflexivity|].
    apply findIndex_none in Ex. congruence.
  - apply findIndex_none in E. now rewrite E.
Qed.

Lemma existsb_resolve_ids id i l :
  existsb (fun c => String.eqb (k_id c) i)
    (map (fun c => if String.eqb (k_id c) id then markResolved c else c) l)
  = existsb (fun c => String.eqb (k_id c) i) l.
Proof.
  induction l as [|c l IH]; [reflexivity|].
  cbn [map existsb]. rewrite IH.
  now destruct (String.eqb (k_id c) id).
Qed.

(** A sequence of calls: a conflict ends resolved when its id was among
    them, the counter has gone up once for every call that named a conflict
    on the board, and the panel, once redrawn, shows the board. *)
Lemma resolveEach_run ids b :
  NoDup (map k_id (mockConflicts b)) ->
  let b' := snd (resolveEach ids b) in
  mockConflicts b'
  = map (fun c => if existsb (String.eqb (k_id c)) ids then markResolved c
                  else c) (mockConflicts b)
  /\ stats_resolved b'
     = (stats_resolved b + Z.of_nat (length (filter (known b) ids)))%Z
  /\ (upToDate b \/ existsb (known b) ids = true -> upToDate b').
Proof.
  revert b. induction ids as [|id ids IH]; intros b Hnd b'; subst b'.
  - cbn. repeat split.
    + symmetry. rewrite <- (map_id (mockConflicts b)) at 2.
      apply map_ext. reflexivity.
    + lia.
    + intros [H|H]; [exact H | discriminate].
  - cbn [resolveEach]. unfold bind.
    destruct (resolveConflict id b) as [[] b1] eqn:Hb1.
    assert (Eb1 : b1 = snd (resolveConflict id b)) by now rewrite Hb1.
    rewrite (resolveConflict_run id b Hnd) in Eb1.
    cbn [snd existsb filter].
    destruct (known b id) eqn:Hk.
    + rewrite renderConflicts_panel in Eb1. cbn [snd mockConflicts
        stats_resolved] in Eb1.
      assert (Hc1 : mockConflicts b1
                    = map (fun c => if String.eqb (k_id c) id
                                    then markResolved c else c)
                        (mockConflicts b)) by now rewrite Eb1.
      assert (Hr1 : stats_resolved b1 = (stats_resolved b + 1)%Z)
        by now rewrite Eb1.
      assert (Hup1 : upToDate b1).
      { unfold upToDate. rewrite renderConflicts_panel. rewrite Eb1.
        reflexivity. }
      assert (Hnd1 : NoDup (map k_id (mockConflicts b1)))
        by now rewrite Hc1, map_resolve_ids.
      assert (Hknown : forall i, known b1 i = known b i).
      { intros i. unfold known. rewrite Hc1. apply existsb_resolve_ids. }
      destruct (IH b1 Hnd1) as (Hc & Hr & Hup).
      rewrite Hc, Hr, Hc1, Hr1, map_map.
      rewrite (filter_ext _ _ Hknown). cbn [length orb].
      split; [|split; [lia | intros _; apply Hup; now left]].
      apply map_ext. intros c.
      rewrite String.eqb_sym.
      destruct (String.eqb id (k_id c)) eqn:E; cbn [orb existsb k_id
        markResolved]; [|reflexivity].
      now destruct (existsb (String.eqb (k_id c)) ids).
    + subst b1. destruct (IH b Hnd) as (Hc & Hr & Hup).
      rewrite Hc, Hr. cbn [orb].
      split; [|split; [reflexivity | exact Hup]].
      apply map_ext_in. intros c Hin.
      assert (E : String.eqb (k_id c) id = false).
      { destruct (String.eqb (k_id c) id) eqn:E; [|reflexivity].
        unfold known in Hk.
        assert (Ht : existsb (fun c0 => String.eqb (k_id c0) id)
                       (mockConflicts b) = true)
          by (apply existsb_exists; now exists c).
        congruence. }
      cbn [existsb]. now rewrite E.
Qed.

Lemma findIndex_resolveAt id idx l :
  findIndex (fun c => String.eqb (k_id c) id) (resolveAt idx l)
  = findIndex (fun c => String.eqb (k_id c) id) l.
Proof.
  revert idx. induction l as [|c l IH]; intros idx; [now destruct idx|].
  destruct idx as [|i]; cbn [resolveAt findIndex]; [reflexivity|].
  now rewrite IH.
Qed.

Lemma resolveAt_again idx l :
  resolveAt idx (resolveAt idx l) = resolveAt idx l.
Proof.
  revert idx. induction l as [|c l IH]; intros idx; [now destruct idx|].
  destruct idx as [|i]; cbn [resolveAt]; [reflexivity|].
  now rewrite IH.
Qed.

Lemma map_k_id_in_ids (l : list Conflict) c :
  In c l -> existsb (String.eqb (k_id c)) (map k_id l) = true.
Proof.
  intros Hin. apply existsb_exists. exists (k_id c).
  split; [now apply in_map | apply String.eqb_refl].
Qed.

Lemma none_open_after_resolve l :
  filter (fun c => String.eqb (k_status c) "open") (map markResolved l) = [].
Proof.
  induction l as [|c l IH]; [reflexivity|].
  cbn [map filter markResolved k_status]. exact IH.
Qed.

(** X19.  On a board whose conflicts have pairwise different ids, marking
    every conflict resolved, one call per id in the order of the board,
    leaves every conflict resolved and otherwise as it was, raises the
    resolved counter by the number of conflicts, and leaves a panel with no
    card, 0 critical, 0 warnings, 0 in the navigation badge and the new
    counter. *)
Theorem resolve_all_clears_panel (b : Board) :
  NoDup (map k_id (mockConflicts b)) ->
  mockConflicts b <> [] ->
  let b' := snd (resolveEach (map k_id (mockConflicts b)) b) in
  mockConflicts b' = map markResolved (mockConflicts b)
  /\ stats_resolved b'
     = (stats_resolved b + Z.of_nat (length (mockConflicts b)))%Z
  /\ panel b'
     = mkPanel [] "0" "0"
         (JsString.numberToString (Some (stats_resolved b'))) "0".
Proof.
  intros Hnd Hne b'.
  destruct (resolveEach_run (map k_id (mockConflicts b)) b Hnd)
    as (Hc & Hr & Hup).
  fold b' in Hc, Hr, Hup.
  assert (Hall : mockConflicts b' = map markResolved (mockConflicts b)).
  { rewrite Hc. apply map_ext_in. intros c Hin.
    now rewrite (map_k_id_in_ids _ c Hin). }
  assert (Hknown : forall id, In id (map k_id (mockConflicts b)) ->
                              known b id = true).
  { intros id Hin. apply in_map_iff in Hin as (c & Hid & Hin).
    apply existsb_exists. exists c. split; [exact Hin|].
    now apply String.eqb_eq. }
  split; [exact Hall|]. split.
  - rewrite Hr. rewrite (filter_all_true (known b)).
    + now rewrite length_map.
    + apply Forall_forall. exact Hknown.
  - assert (Hsome : existsb (known b) (map k_id (mockConflicts b)) = true).
    { destruct (mockConflicts b) as [|c l] eqn:E; [contradiction|].
      cbn [map existsb]. rewrite Hknown; [reflexivity | now left]. }
    rewrite (Hup (or_intror Hsome)), renderConflicts_panel.
    cbn [snd panel].
    assert (Hopen : openConflicts b' = []).
    { unfold openConflicts. rewrite Hall. apply none_open_after_resolve. }
    rewrite Hopen. reflexivity.
Qed.

(** X20.  The resolved counter counts calls, not conflicts: calling
    [resolveConflict] again and again with the id of a conflict on the
    board leaves the conflicts as the first call left them, and raises the
    counter once more with every call. *)
Theorem resolved_counter_counts_calls (b : Board) (id : string) (n : nat) :
  known b id = true ->
  let b' := snd (resolveEach (repeat id (S n)) b) in
  mockConflicts b' = mockConflicts (snd (resolveConflict id b))
  /\ stats_resolved b' = (stats_resolved b + Z.of_nat (S n))%Z.
Proof.
  intros Hk b'. subst b'. unfold known in Hk.
  destruct (findIndex (fun c => String.eqb (k_id c) id) (mockConflicts b))
    as [idx|] eqn:Hfind;
    [|apply findIndex_none in Hfind; congruence].
  assert (Hcalls : forall m conflicts r p,
             findIndex (fun c => String.eqb (k_id c) id) conflicts
             = Some idx ->
             let b1 := snd (resolveEach (repeat id m)
                              (mkBoard (resolveAt idx conflicts) r p)) in
             mockConflicts b1 = resolveAt idx conflicts
             /\ stats_resolved b1 = (r + Z.of_nat m)%Z).
  { induction m as [|m IH]; intros conflicts r p Hf.
    - cbn. split; [reflexivity | lia].
    - cbn [repeat resolveEach]. unfold bind, resolveConflict.
      cbn [mockConflicts stats_resolved panel].
      rewrite findIndex_resolveAt, Hf, resolveAt_again.
      rewrite renderConflicts_panel.
      cbn [mockConflicts stats_resolved panel].
      destruct (IH conflicts (r + 1)%Z
                  (mkPanel
                     (openConflicts
                        (mkBoard (resolveAt idx conflicts) (r + 1)%Z p))
                     (countText (severityCount "critical"
                        (openConflicts
                           (mkBoard (resolveAt idx conflicts) (r + 1)%Z p))))
                     (countText (severityCount "warning"
                        (openConflicts
                           (mkBoard (resolveAt idx conflicts) (r + 1)%Z p))))
                     (JsString.numberToString (Some (r + 1)%Z))
                     (countText
                        (severityCount "critical"
                           (openConflicts
                              (mkBoard (resolveAt idx conflicts) (r + 1)%Z
                                 p))
                         + severityCount "warning"
                             (openConflicts
                                (mkBoard (resolveAt idx conflicts) (r + 1)%Z
                                   p))))) Hf) as [Hc Hr].
      split; [exact Hc | rewrite Hr; lia]. }
  cbn [repeat resolveEach]. unfold bind, resolveConflict. rewrite Hfind.
  rewrite renderConflicts_panel. cbn [snd mockConflicts stats_resolved].
  match goal with
  | |- context [resolveEach (repeat id n) (mkBoard _ ?r ?p)] =>
      destruct (Hcalls n (mockConflicts b) r p Hfind) as [Hc Hr]
  end.
  split; [exact Hc | rewrite Hr; lia].
Qed.

End ConflictFacts.

Lemma resolve_all_clears_panel_witness :
  panel (snd (resolveEach ["C-101"; "C-102"; "C-103"; "C-104"] Desk.board))
  = mkPanel [] "0" "0" "18" "0".
Proof.
  refine (proj2 (proj2 (resolve_all_clears_panel Desk.board _ _))).
  - repeat constructor; cbn; intuition discriminate.
  - discriminate.
Defined.

Lemma resolved_counter_counts_calls_witness :
  stats_resolved (snd (resolveEach ["C-103"; "C-103"; "C-103"] Desk.board))
  = 17%Z.
Proof.
  exact (proj2 (resolved_counter_counts_calls Desk.board "C-103" 2 eq_refl)).
Defined.
